(** * claude_headless.py: a shallow embedding of the launcher

    The launcher runs the [claude] command line program in one of three
    ways: synchronously under [script(1)], detached in the background with
    a log file, or inside a [tmux] session that is driven by keystrokes.

    Python values are modelled as follows.
    - [str] is a list of Unicode code points ([N]); literals are written
      [py "..."].
    - The operating system is a record of oracles ([World]): the file
      system, the environment, the clock's calendar, the outcome of every
      subprocess and the content of the tmux pane at every capture.
    - Effects are threaded through a state-and-exception monad ([M]) whose
      state holds the wall clock, the number of pane captures done so far
      and the trace of actions performed.
    - Time is counted in whole milliseconds.  A sleep lasts exactly as long
      as asked, a pane capture as long as the world says, and every other
      action takes no time.  The program reads its clock in floating-point
      seconds: where a clock reading falls exactly on a deadline, rounding
      of the deadline may give the program one more poll than the model
      makes.  What is stated about time below is therefore kept to what
      such rounding leaves true: bounds that are not strict, and orders
      between readings that differ. *)

From Stdlib Require Import List NArith ZArith Bool String Ascii Lia.
Import ListNotations.

Local Open Scope N_scope.

(** ** Python strings *)

Definition char := N.
Definition str := list char.

Definition py (s : string) : str := map N_of_ascii (list_ascii_of_string s).

Definition str_eqb (a b : str) : bool :=
  if list_eq_dec N.eq_dec a b then true else false.

(** Truthiness of a [str] and of an optional [str] ([if s:]). *)
Definition truthy (s : str) : bool := match s with [] => false | _ => true end.
Definition otruthy (s : option str) : bool :=
  match s with Some (_ :: _) => true | _ => false end.

(** [str.startswith]. *)
Fixpoint startswith (s prefix : str) : bool :=
  match prefix, s with
  | [], _ => true
  | p :: ps, c :: cs => (c =? p) && startswith cs ps
  | _ :: _, [] => false
  end.

(** [str.isspace] on one code point (Unicode White_Space plus the
    information separators, as CPython has it). *)
Definition is_space (c : char) : bool :=
  ((9 <=? c) && (c <=? 13)) || ((28 <=? c) && (c <=? 31)) || (c =? 32)
  || (c =? 133) || (c =? 160) || (c =? 5760)
  || ((8192 <=? c) && (c <=? 8202)) || (c =? 8232) || (c =? 8233)
  || (c =? 8239) || (c =? 8287) || (c =? 12288).

(** The line boundaries of [str.splitlines]. *)
Definition is_linebreak (c : char) : bool :=
  ((10 <=? c) && (c <=? 13)) || ((28 <=? c) && (c <=? 30))
  || (c =? 133) || (c =? 8232) || (c =? 8233).



Definition SLASH : char := 47.

(** [str.lstrip], [str.rstrip], [str.strip] without argument. *)
Fixpoint lstrip (s : str) : str :=
  match s with
  | c :: r => if is_space c then lstrip r else s
  | [] => []
  end.

Definition rstrip (s : str) : str := rev (lstrip (rev s)).
Definition strip (s : str) : str := rstrip (lstrip s).

(** [str.splitlines]: [cur] is the line read so far.  A carriage return
    followed by a line feed is one boundary; no empty last line is
    produced when the text ends with a boundary. *)
Fixpoint splitlines_from (cur s : str) : list str :=
  match s with
  | [] => match cur with [] => [] | _ => [cur] end
  | c :: rest =>
      if is_linebreak c then
        cur :: match rest with
               | c2 :: rest2 =>
                   if (c =? 13) && (c2 =? 10) then splitlines_from [] rest2
                   else splitlines_from [] rest
               | [] => splitlines_from [] rest
               end
      else splitlines_from (cur ++ [c]) rest
  end.

Definition splitlines (s : str) : list str := splitlines_from [] s.

(** [str.split(":")]: always at least one field. *)
Fixpoint split_on_from (sep : char) (cur s : str) : list str :=
  match s with
  | [] => [cur]
  | c :: rest =>
      if c =? sep then cur :: split_on_from sep [] rest
      else split_on_from sep (cur ++ [c]) rest
  end.

Definition split_on (sep : char) (s : str) : list str := split_on_from sep [] s.

(** [sep.join(parts)]. *)
Fixpoint join (sep : str) (parts : list str) : str :=
  match parts with
  | [] => []
  | [p] => p
  | p :: rest => p ++ sep ++ join sep rest
  end.

(** ** Mode selection *)

(** [looks_like_slash_commands]. *)
Definition looks_like_slash_commands (prompt : option str) : bool :=
  match prompt with
  | None => false
  | Some [] => false
  | Some p => existsb (fun line => startswith (strip line) (py "/")) (splitlines p)
  end.

(** Whether a line, trimmed, begins with a slash. *)
Definition slash_first (line : str) : bool := startswith (strip line) (py "/").

(** The [--mode] choices. *)
Inductive Mode := Auto | Headless | Interactive.

Definition mode_eqb (a b : Mode) : bool :=
  match a, b with
  | Auto, Auto | Headless, Headless | Interactive, Interactive => true
  | _, _ => false
  end.

(** [main], "Determine mode": the value of the local [mode]. *)
Definition resolve_mode (mode : Mode) (prompt : option str) : Mode :=
  if mode_eqb mode Auto && looks_like_slash_commands prompt then Interactive
  else mode.

(** [main], the three-way branch that follows. *)
Inductive Route := ToBackground | ToInteractive | ToHeadless.

Definition dispatch (background : bool) (mode : Mode) : Route :=
  if background && negb (mode_eqb mode Interactive) then ToBackground
  else if mode_eqb mode Interactive then ToInteractive
  else ToHeadless.

(** The prompt as a one-pass scan: [fresh] tells whether only white space
    has been read since the last line boundary. *)
Fixpoint slash_scan (fresh : bool) (s : str) : bool :=
  match s with
  | [] => false
  | c :: r =>
      if is_linebreak c then slash_scan true r
      else if fresh then
        if c =? SLASH then true
        else if is_space c then slash_scan true r
        else slash_scan false r
      else slash_scan false r
  end.

(** "Some line of P, after trimming white space, begins with a slash",
    said without the library functions: a slash preceded, back to the start
    of the text or to a line boundary, by white space only. *)
Definition at_line_start (pre : str) : Prop :=
  pre = [] \/ exists pre' b, pre = pre' ++ [b] /\ is_linebreak b = true.

Definition has_slash_line (P : str) : Prop :=
  exists pre ws post,
    P = pre ++ ws ++ SLASH :: post
    /\ forallb is_space ws = true
    /\ at_line_start pre.

(** ** Numbers in f-strings and [time.strftime] *)

Fixpoint digits_from (fuel : nat) (n : N) (acc : str) : str :=
  match fuel with
  | O => acc
  | S f =>
      let acc' := (48 + n mod 10) :: acc in
      if n / 10 =? 0 then acc' else digits_from f (n / 10) acc'
  end.

(** [str(n)] for a natural number. *)
Definition decimal (n : N) : str := digits_from (S (N.to_nat (N.log2 n))) n [].

(** [str(z)] for an [int]. *)
Definition decimalZ (z : Z) : str :=
  match z with
  | Zneg p => py "-" ++ decimal (Npos p)
  | _ => decimal (Z.to_N z)
  end.

(** Zero padding to a minimal width, as [%m], [%d], [%H], [%M], [%S] and
    [%Y] do. *)
Definition zfill (width : nat) (s : str) : str :=
  repeat 48 (width - List.length s)%nat ++ s.

(** [time.struct_time], the fields the two formats read. *)
Record struct_time := {
  tm_year : N; tm_mon : N; tm_mday : N;
  tm_hour : N; tm_min : N; tm_sec : N
}.

(** [time.strftime("%Y%m%d-%H%M%S")]. *)
Definition strftime_compact (t : struct_time) : str :=
  zfill 4 (decimal (tm_year t)) ++ zfill 2 (decimal (tm_mon t))
  ++ zfill 2 (decimal (tm_mday t)) ++ py "-"
  ++ zfill 2 (decimal (tm_hour t)) ++ zfill 2 (decimal (tm_min t))
  ++ zfill 2 (decimal (tm_sec t)).

(** [time.strftime("%Y-%m-%d %H:%M:%S")]. *)
Definition strftime_iso (t : struct_time) : str :=
  zfill 4 (decimal (tm_year t)) ++ py "-" ++ zfill 2 (decimal (tm_mon t))
  ++ py "-" ++ zfill 2 (decimal (tm_mday t)) ++ py " "
  ++ zfill 2 (decimal (tm_hour t)) ++ py ":" ++ zfill 2 (decimal (tm_min t))
  ++ py ":" ++ zfill 2 (decimal (tm_sec t)).

(** ** Paths *)

Definition endswith_slash (s : str) : bool :=
  match rev s with c :: _ => c =? SLASH | [] => false end.

(** [os.path.join(a, b)] (posixpath). *)
Definition os_path_join (a b : str) : str :=
  if startswith b (py "/") then b
  else if negb (truthy a) || endswith_slash a then a ++ b
  else a ++ py "/" ++ b.

(** The root of a POSIX pure path: exactly two leading slashes are kept. *)
Definition posix_root (raw : str) : str :=
  match raw with
  | 47 :: 47 :: 47 :: _ => py "/"
  | 47 :: 47 :: _ => py "//"
  | 47 :: _ => py "/"
  | _ => []
  end.

(** [str(PurePosixPath(raw))]: empty and [.] components are dropped. *)
Definition pure_path_str (raw : str) : str :=
  let parts :=
    filter (fun p => truthy p && negb (str_eqb p (py "."))) (split_on SLASH raw) in
  let s := posix_root raw ++ join (py "/") parts in
  if truthy s then s else py ".".

(** [str(Path(p) / name)]. *)
Definition path_div (p name : str) : str := pure_path_str (os_path_join p name).

(** A path made of a root slash and components: [/a/b/c]. *)
Definition under_root (comps : list str) : str :=
  flat_map (fun c => SLASH :: c) comps.

(** An ordinary path component: not empty, without a slash, and not [.]. *)
Definition plain_component (c : str) : Prop :=
  c <> [] /\ ~ In SLASH c /\ c <> py ".".

(** ** Exceptions and results *)

Inductive exn := OSError | CalledProcessError | ValueError | OverflowError.

(** [OutOfFuel] is the model's own outcome for a loop that was given too
    few iterations; no [except] clause catches it. *)
Inductive Result (A : Type) :=
| Ok (a : A)
| Raise (e : exn)
| OutOfFuel.
Arguments Ok {A} a.
Arguments Raise {A} e.
Arguments OutOfFuel {A}.

(** ** The operating system *)

(** How starting a process ends: it cannot be executed, or it runs as
    [pid] and (eventually) exits with [returncode] after writing [out] and
    [err]. *)
Inductive Spawned :=
| SpawnFails
| Child (pid : Z) (returncode : Z) (out err : str).

(** One [tmux capture-pane]: how long it takes and how it ends. *)
Inductive CaptureResult :=
| Buffer (buf : str)       (* exit status 0, the pane text *)
| CaptureExitError         (* non-zero exit status: CalledProcessError *)
| CaptureExecError.        (* tmux could not be executed: OSError *)

Record Capture := { cap_ms : N; cap_result : CaptureResult }.

Record World := {
  env_PATH : option str;              (* os.environ.get("PATH") *)
  fs_exists : str -> bool;            (* Path(p).exists() *)
  fs_exists_raises : str -> bool;     (* Path(p).exists() raises OSError
                                         instead of answering *)
  fs_is_file : str -> option bool;    (* Path(p).is_file(); None: OSError *)
  fs_access_x : str -> bool;          (* os.access(p, os.X_OK) *)
  os_getcwd : str;                    (* os.getcwd() *)
  os_makedirs : str -> bool;          (* os.makedirs(p, exist_ok=True) succeeds *)
  os_open_w : str -> bool;            (* open(p, "w") succeeds *)
  localtime : Z -> struct_time;       (* the calendar at a clock value *)
  spawn : list str -> option str -> Spawned;
  pane : nat -> Capture               (* the n-th capture of the pane *)
}.

(** ** Target lookup *)

(** [cand.is_file() and os.access(cand, os.X_OK)]. *)
Definition is_executable_file (w : World) (cand : str) : Result bool :=
  match fs_is_file w cand with
  | None => Raise OSError
  | Some false => Ok false
  | Some true => Ok (fs_access_x w cand)
  end.

(** The [for] loop of [which] over the directories that remain. *)
Fixpoint which_scan (w : World) (name : str) (dirs : list str)
  : Result (option str) :=
  match dirs with
  | [] => Ok None
  | p :: rest =>
      let cand := path_div p name in
      match is_executable_file w cand with
      | Ok true => Ok (Some cand)
      | Ok false => which_scan w name rest
      | Raise OSError => which_scan w name rest      (* except OSError: pass *)
      | Raise e => Raise e
      | OutOfFuel => OutOfFuel
      end
  end.

Definition search_path (w : World) : list str :=
  split_on 58 (match env_PATH w with Some p => p | None => [] end).

(** [which]. *)
Definition which (w : World) (name : str) : Result (option str) :=
  which_scan w name (search_path w).

(** ** Shell quoting *)

(** The characters [shlex.quote] leaves alone: [[\w@%+=:,./-]], ASCII. *)
Definition is_safe_char (c : char) : bool :=
  ((97 <=? c) && (c <=? 122)) || ((65 <=? c) && (c <=? 90))
  || ((48 <=? c) && (c <=? 57)) || (c =? 95)
  || (c =? 64) || (c =? 37) || (c =? 43) || (c =? 61) || (c =? 58)
  || (c =? 44) || (c =? 46) || (c =? 47) || (c =? 45).

Definition SQUOTE : char := 39.
Definition DQUOTE : char := 34.
Definition BACKSLASH : char := 92.

(** [s.replace("'", "'\"'\"'")]. *)
Definition escape_squotes (s : str) : str :=
  flat_map (fun c => if c =? SQUOTE then [SQUOTE; DQUOTE; SQUOTE; DQUOTE; SQUOTE]
                     else [c]) s.

(** [shlex.quote]. *)
Definition shlex_quote (s : str) : str :=
  if negb (truthy s) then [SQUOTE; SQUOTE]
  else if forallb is_safe_char s then s
  else SQUOTE :: escape_squotes s ++ [SQUOTE].

(** [' '.join(shlex.quote(c) for c in cmd)]. *)
Definition command_line (cmd : list str) : str :=
  join (py " ") (map shlex_quote cmd).

(** ** Shell unquoting: [shlex.split] in POSIX mode

    The reader of the log header undoes the quoting with the standard
    lexer.  Its states are: between words, inside a word, inside a quoted
    stretch, and after a backslash (remembering the quote to return to). *)
Inductive LexState :=
| LSpace
| LWord
| LQuote (q : char)
| LEscape (back : option char).

Definition is_shell_ws (c : char) : bool :=
  (c =? 32) || (c =? 9) || (c =? 13) || (c =? 10).

Definition is_shell_quote (c : char) : bool := (c =? SQUOTE) || (c =? DQUOTE).

(** [None] stands for [ValueError] (no closing quotation, no escaped
    character).  [acc] holds the finished words, newest first. *)
Fixpoint shlex_run (st : LexState) (token : str) (quoted : bool)
    (acc : list str) (input : str) : option (list str) :=
  match input with
  | [] =>
      match st with
      | LSpace | LWord =>
          Some (rev (if truthy token || quoted then token :: acc else acc))
      | LQuote _ | LEscape _ => None
      end
  | c :: rest =>
      match st with
      | LSpace =>
          if is_shell_ws c then
            if truthy token || quoted then shlex_run LSpace [] false (token :: acc) rest
            else shlex_run LSpace token quoted acc rest
          else if c =? BACKSLASH then shlex_run (LEscape None) token quoted acc rest
          else if is_shell_quote c then shlex_run (LQuote c) token quoted acc rest
          else shlex_run LWord [c] quoted acc rest
      | LWord =>
          if is_shell_ws c then
            if truthy token || quoted then shlex_run LSpace [] false (token :: acc) rest
            else shlex_run LSpace token quoted acc rest
          else if is_shell_quote c then shlex_run (LQuote c) token quoted acc rest
          else if c =? BACKSLASH then shlex_run (LEscape None) token quoted acc rest
          else shlex_run LWord (token ++ [c]) quoted acc rest
      | LQuote q =>
          if c =? q then shlex_run LWord token true acc rest
          else if (c =? BACKSLASH) && (q =? DQUOTE) then
            shlex_run (LEscape (Some q)) token true acc rest
          else shlex_run (LQuote q) (token ++ [c]) true acc rest
      | LEscape back =>
          match back with
          | Some q =>
              let token' :=
                if negb (c =? BACKSLASH) && negb (c =? q) then token ++ [BACKSLASH]
                else token in
              shlex_run (LQuote q) (token' ++ [c]) quoted acc rest
          | None => shlex_run LWord (token ++ [c]) quoted acc rest
          end
      end
  end.

Definition shlex_split (s : str) : option (list str) :=
  shlex_run LSpace [] false [] s.

(** ** Effects *)

Local Open Scope Z_scope.

(** Where a child's standard output goes. *)
Inductive Stdio := Inherited | Piped | DevNull | ToFile (path : str).

(** What the launcher does to the outside, in order. *)
Inductive Event :=
| EPrint (text : str)                 (* sys.stdout *)
| EPrintErr (text : str)              (* sys.stderr *)
| EMakedirs (path : str)
| EOpen (path : str)
| EWrite (path text : str)
| EFlush (path : str)
| EClose (path : str)
| ESpawn (argv : list str) (dir : option str) (stdout : Stdio) (new_session : bool)
| EStdin (text : str)                 (* input piped to the child just started *)
| ESleep (ms : Z).

(** [now]: wall clock in milliseconds; [captures]: pane captures done. *)
Record State := { now : Z; captures : nat; trace : list Event }.

Definition M (A : Type) := State -> Result A * State.

Definition ret {A} (a : A) : M A := fun s => (Ok a, s).

Definition bind {A B} (c : M A) (k : A -> M B) : M B :=
  fun s =>
    match c s with
    | (Ok a, s1) => k a s1
    | (Raise e, s1) => (Raise e, s1)
    | (OutOfFuel, s1) => (OutOfFuel, s1)
    end.

Declare Scope prog_scope.
Delimit Scope prog_scope with prog.
Notation "x <- c ;; k" := (bind c (fun x => k))
  (at level 61, c at next level, right associativity) : prog_scope.
Notation "c ;; k" := (bind c (fun _ => k))
  (at level 61, right associativity) : prog_scope.
Local Open Scope prog_scope.

Definition raise {A} (e : exn) : M A := fun s => (Raise e, s).

Definition lift {A} (r : Result A) : M A := fun s => (r, s).

Definition exn_eqb (a b : exn) : bool :=
  match a, b with
  | OSError, OSError | CalledProcessError, CalledProcessError
  | ValueError, ValueError | OverflowError, OverflowError => true
  | _, _ => false
  end.

(** [try: c  except e: handler]. *)
Definition try_except {A} (c : M A) (e : exn) (handler : M A) : M A :=
  fun s =>
    match c s with
    | (Raise e', s1) => if exn_eqb e' e then handler s1 else (Raise e', s1)
    | r => r
    end.

(** [try: c  except Exception: pass]. *)
Definition best_effort (c : M unit) : M unit :=
  fun s =>
    match c s with
    | (Raise _, s1) => (Ok tt, s1)
    | r => r
    end.

(** [try: c  finally: f], as the [with] statement needs it. *)
Definition finally {A} (c : M A) (f : M unit) : M A :=
  fun s =>
    match c s with
    | (r, s1) =>
        match f s1 with
        | (Ok _, s2) => (r, s2)
        | (Raise e, s2) => (Raise e, s2)
        | (OutOfFuel, s2) => (OutOfFuel, s2)
        end
    end.

Definition emit (ev : Event) : M unit :=
  fun s => (Ok tt, {| now := now s; captures := captures s;
                      trace := trace s ++ [ev] |}).

(** [time.time()], in milliseconds. *)
Definition clock : M Z := fun s => (Ok (now s), s).

(** [time.sleep] for a length that the platform's time type can hold (every
    constant length of the program is one): a negative length is a
    [ValueError]. *)
Definition sleep (ms : Z) : M unit :=
  if ms <? 0 then raise ValueError
  else fun s => (Ok tt, {| now := now s + ms; captures := captures s;
                           trace := trace s ++ [ESleep ms] |}).

(** The longest sleeps that [time.sleep] accepts.  The length is turned
    into a signed 64-bit count of nanoseconds; one that does not fit is an
    [OverflowError], whatever its sign, and the test for a negative length
    comes after.  A float of seconds made from whole milliseconds fits up to
    [SLEEP_MAX_MS] (dividing an [int] too large for a float by [1000.0] is
    an [OverflowError] as well), an [int] of seconds up to [SLEEP_MAX_S]. *)
Definition SLEEP_MAX_MS : Z := 9223372036854.
Definition SLEEP_MAX_S : Z := 9223372036.

(** [time.sleep] for a length taken from the command line, of at most
    [limit_ms] milliseconds in absolute value. *)
Definition sleep_arg (limit_ms ms : Z) : M unit :=
  if (ms <? - limit_ms) || (limit_ms <? ms) then raise OverflowError
  else sleep ms.

(** [print(text)] and [print(text, file=sys.stderr)]; [end=""] variants. *)
Definition NL : char := 10%N.
Definition print (text : str) : M unit := emit (EPrint (text ++ [NL])).
Definition print_noend (text : str) : M unit := emit (EPrint text).
Definition eprint (text : str) : M unit := emit (EPrintErr (text ++ [NL])).
Definition eprint_noend (text : str) : M unit := emit (EPrintErr text).

(** [subprocess.run(argv, cwd=dir)] without [check]: only a failure to
    execute raises.  On the model's clock the process takes no time (the
    pane captures, whose duration matters to the waits, are modelled apart,
    in [tmux_capture]). *)
Definition subprocess_run (w : World) (argv : list str) (dir : option str)
    (stdout : Stdio) : M (Z * str * str) :=
  emit (ESpawn argv dir stdout false) ;;
  match spawn w argv dir with
  | SpawnFails => raise OSError
  | Child _ rc out err => ret (rc, out, err)
  end.

(** [subprocess.check_call(argv)]. *)
Definition check_call (w : World) (argv : list str) : M unit :=
  r <- subprocess_run w argv None Inherited ;;
  let '(rc, _, _) := r in
  if rc =? 0 then ret tt else raise CalledProcessError.

(** [subprocess.Popen(argv, ..., start_new_session=True)]: the pid. *)
Definition popen_detached (w : World) (argv : list str) (dir : option str)
    (stdout : Stdio) : M Z :=
  emit (ESpawn argv dir stdout true) ;;
  match spawn w argv dir with
  | SpawnFails => raise OSError
  | Child pid _ _ _ => ret pid
  end.

(** The command line of [notify_macos]. *)
Definition notify_argv (title message : str) : list str :=
  [py "osascript"; py "-e";
   py "display notification " ++ [DQUOTE] ++ message ++ [DQUOTE]
   ++ py " with title " ++ [DQUOTE] ++ title ++ [DQUOTE]].

(** [notify_macos]. *)
Definition notify_macos (w : World) (title message : str) : M unit :=
  best_effort (subprocess_run w (notify_argv title message) None Piped ;; ret tt).

(** [copy_to_clipboard]. *)
Definition copy_to_clipboard (w : World) (text : str) : M unit :=
  best_effort (
    emit (ESpawn [py "pbcopy"] None Inherited false) ;;
    match spawn w [py "pbcopy"] None with
    | SpawnFails => raise OSError
    | Child _ _ _ _ => emit (EStdin text)
    end).

(** ** Arguments *)

(** The [argparse.Namespace] that [main] builds. *)
Record Args := {
  arg_prompt : option str;
  arg_mode : Mode;
  arg_permission_mode : option str;
  arg_allowed_tools : option str;
  arg_output_format : option str;
  arg_json_schema : option str;
  arg_append_system_prompt : option str;
  arg_system_prompt : option str;
  arg_continue_latest : bool;
  arg_resume : option str;
  arg_claude_bin : str;
  arg_cwd : option str;
  arg_notify : bool;
  arg_clipboard : bool;
  arg_background : bool;
  arg_log_dir : str;
  arg_tmux_session : str;
  arg_interactive_wait_s : Z;
  arg_interactive_send_delay_ms : Z;
  arg_extra : list str
}.

Definition set_claude_bin (a : Args) (bin : str) : Args :=
  {| arg_prompt := arg_prompt a; arg_mode := arg_mode a;
     arg_permission_mode := arg_permission_mode a;
     arg_allowed_tools := arg_allowed_tools a;
     arg_output_format := arg_output_format a;
     arg_json_schema := arg_json_schema a;
     arg_append_system_prompt := arg_append_system_prompt a;
     arg_system_prompt := arg_system_prompt a;
     arg_continue_latest := arg_continue_latest a;
     arg_resume := arg_resume a; arg_claude_bin := bin;
     arg_cwd := arg_cwd a; arg_notify := arg_notify a;
     arg_clipboard := arg_clipboard a; arg_background := arg_background a;
     arg_log_dir := arg_log_dir a; arg_tmux_session := arg_tmux_session a;
     arg_interactive_wait_s := arg_interactive_wait_s a;
     arg_interactive_send_delay_ms := arg_interactive_send_delay_ms a;
     arg_extra := arg_extra a |}.

Definition set_extra (a : Args) (extra : list str) : Args :=
  {| arg_prompt := arg_prompt a; arg_mode := arg_mode a;
     arg_permission_mode := arg_permission_mode a;
     arg_allowed_tools := arg_allowed_tools a;
     arg_output_format := arg_output_format a;
     arg_json_schema := arg_json_schema a;
     arg_append_system_prompt := arg_append_system_prompt a;
     arg_system_prompt := arg_system_prompt a;
     arg_continue_latest := arg_continue_latest a;
     arg_resume := arg_resume a; arg_claude_bin := arg_claude_bin a;
     arg_cwd := arg_cwd a; arg_notify := arg_notify a;
     arg_clipboard := arg_clipboard a; arg_background := arg_background a;
     arg_log_dir := arg_log_dir a; arg_tmux_session := arg_tmux_session a;
     arg_interactive_wait_s := arg_interactive_wait_s a;
     arg_interactive_send_delay_ms := arg_interactive_send_delay_ms a;
     arg_extra := extra |}.

(** [if value: cmd += [flag, value]]. *)
Definition opt_flag (flag : str) (value : option str) : list str :=
  match value with
  | Some (c :: r) => [flag; c :: r]
  | _ => []
  end.

(** [value or default]. *)
Definition or_else (value : option str) (default : str) : str :=
  match value with
  | Some (c :: r) => c :: r
  | _ => default
  end.

(** [build_headless_cmd]. *)
Definition build_headless_cmd (a : Args) : list str :=
  [arg_claude_bin a]
  ++ opt_flag (py "--permission-mode") (arg_permission_mode a)
  ++ match arg_prompt a with Some p => [py "-p"; p] | None => [] end
  ++ opt_flag (py "--allowedTools") (arg_allowed_tools a)
  ++ opt_flag (py "--output-format") (arg_output_format a)
  ++ opt_flag (py "--json-schema") (arg_json_schema a)
  ++ opt_flag (py "--append-system-prompt") (arg_append_system_prompt a)
  ++ opt_flag (py "--system-prompt") (arg_system_prompt a)
  ++ (if arg_continue_latest a then [py "--continue"] else [])
  ++ opt_flag (py "--resume") (arg_resume a)
  ++ arg_extra a.

(** ** Background launcher *)

(** The three header writes of [run_background]. *)
Definition header_command (cmd : list str) : str :=
  py "# Command: " ++ command_line cmd ++ [NL].
Definition header_started (t : struct_time) : str :=
  py "# Started: " ++ strftime_iso t ++ [NL].
Definition header_cwd (w : World) (dir : option str) : str :=
  py "# CWD: " ++ or_else dir (os_getcwd w) ++ [NL; NL].

(** [os.path.join(log_dir, f"claude-{timestamp}.log")]. *)
Definition log_file_path (log_dir : str) (t : struct_time) : str :=
  os_path_join log_dir (py "claude-" ++ strftime_compact t ++ py ".log").

(** The pseudo-terminal wrapping shared by the runners. *)
Definition wrap_with_script (script_bin : option str) (cmd : list str) : list str :=
  match script_bin with
  | Some (c :: r) => [c :: r; py "-q"; py "/dev/null"] ++ cmd
  | _ => cmd
  end.

(** The shell loop that [run_background] starts with [--notify]. *)
Definition watcher_script (pid : Z) : str :=
  py "while kill -0 " ++ decimalZ pid ++ py " 2>/dev/null; do sleep 2; done; "
  ++ py "osascript -e 'display notification " ++ [DQUOTE]
  ++ py "Background task finished (PID " ++ decimalZ pid ++ py ")" ++ [DQUOTE]
  ++ py " with title " ++ [DQUOTE] ++ py "Claude Code" ++ [DQUOTE] ++ py "'".

(** [run_background].  The model takes the header to be text that the
    log file's encoding can hold and [os.getcwd] to answer; of the failures
    before the child is started it has those of [os.makedirs] and of
    [open].  The two time stamps are two readings of the clock. *)
Definition run_background (w : World) (cmd : list str) (dir : option str)
    (log_dir : str) (notify : bool) : M Z :=
  emit (EMakedirs log_dir) ;;
  (if os_makedirs w log_dir then ret tt else raise OSError) ;;
  t1 <- clock ;;
  let log_file := log_file_path log_dir (localtime w t1) in
  emit (EOpen log_file) ;;
  (if os_open_w w log_file then ret tt else raise OSError) ;;
  pid <- finally (
      emit (EWrite log_file (header_command cmd)) ;;
      t2 <- clock ;;
      emit (EWrite log_file (header_started (localtime w t2))) ;;
      emit (EWrite log_file (header_cwd w dir)) ;;
      emit (EFlush log_file) ;;
      script_bin <- lift (which w (py "script")) ;;
      popen_detached w (wrap_with_script script_bin cmd) dir (ToFile log_file))
    (emit (EClose log_file)) ;;
  print (py "Background process started:") ;;
  print (py "  PID:  " ++ decimalZ pid) ;;
  print (py "  Log:  " ++ log_file) ;;
  print (py "  Tail: tail -f " ++ shlex_quote log_file) ;;
  print (py "  Stop: kill " ++ decimalZ pid) ;;
  (if notify then
     popen_detached w [py "bash"; py "-c"; watcher_script pid] None DevNull ;; ret tt
   else ret tt) ;;
  ret 0.

(** ** Pseudo-terminal runner *)

(** [run_with_pty]. *)
Definition run_with_pty (w : World) (cmd : list str) (dir : option str) : M Z :=
  script_bin <- lift (which w (py "script")) ;;
  r <- subprocess_run w (wrap_with_script script_bin cmd) dir Inherited ;;
  let '(rc, _, _) := r in
  ret rc.

(** ** Terminal session controller *)

(** [tmux_cmd]. *)
Definition tmux_cmd (args : list str) : list str := py "tmux" :: args.

(** [pattern in buf]. *)
Fixpoint contains (buf pattern : str) : bool :=
  startswith buf pattern
  || match buf with
     | [] => false
     | _ :: r => contains r pattern
     end.

(** The command line of [tmux_capture]. *)
Definition capture_argv (target : str) (lines : N) : list str :=
  tmux_cmd [py "capture-pane"; py "-p"; py "-J"; py "-t"; target;
            py "-S"; py "-" ++ decimal lines].

(** [tmux_capture]: the pane changes over time, so its outcome is read
    from the world's capture oracle, and the capture takes time. *)
Definition tmux_capture (w : World) (target : str) (lines : N) : M str :=
  fun s =>
    let c := pane w (captures s) in
    let s1 := {| now := now s + Z.of_N (cap_ms c);
                 captures := S (captures s);
                 trace := trace s ++ [ESpawn (capture_argv target lines) None Piped false] |} in
    match cap_result c with
    | Buffer buf => (Ok buf, s1)
    | CaptureExitError => (Raise CalledProcessError, s1)
    | CaptureExecError => (Raise OSError, s1)
    end.

(** The [while time.time() < deadline] loop of [tmux_wait_for_text]. *)
Fixpoint wait_loop (w : World) (target pattern : str) (deadline poll_ms : Z)
    (fuel : nat) : M bool :=
  match fuel with
  | O => lift OutOfFuel
  | S fuel' =>
      t <- clock ;;
      if t <? deadline then
        found <- try_except
                   (buf <- tmux_capture w target 200 ;; ret (contains buf pattern))
                   CalledProcessError
                   (ret false) ;;
        if found then ret true
        else (sleep poll_ms ;; wait_loop w target pattern deadline poll_ms fuel')
      else ret false
  end.

(** Enough iterations for a positive poll interval. *)
Definition wait_fuel (timeout_ms poll_ms : Z) : nat :=
  S (S (Z.to_nat (timeout_ms / poll_ms))).

(** [tmux_wait_for_text]; durations are in milliseconds.  The deadline is
    computed once, from the clock at entry; the loop is left when a reading
    of the clock is not before it. *)
Definition tmux_wait_for_text (w : World) (target pattern : str)
    (timeout_ms poll_ms : Z) : M bool :=
  t0 <- clock ;;
  wait_loop w target pattern (t0 + timeout_ms) poll_ms (wait_fuel timeout_ms poll_ms).

Definition default_poll_ms : Z := 500.

Definition TRUST_PROMPT : str := py "Yes, I trust this folder".

(** [tmux_cmd("send-keys", "-t", target, key)]. *)
Definition send_keys (target key : str) : list str :=
  tmux_cmd [py "send-keys"; py "-t"; target; key].

(** [run_interactive_tmux], "Handle workspace trust prompt". *)
Definition handle_trust_prompt (w : World) (target : str) : M unit :=
  found <- tmux_wait_for_text w target TRUST_PROMPT 20000 default_poll_ms ;;
  if found then
    subprocess_run w (send_keys target (py "Enter")) None Inherited ;;
    sleep 800 ;;
    again <- tmux_wait_for_text w target TRUST_PROMPT 2000 default_poll_ms ;;
    if again then
      subprocess_run w (send_keys target (py "1")) None Inherited ;;
      subprocess_run w (send_keys target (py "Enter")) None Inherited ;;
      ret tt
    else ret tt
  else ret tt.

(** [run_interactive_tmux], "Send prompt lines". *)
Fixpoint send_prompt_lines (w : World) (target : str) (delay_ms : Z)
    (lines : list str) : M unit :=
  match lines with
  | [] => ret tt
  | line :: rest =>
      check_call w (tmux_cmd [py "send-keys"; py "-t"; target; py "-l"; py "--"; line]) ;;
      check_call w (tmux_cmd [py "send-keys"; py "-t"; target; py "Enter"]) ;;
      sleep_arg SLEEP_MAX_MS delay_ms ;;
      send_prompt_lines w target delay_ms rest
  end.

Definition interactive_parts (a : Args) : list str :=
  [arg_claude_bin a]
  ++ opt_flag (py "--permission-mode") (arg_permission_mode a)
  ++ opt_flag (py "--allowedTools") (arg_allowed_tools a)
  ++ opt_flag (py "--append-system-prompt") (arg_append_system_prompt a)
  ++ opt_flag (py "--system-prompt") (arg_system_prompt a)
  ++ (if arg_continue_latest a then [py "--continue"] else [])
  ++ opt_flag (py "--resume") (arg_resume a)
  ++ arg_extra a.

Definition TMUX_MISSING : str :=
  py "Error: tmux not found. Install via: brew install tmux".

(** [run_interactive_tmux]. *)
Definition run_interactive_tmux (w : World) (a : Args) : M Z :=
  tmux_bin <- lift (which w (py "tmux")) ;;
  if negb (otruthy tmux_bin) then
    eprint TMUX_MISSING ;; ret 2
  else
    let session := arg_tmux_session a in
    let target := session ++ py ":0.0" in
    subprocess_run w (tmux_cmd [py "kill-session"; py "-t"; session]) None DevNull ;;
    check_call w (tmux_cmd [py "new"; py "-d"; py "-s"; session; py "-n"; py "claude"]) ;;
    let dir := or_else (arg_cwd a) (os_getcwd w) in
    let launch := py "cd " ++ shlex_quote dir ++ py " && "
                  ++ command_line (interactive_parts a) in
    check_call w (tmux_cmd [py "send-keys"; py "-t"; target; py "-l"; py "--"; launch]) ;;
    check_call w (tmux_cmd [py "send-keys"; py "-t"; target; py "Enter"]) ;;
    handle_trust_prompt w target ;;
    (match arg_prompt a with
     | Some (c :: r) =>
         send_prompt_lines w target (arg_interactive_send_delay_ms a)
           (filter (fun ln => truthy (strip ln)) (splitlines (c :: r)))
     | _ => ret tt
     end) ;;
    print (py "Interactive Claude Code started in tmux session: " ++ session) ;;
    print (py "  Attach:   tmux attach -t " ++ shlex_quote session) ;;
    print (py "  Snapshot: tmux capture-pane -p -J -t " ++ shlex_quote target
           ++ py " -S -200") ;;
    (if 0 <? arg_interactive_wait_s a then
       sleep_arg (1000 * SLEEP_MAX_S) (1000 * arg_interactive_wait_s a) ;;
       try_except
         (snap <- tmux_capture w target 200 ;;
          print ([NL] ++ py "--- tmux snapshot (last 200 lines) ---" ++ [NL]) ;;
          print snap)
         CalledProcessError
         (ret tt)
     else ret tt) ;;
    ret 0.

(** ** Entry point *)

(** [main], "Strip leading '--' from extra args". *)
Definition strip_dashdash (extra : list str) : list str :=
  match extra with
  | first :: rest => if str_eqb first (py "--") then rest else extra
  | [] => extra
  end.

Definition CLAUDE_MISSING (bin : str) : str :=
  py "Error: claude binary not found at " ++ bin.

(** [main], "Resolve claude binary": the arguments to go on with, or
    nothing after the diagnostic.  [Path.exists] gives [False] for a path
    that is not there and lets every other failure of the underlying
    [stat] through (a name that is too long, a directory that may not be
    searched); [main] does not catch it. *)
Definition resolve_claude_binary (w : World) (a : Args) : M (option Args) :=
  if fs_exists_raises w (arg_claude_bin a) then raise OSError
  else if fs_exists w (arg_claude_bin a) then ret (Some a)
  else
    found <- lift (which w (py "claude")) ;;
    match found with
    | Some (c :: r) => ret (Some (set_claude_bin a (c :: r)))
    | _ =>
        eprint (CLAUDE_MISSING (arg_claude_bin a)) ;;
        eprint (py "Install: npm install -g @anthropic-ai/claude-code") ;;
        eprint (py "Or set CLAUDE_CODE_BIN=/path/to/claude") ;;
        ret None
    end.

(** [main], the branch [if args.clipboard]. *)
Definition run_for_clipboard (w : World) (cmd : list str) (dir : option str) : M Z :=
  r <- subprocess_run w ([py "script"; py "-q"; py "/dev/null"] ++ cmd) dir Piped ;;
  let '(rc, out, err) := r in
  print_noend out ;;
  (if truthy err then eprint_noend err else ret tt) ;;
  copy_to_clipboard w out ;;
  ret rc.

(** The message of the closing notification. *)
Definition task_status (rc : Z) : str :=
  py "Headless task "
  ++ (if rc =? 0 then py "completed" else py "failed (exit " ++ decimalZ rc ++ py ")").

(** [main], from "Determine mode" to the end. *)
Definition dispatch_run (w : World) (a : Args) : M Z :=
  let mode := resolve_mode (arg_mode a) (arg_prompt a) in
  match dispatch (arg_background a) mode with
  | ToBackground =>
      run_background w (build_headless_cmd a) (arg_cwd a) (arg_log_dir a)
        (arg_notify a)
  | route =>
      rc <- match route with
            | ToInteractive => run_interactive_tmux w a
            | _ =>
                if arg_clipboard a then
                  run_for_clipboard w (build_headless_cmd a) (arg_cwd a)
                else run_with_pty w (build_headless_cmd a) (arg_cwd a)
            end ;;
      (if arg_notify a then notify_macos w (py "Claude Code") (task_status rc)
       else ret tt) ;;
      ret rc
  end.

(** [main], after argument parsing. *)
Definition main (w : World) (parsed : Args) : M Z :=
  let a0 := set_extra parsed (strip_dashdash (arg_extra parsed)) in
  located <- resolve_claude_binary w a0 ;;
  match located with
  | None => ret 2
  | Some a => dispatch_run w a
  end.

(** The arguments [main] goes on with when the target is found: at the
    configured path, or else on the search path.  Nothing when the
    existence test raises or when the target is found at neither place. *)
Definition located_args (w : World) (parsed : Args) : option Args :=
  let a0 := set_extra parsed (strip_dashdash (arg_extra parsed)) in
  if fs_exists_raises w (arg_claude_bin a0) then None
  else if fs_exists w (arg_claude_bin a0) then Some a0
  else match which w (py "claude") with
       | Ok (Some (c :: r)) => Some (set_claude_bin a0 (c :: r))
       | _ => None
       end.

(** The state after some more events. *)
Definition after (evs : list Event) (s : State) : State :=
  {| now := now s; captures := captures s; trace := trace s ++ evs |}.

(** A fresh run: clock value [t0], nothing done yet. *)
Definition start (t0 : Z) : State := {| now := t0; captures := 0; trace := [] |}.

(** What went to [sys.stderr]. *)
Definition stderr_of (tr : list Event) : list str :=
  flat_map (fun ev => match ev with EPrintErr text => [text] | _ => [] end) tr.

(** The processes started. *)
Definition spawned_of (tr : list Event) : list (list str) :=
  flat_map (fun ev => match ev with ESpawn argv _ _ _ => [argv] | _ => [] end) tr.

(** What was written to [path] (the writes, concatenated). *)
Definition written_to (path : str) (tr : list Event) : str :=
  flat_map (fun ev => match ev with
                      | EWrite p text => if str_eqb p path then text else []
                      | _ => []
                      end) tr.

(** ** Sample worlds and arguments *)

Definition sample_time : struct_time :=
  {| tm_year := 2026; tm_mon := 3; tm_mday := 7;
     tm_hour := 9; tm_min := 5; tm_sec := 2 |}.

Definition idle_pane (n : nat) : Capture :=
  {| cap_ms := 0; cap_result := Buffer (py "$ ") |}.

(** A machine with [claude], [script] and [tmux] installed, where every
    child exits with [rc]. *)
Definition mac_world (rc : Z) : World :=
  {| env_PATH := Some (py "/usr/bin:/opt/homebrew/bin");
     fs_exists := fun p => str_eqb p (py "/Users/dev/.local/bin/claude");
     fs_exists_raises := fun _ => false;
     fs_is_file := fun p =>
       Some (str_eqb p (py "/usr/bin/script")
             || str_eqb p (py "/opt/homebrew/bin/tmux"));
     fs_access_x := fun _ => true;
     os_getcwd := py "/Users/dev/proj";
     os_makedirs := fun _ => true;
     os_open_w := fun _ => true;
     localtime := fun _ => sample_time;
     spawn := fun _ _ => Child 4242 rc [] [];
     pane := idle_pane |}.

(** A machine with nothing installed: no process can be started. *)
Definition bare_world : World :=
  {| env_PATH := Some (py "/usr/bin");
     fs_exists := fun _ => false;
     fs_exists_raises := fun _ => false;
     fs_is_file := fun _ => Some false;
     fs_access_x := fun _ => false;
     os_getcwd := py "/Users/dev/proj";
     os_makedirs := fun _ => true;
     os_open_w := fun _ => true;
     localtime := fun _ => sample_time;
     spawn := fun _ _ => SpawnFails;
     pane := fun _ => {| cap_ms := 0; cap_result := CaptureExecError |} |}.

(** [mac_world] without tmux. *)
Definition no_tmux_world : World :=
  {| env_PATH := Some (py "/usr/bin");
     fs_exists := fun p => str_eqb p (py "/Users/dev/.local/bin/claude");
     fs_exists_raises := fun _ => false;
     fs_is_file := fun p => Some (str_eqb p (py "/usr/bin/script"));
     fs_access_x := fun _ => true;
     os_getcwd := py "/Users/dev/proj";
     os_makedirs := fun _ => true;
     os_open_w := fun _ => true;
     localtime := fun _ => sample_time;
     spawn := fun _ _ => Child 4242 0 [] [];
     pane := idle_pane |}.

Definition sample_target : str := py "claude-code:0.0".

(** A machine with [claude] but without [script]: starting [script]
    fails, anything else runs and exits with 0. *)
Definition no_script_world : World :=
  {| env_PATH := Some (py "/usr/bin");
     fs_exists := fun p => str_eqb p (py "/Users/dev/.local/bin/claude");
     fs_exists_raises := fun _ => false;
     fs_is_file := fun _ => Some false;
     fs_access_x := fun _ => true;
     os_getcwd := py "/Users/dev/proj";
     os_makedirs := fun _ => true;
     os_open_w := fun _ => true;
     localtime := fun _ => sample_time;
     spawn := fun argv _ =>
       match argv with
       | prog :: _ => if str_eqb prog (py "script") then SpawnFails
                      else Child 4242 0 [] []
       | [] => SpawnFails
       end;
     pane := idle_pane |}.

(** A search path whose first directory cannot be examined. *)
Definition guarded_world : World :=
  {| env_PATH := Some (py "/root/bin:/usr/local/bin:/usr/bin");
     fs_exists := fun _ => false;
     fs_exists_raises := fun _ => false;
     fs_is_file := fun p =>
       if str_eqb p (py "/root/bin/claude") then None
       else Some (str_eqb p (py "/usr/local/bin/claude")
                  || str_eqb p (py "/usr/bin/claude"));
     fs_access_x := fun p => str_eqb p (py "/usr/bin/claude");
     os_getcwd := py "/Users/dev/proj";
     os_makedirs := fun _ => true;
     os_open_w := fun _ => true;
     localtime := fun _ => sample_time;
     spawn := fun _ _ => Child 4242 0 [] [];
     pane := idle_pane |}.

(** [mac_world] with another pane oracle. *)
Definition with_pane (w : World) (p : nat -> Capture) : World :=
  {| env_PATH := env_PATH w; fs_exists := fs_exists w;
     fs_exists_raises := fs_exists_raises w;
     fs_is_file := fs_is_file w; fs_access_x := fs_access_x w;
     os_getcwd := os_getcwd w; os_makedirs := os_makedirs w;
     os_open_w := os_open_w w; localtime := localtime w;
     spawn := spawn w; pane := p |}.

(** The parser's defaults, but for the prompt, the mode and three flags. *)
Definition sample_args (prompt : option str) (mode : Mode)
    (background clipboard notify : bool) : Args :=
  {| arg_prompt := prompt; arg_mode := mode;
     arg_permission_mode := None; arg_allowed_tools := None;
     arg_output_format := None; arg_json_schema := None;
     arg_append_system_prompt := None; arg_system_prompt := None;
     arg_continue_latest := false; arg_resume := None;
     arg_claude_bin := py "/Users/dev/.local/bin/claude";
     arg_cwd := None; arg_notify := notify; arg_clipboard := clipboard;
     arg_background := background;
     arg_log_dir := py "/Users/dev/.claude/logs/headless";
     arg_tmux_session := py "claude-code";
     arg_interactive_wait_s := 0; arg_interactive_send_delay_ms := 800;
     arg_extra := [] |}.

Definition default_args (prompt : option str) : Args :=
  sample_args prompt Auto false false false.

(** [mac_world] where every capture of the pane takes a second. *)
Definition slow_world : World :=
  with_pane (mac_world 0)
    (fun _ => {| cap_ms := 1000; cap_result := Buffer (py "$ ") |}).

(** [mac_world] where every capture of the pane exits with an error. *)
Definition failing_world : World :=
  with_pane (mac_world 0)
    (fun _ => {| cap_ms := 0; cap_result := CaptureExitError |}).

(** [mac_world] whose pane shows the trust prompt until [n] captures have
    been made. *)
Definition trusting_world (n : nat) : World :=
  with_pane (mac_world 0)
    (fun k => {| cap_ms := 0;
                 cap_result := Buffer (if (k <? n)%nat
                                       then py "> Yes, I trust this folder"
                                       else py "$ ") |}).

(** ** States reached by the session controller *)

(** After one capture. *)
Definition captured (w : World) (target : str) (s : State) : State :=
  {| now := now s + Z.of_N (cap_ms (pane w (captures s)));
     captures := S (captures s);
     trace := trace s ++ [ESpawn (capture_argv target 200) None Piped false] |}.

(** After one capture that did not show the pattern, and the sleep. *)
Definition polled (w : World) (target : str) (poll_ms : Z) (s : State) : State :=
  {| now := now s + Z.of_N (cap_ms (pane w (captures s))) + poll_ms;
     captures := S (captures s);
     trace := trace s ++ [ESpawn (capture_argv target 200) None Piped false;
                          ESleep poll_ms] |}.



(** The last capture made between [s] and [s'] showed the pattern. *)
Definition seen_during (w : World) (pattern : str) (s s' : State) : Prop :=
  (captures s < captures s')%nat
  /\ exists buf,
       cap_result (pane w (pred (captures s'))) = Buffer buf
       /\ contains buf pattern = true.

(** No capture made between [s] and [s'] showed the pattern. *)
Definition unseen_during (w : World) (pattern : str) (s s' : State) : Prop :=
  forall n buf,
    (captures s <= n < captures s')%nat ->
    cap_result (pane w n) = Buffer buf ->
    contains buf pattern = false.

(** The pane never shows the pattern: every capture either fails with an
    exit status or returns text without it. *)
Definition pattern_absent (w : World) (pattern : str) : Prop :=
  forall n,
    match cap_result (pane w n) with
    | Buffer buf => contains buf pattern = false
    | CaptureExitError => True
    | CaptureExecError => False
    end.

(** The fuel of [wait_loop] is enough when one interval per remaining
    iteration fits before the deadline. *)
Definition enough (deadline poll_ms : Z) (fuel : nat) (s : State) : Prop :=
  (1 <= fuel)%nat /\ deadline - now s <= poll_ms * (Z.of_nat fuel - 1).

(** A computation that ends, with a value or an exception, from every
    state: the model's fuel never runs out. *)
Definition returns {A : Type} (c : M A) : Prop :=
  forall s, fst (c s) <> OutOfFuel.

(** Every tmux command can be executed. *)
Definition tmux_usable (w : World) : Prop :=
  forall args dir, spawn w (tmux_cmd args) dir <> SpawnFails.

(** Two capture outcomes that differ at most in that the first is an exit
    error where the second is text without the pattern. *)
Definition failure_or_miss (pattern : str) (r1 r2 : CaptureResult) : Prop :=
  r1 = r2
  \/ (r1 = CaptureExitError
      /\ exists buf, r2 = Buffer buf /\ contains buf pattern = false).

(** ** Further observers and sample machines *)

(** What went to [sys.stdout]. *)
Definition stdout_of (tr : list Event) : list str :=
  flat_map (fun ev => match ev with EPrint text => [text] | _ => [] end) tr.

(** The lines of the prompt that [run_interactive_tmux] types: the ones
    that are not blank. *)
Definition sent_lines (prompt : str) : list str :=
  filter (fun ln => truthy (strip ln)) (splitlines prompt).





(** Every tmux command runs and exits with status 0. *)
Definition tmux_ok (w : World) : Prop :=
  forall args dir, exists pid out err, spawn w (tmux_cmd args) dir = Child pid 0 out err.


(** The state after [k] polls that did not show the pattern. *)
Fixpoint polled_n (w : World) (target : str) (poll_ms : Z) (k : nat) (s : State)
  : State :=
  match k with
  | O => s
  | S k' => polled_n w target poll_ms k' (polled w target poll_ms s)
  end.

(** The capture made in state [s] does not show the pattern. *)
Definition misses (w : World) (pattern : str) (s : State) : Prop :=
  match cap_result (pane w (captures s)) with
  | Buffer buf => contains buf pattern = false
  | CaptureExitError => True
  | CaptureExecError => False
  end.



(** A computation that adds to the trace, and adds only events that
    satisfy [P]. *)
Definition emits_only (P : Event -> Prop) {A : Type} (c : M A) : Prop :=
  forall s, exists evs, trace (snd (c s)) = trace s ++ evs /\ Forall P evs.

(** A process that is started is a tmux command. *)
Definition starts_only_tmux (ev : Event) : Prop :=
  match ev with
  | ESpawn argv _ _ _ => exists args, argv = tmux_cmd args
  | _ => True
  end.

(** The event leaves the file system alone. *)
Definition no_file_event (ev : Event) : Prop :=
  match ev with
  | EMakedirs _ | EOpen _ | EWrite _ _ | EFlush _ | EClose _ => False
  | _ => True
  end.

(** The events that a run inside tmux may add: no file is touched and
    every process is a tmux command. *)
Definition session_event (ev : Event) : Prop :=
  starts_only_tmux ev /\ no_file_event ev.




(** [args.background = value]. *)
Definition set_background (a : Args) (value : bool) : Args :=
  {| arg_prompt := arg_prompt a; arg_mode := arg_mode a;
     arg_permission_mode := arg_permission_mode a;
     arg_allowed_tools := arg_allowed_tools a;
     arg_output_format := arg_output_format a;
     arg_json_schema := arg_json_schema a;
     arg_append_system_prompt := arg_append_system_prompt a;
     arg_system_prompt := arg_system_prompt a;
     arg_continue_latest := arg_continue_latest a;
     arg_resume := arg_resume a; arg_claude_bin := arg_claude_bin a;
     arg_cwd := arg_cwd a; arg_notify := arg_notify a;
     arg_clipboard := arg_clipboard a; arg_background := value;
     arg_log_dir := arg_log_dir a; arg_tmux_session := arg_tmux_session a;
     arg_interactive_wait_s := arg_interactive_wait_s a;
     arg_interactive_send_delay_ms := arg_interactive_send_delay_ms a;
     arg_extra := arg_extra a |}.

(** [mac_world] with the given answers to [os.makedirs], [open] and to
    starting a process. *)
Definition machine (mkdir_ok open_ok : bool)
    (start_process : list str -> option str -> Spawned) : World :=
  {| env_PATH := env_PATH (mac_world 0); fs_exists := fs_exists (mac_world 0);
     fs_exists_raises := fs_exists_raises (mac_world 0);
     fs_is_file := fs_is_file (mac_world 0);
     fs_access_x := fs_access_x (mac_world 0);
     os_getcwd := os_getcwd (mac_world 0);
     os_makedirs := fun _ => mkdir_ok; os_open_w := fun _ => open_ok;
     localtime := localtime (mac_world 0);
     spawn := start_process; pane := idle_pane |}.

(** Starting a process works unless the program is [prog]. *)
Definition all_but (prog : str) (argv : list str) (dir : option str) : Spawned :=
  match argv with
  | p :: _ => if str_eqb p prog then SpawnFails else Child 4242 0 [] []
  | [] => SpawnFails
  end.

(** [tmux new] exits with status 1, every other process with 0. *)
Definition new_session_fails (argv : list str) (dir : option str) : Spawned :=
  match argv with
  | _ :: sub :: _ => if str_eqb sub (py "new") then Child 4242 1 [] []
                     else Child 4242 0 [] []
  | _ => Child 4242 0 [] []
  end.

(** A machine without a search path, with [claude] in the current
    directory. *)
Definition pathless_world : World :=
  {| env_PATH := None;
     fs_exists := fun _ => false;
     fs_exists_raises := fun _ => false;
     fs_is_file := fun p => Some (str_eqb p (py "claude"));
     fs_access_x := fun _ => true;
     os_getcwd := py "/Users/dev/proj";
     os_makedirs := fun _ => true;
     os_open_w := fun _ => true;
     localtime := fun _ => sample_time;
     spawn := fun _ _ => Child 4242 0 [] [];
     pane := idle_pane |}.

(** A machine on which the configured path lies in a directory that the
    user may not search: every test of a file in it fails with
    [PermissionError], an [OSError]. *)
Definition unsearchable_world : World :=
  {| env_PATH := Some (py "/root/bin:/usr/bin");
     fs_exists := fun _ => false;
     fs_exists_raises := fun p => str_eqb p (py "/root/bin/claude");
     fs_is_file := fun p =>
       if str_eqb p (py "/root/bin/claude") then None else Some false;
     fs_access_x := fun _ => false;
     os_getcwd := py "/Users/dev/proj";
     os_makedirs := fun _ => true;
     os_open_w := fun _ => true;
     localtime := fun _ => sample_time;
     spawn := fun _ _ => Child 4242 0 [] [];
     pane := idle_pane |}.

(** The defaults with [--claude-bin /root/bin/claude]. *)
Definition unsearchable_args (prompt : option str) : Args :=
  set_claude_bin (default_args prompt) (py "/root/bin/claude").

(** ** Statements of the specification that are compared with the code *)




(** The launcher's exit code is the exit code of the child it started for
    the command. *)
Definition propagates_child_exit_code (w : World) (a : Args) (s : State) : Prop :=
  forall pre dir so ns pid rc out err,
    In (ESpawn (pre ++ build_headless_cmd a) dir so ns) (trace (snd (main w a s))) ->
    spawn w (pre ++ build_headless_cmd a) dir = Child pid rc out err ->
    fst (main w a s) = Ok rc.

(** * Properties *)

(** ** Strings *)

Lemma str_eqb_eq a b : str_eqb a b = true <-> a = b.
Proof. unfold str_eqb. destruct (list_eq_dec N.eq_dec a b); split; congruence. Qed.

Lemma str_eqb_refl a : str_eqb a a = true.
Proof. apply str_eqb_eq. reflexivity. Qed.

Ltac bool_to_prop :=
  repeat rewrite ?orb_true_iff, ?andb_true_iff, ?orb_false_iff, ?andb_false_iff,
    ?negb_true_iff, ?negb_false_iff,
    ?N.leb_le, ?N.eqb_eq, ?N.leb_gt, ?N.eqb_neq in *.

Lemma linebreak_is_space c : is_linebreak c = true -> is_space c = true.
Proof. unfold is_linebreak, is_space. bool_to_prop. lia. Qed.

Lemma slash_not_space : is_space SLASH = false.
Proof. reflexivity. Qed.

Lemma slash_not_linebreak : is_linebreak SLASH = false.
Proof. reflexivity. Qed.

Lemma eqb_slash_not_space c : (c =? SLASH)%N = true -> is_space c = false.
Proof. intros H. apply N.eqb_eq in H. subst. reflexivity. Qed.

(** The library models on the values the interpreter gives. *)
Example splitlines_crlf :
  splitlines (py "a" ++ [13; 10; 10]%N ++ py "b" ++ [10]%N) = [py "a"; []; py "b"].
Proof. reflexivity. Qed.

Example splitlines_unicode :
  splitlines (py "a" ++ [8232]%N ++ py "b" ++ [13]%N ++ py "c") = [py "a"; py "b"; py "c"].
Proof. reflexivity. Qed.

Example splitlines_lone_break : splitlines [10]%N = [[]].
Proof. reflexivity. Qed.

Example strip_both : strip ([9; 32]%N ++ py "/x y" ++ [160; 10]%N) = py "/x y".
Proof. reflexivity. Qed.

Example split_path : split_on 58%N (py "a::b:") = [py "a"; []; py "b"; []].
Proof. reflexivity. Qed.

Example split_empty : split_on 58%N [] = [[]].
Proof. reflexivity. Qed.

Example path_div_table :
  path_div [] (py "x") = py "x"
  /\ path_div (py "/usr/bin") (py "x") = py "/usr/bin/x"
  /\ path_div (py "/usr/bin/") (py "x") = py "/usr/bin/x"
  /\ path_div (py "//usr//bin") (py "x") = py "//usr/bin/x"
  /\ path_div (py ".") (py "x") = py "x"
  /\ path_div (py "./a/.") (py "x") = py "a/x"
  /\ path_div (py "a") (py "/x") = py "/x"
  /\ path_div (py "///a") (py "x") = py "/a/x"
  /\ path_div [] [] = py ".".
Proof. repeat split. Qed.

Example decimal_values :
  decimal 0%N = py "0" /\ decimal 200%N = py "200" /\ decimalZ (-9) = py "-9"
  /\ decimalZ 4242 = py "4242".
Proof. repeat split. Qed.

Example strftime_values :
  strftime_compact sample_time = py "20260307-090502"
  /\ strftime_iso sample_time = py "2026-03-07 09:05:02".
Proof. split; reflexivity. Qed.

Example quote_values :
  shlex_quote (py "it's") = py "'it'" ++ [DQUOTE] ++ py "'" ++ [DQUOTE] ++ py "'s'"
  /\ shlex_quote [] = py "''"
  /\ shlex_quote (py "a_b@%+=:,./-") = py "a_b@%+=:,./-"
  /\ shlex_quote (py "a b") = py "'a b'".
Proof. repeat split. Qed.

(** [a 'b c' '' "d'e" f\ g 'x'"'"'y'] splits into six words. *)
Example split_values :
  shlex_split (py "a 'b c' '' " ++ [DQUOTE] ++ py "d'e" ++ [DQUOTE] ++ py " f"
               ++ [BACKSLASH] ++ py " g 'x'" ++ [DQUOTE] ++ py "'" ++ [DQUOTE]
               ++ py "'y'")
  = Some [py "a"; py "b c"; []; py "d'e"; py "f g"; py "x'y"].
Proof. reflexivity. Qed.

Example split_unclosed : shlex_split (py "a 'b") = None.
Proof. reflexivity. Qed.

(** ** Mode selection *)

Lemma startswith_slash s :
  startswith s (py "/") = match s with c :: _ => (c =? SLASH)%N | [] => false end.
Proof.
  destruct s as [|c r]; [reflexivity|].
  change (py "/") with [SLASH]. simpl. destruct r; apply andb_true_r.
Qed.

Lemma lstrip_app_nonspace l c t :
  is_space c = false -> lstrip (l ++ c :: t) = lstrip l ++ c :: t.
Proof.
  intros Hc. induction l as [|x l IH]; simpl.
  - rewrite Hc. reflexivity.
  - destruct (is_space x); [exact IH | reflexivity].
Qed.

Lemma lstrip_all_space l : forallb is_space l = true -> lstrip l = [].
Proof.
  induction l as [|x l IH]; simpl; [reflexivity|].
  destruct (is_space x); simpl; [exact IH | discriminate].
Qed.

Lemma lstrip_head_nonspace l c r : lstrip l = c :: r -> is_space c = false.
Proof.
  induction l as [|x l IH]; simpl; [discriminate|].
  destruct (is_space x) eqn:Hx; [exact IH|].
  intros H. injection H as -> _. exact Hx.
Qed.

Lemma lstrip_not_all_space l :
  forallb is_space l = false -> exists c r, lstrip l = c :: r.
Proof.
  induction l as [|x l IH]; simpl; [discriminate|].
  destruct (is_space x); simpl; [exact IH | eauto].
Qed.

(** Trimming on the right keeps a first character that is not white space. *)
Lemma rstrip_cons_nonspace c r :
  is_space c = false -> exists r', rstrip (c :: r) = c :: r'.
Proof.
  intros Hc. unfold rstrip. simpl rev.
  rewrite (lstrip_app_nonspace (rev r) c [] Hc).
  rewrite rev_app_distr. simpl. eauto.
Qed.

Lemma slash_first_lstrip line :
  slash_first line = startswith (lstrip line) (py "/").
Proof.
  unfold slash_first, strip.
  destruct (lstrip line) as [|c r] eqn:E; [reflexivity|].
  destruct (rstrip_cons_nonspace c r (lstrip_head_nonspace _ _ _ E)) as [r' ->].
  rewrite !startswith_slash. reflexivity.
Qed.

Lemma slash_first_all_space cur : forallb is_space cur = true -> slash_first cur = false.
Proof.
  intros H. rewrite slash_first_lstrip, (lstrip_all_space _ H). reflexivity.
Qed.

Lemma slash_first_snoc cur c :
  slash_first (cur ++ [c]) =
  slash_first cur || (forallb is_space cur && (c =? SLASH)%N).
Proof.
  rewrite !slash_first_lstrip.
  destruct (forallb is_space cur) eqn:Hall.
  - assert (Hl : lstrip (cur ++ [c]) = lstrip [c]).
    { clear -Hall. induction cur as [|x cur IH]; [reflexivity|].
      simpl in *. destruct (is_space x); [auto | discriminate]. }
    rewrite Hl, (lstrip_all_space _ Hall). simpl.
    destruct (c =? SLASH)%N eqn:Hc.
    + rewrite (eqb_slash_not_space _ Hc). rewrite startswith_slash. exact Hc.
    + destruct (is_space c); [reflexivity|]. rewrite startswith_slash. exact Hc.
  - destruct (lstrip_not_all_space _ Hall) as (x & r & E).
    assert (Hl : lstrip (cur ++ [c]) = x :: r ++ [c]).
    { clear -E. induction cur as [|y cur IH]; [discriminate|].
      simpl in *. destruct (is_space y); [auto|].
      injection E as -> ->. reflexivity. }
    rewrite Hl, E, !startswith_slash, andb_false_l, orb_false_r. reflexivity.
Qed.

(** A carriage return and line feed pair adds no line of its own. *)
Lemma splitlines_crlf_exists c rest :
  existsb slash_first
    (match rest with
     | c2 :: rest2 =>
         if ((c =? 13) && (c2 =? 10))%N then splitlines_from [] rest2
         else splitlines_from [] rest
     | [] => splitlines_from [] rest
     end)
  = existsb slash_first (splitlines_from [] rest).
Proof.
  destruct rest as [|c2 rest2]; [reflexivity|].
  destruct ((c =? 13) && (c2 =? 10))%N eqn:E; [|reflexivity].
  apply andb_true_iff in E. destruct E as [_ E]. apply N.eqb_eq in E. subst c2.
  simpl. destruct rest2; reflexivity.
Qed.

(** The library pipeline ([splitlines], [strip], [startswith], [any]) and
    the one-pass scan agree. *)
Lemma splitlines_scan s : forall cur,
  existsb slash_first (splitlines_from cur s)
  = slash_first cur || slash_scan (forallb is_space cur) s.
Proof.
  induction s as [|c r IH]; intros cur.
  - simpl. destruct cur; [reflexivity|]. simpl. rewrite !orb_false_r. reflexivity.
  - cbn [splitlines_from slash_scan].
    destruct (is_linebreak c) eqn:Hlb.
    + cbn [existsb]. rewrite splitlines_crlf_exists, IH. reflexivity.
    + rewrite IH, slash_first_snoc, forallb_app. cbn [forallb].
      rewrite andb_true_r.
      destruct (forallb is_space cur) eqn:Hall; cbn [andb].
      * rewrite (slash_first_all_space _ Hall). cbn [orb].
        destruct (c =? SLASH)%N eqn:Hc; [reflexivity|].
        destruct (is_space c); reflexivity.
      * rewrite orb_false_r. reflexivity.
Qed.

Lemma looks_like_scan P :
  looks_like_slash_commands (Some P) = slash_scan true P.
Proof.
  destruct P as [|c r]; [reflexivity|].
  unfold looks_like_slash_commands, splitlines.
  change (fun line => startswith (strip line) (py "/")) with slash_first.
  rewrite splitlines_scan. reflexivity.
Qed.

Lemma scan_after_space ws post :
  forallb is_space ws = true -> slash_scan true (ws ++ SLASH :: post) = true.
Proof.
  induction ws as [|c ws IH]; intros H; simpl in *.
  - reflexivity.
  - apply andb_true_iff in H. destruct H as [Hc Hws].
    destruct (is_linebreak c); [auto|].
    destruct (c =? SLASH)%N; [reflexivity|]. rewrite Hc. auto.
Qed.

Lemma scan_after_break pre b s :
  is_linebreak b = true -> slash_scan true s = true ->
  forall fresh, slash_scan fresh (pre ++ b :: s) = true.
Proof.
  intros Hb Hs. induction pre as [|c pre IH]; intros fresh; simpl.
  - rewrite Hb. exact Hs.
  - destruct (is_linebreak c); [apply IH|].
    destruct fresh; [|apply IH].
    destruct (c =? SLASH)%N; [reflexivity|].
    destruct (is_space c); apply IH.
Qed.

Lemma scan_sound s : forall fresh,
  slash_scan fresh s = true ->
  exists pre ws post,
    s = pre ++ ws ++ SLASH :: post
    /\ forallb is_space ws = true
    /\ (if fresh then at_line_start pre
        else exists pre' b, pre = pre' ++ [b] /\ is_linebreak b = true).
Proof.
  induction s as [|c r IH]; intros fresh H; simpl in H; [discriminate|].
  destruct (is_linebreak c) eqn:Hlb.
  - destruct (IH true H) as (pre & ws & post & -> & Hws & Hpre).
    destruct Hpre as [-> | (pre' & b & -> & Hb)].
    + exists [c], ws, post. repeat split; auto.
      assert (Hat : exists pre' b, [c] = pre' ++ [b] /\ is_linebreak b = true)
        by (exists [], c; auto).
      destruct fresh; [right|]; exact Hat.
    + exists (c :: pre' ++ [b]), ws, post. repeat split; auto.
      assert (Hat : exists p b0, c :: pre' ++ [b] = p ++ [b0] /\ is_linebreak b0 = true)
        by (exists (c :: pre'), b; auto).
      destruct fresh; [right|]; exact Hat.
  - destruct fresh.
    + destruct (c =? SLASH)%N eqn:Hc.
      * apply N.eqb_eq in Hc. subst c.
        exists [], [], r. repeat split; auto. left; reflexivity.
      * destruct (is_space c) eqn:Hsp.
        -- destruct (IH true H) as (pre & ws & post & -> & Hws & Hpre).
           destruct Hpre as [-> | (pre' & b & -> & Hb)].
           ++ exists [], (c :: ws), post. repeat split.
              ** simpl. rewrite Hsp. exact Hws.
              ** left; reflexivity.
           ++ exists (c :: pre' ++ [b]), ws, post. repeat split; auto.
              right. exists (c :: pre'), b; auto.
        -- destruct (IH false H) as (pre & ws & post & -> & Hws & pre' & b & -> & Hb).
           exists (c :: pre' ++ [b]), ws, post. repeat split; auto.
           right. exists (c :: pre'), b; auto.
    + destruct (IH false H) as (pre & ws & post & -> & Hws & pre' & b & -> & Hb).
      exists (c :: pre' ++ [b]), ws, post. repeat split; auto.
      exists (c :: pre'), b; auto.
Qed.

Lemma scan_iff_slash_line P : slash_scan true P = true <-> has_slash_line P.
Proof.
  split.
  - intros H. destruct (scan_sound P true H) as (pre & ws & post & E & Hws & Hpre).
    exists pre, ws, post. auto.
  - intros (pre & ws & post & -> & Hws & [-> | (pre' & b & -> & Hb)]).
    + apply scan_after_space. exact Hws.
    + rewrite <- app_assoc. simpl. apply scan_after_break; [exact Hb|].
      apply scan_after_space. exact Hws.
Qed.

Lemma looks_like_lines P :
  looks_like_slash_commands (Some P) = true
  <-> exists line, In line (splitlines P) /\ startswith (strip line) (py "/") = true.
Proof.
  destruct P as [|c r].
  - simpl. split; [discriminate | intros (l & [] & _)].
  - unfold looks_like_slash_commands. apply existsb_exists.
Qed.

(** C1. With mode [auto], the run is interactive exactly when some line of
    the prompt, trimmed of white space, begins with a slash (the same
    thing said twice: with [splitlines]/[strip], and as a slash that only
    white space separates from the start of its line); otherwise the
    headless branch is taken; the empty and the absent prompt are
    headless; and [--mode headless] or [--mode interactive] is kept
    whatever the prompt says. *)
Theorem resolve_mode_auto_iff_slash_line (P : str) :
  (resolve_mode Auto (Some P) = Interactive
   <-> exists line, In line (splitlines P)
                    /\ startswith (strip line) (py "/") = true)
  /\ (resolve_mode Auto (Some P) = Interactive <-> has_slash_line P)
  /\ (resolve_mode Auto (Some P) <> Interactive ->
      dispatch false (resolve_mode Auto (Some P)) = ToHeadless)
  /\ dispatch false (resolve_mode Auto (Some (py ""))) = ToHeadless
  /\ dispatch false (resolve_mode Auto None) = ToHeadless
  /\ dispatch false (resolve_mode Auto (Some (py "/help"))) = ToInteractive
  /\ dispatch false (resolve_mode Auto (Some (py "hello" ++ [NL] ++ py "/clear")))
     = ToInteractive
  /\ dispatch false (resolve_mode Auto (Some (py "hello world"))) = ToHeadless
  /\ (forall prompt, resolve_mode Headless prompt = Headless)
  /\ (forall prompt, resolve_mode Interactive prompt = Interactive)
  /\ (forall prompt b, dispatch b (resolve_mode Interactive prompt) = ToInteractive)
  /\ (forall prompt, dispatch false (resolve_mode Headless prompt) = ToHeadless).
Proof.
  assert (Hres : resolve_mode Auto (Some P) = Interactive
                 <-> looks_like_slash_commands (Some P) = true).
  { unfold resolve_mode. cbn [mode_eqb andb].
    destruct (looks_like_slash_commands (Some P)); split; congruence. }
  repeat split; try reflexivity.
  - intros H. apply looks_like_lines, Hres, H.
  - intros H. apply Hres, looks_like_lines, H.
  - intros H. apply scan_iff_slash_line. rewrite <- looks_like_scan. apply Hres, H.
  - intros H. apply Hres. rewrite looks_like_scan. apply scan_iff_slash_line, H.
  - unfold resolve_mode. cbn [mode_eqb andb].
    destruct (looks_like_slash_commands (Some P)); [congruence | reflexivity].
  - intros prompt b. destruct b; reflexivity.
Qed.

(** ** Target lookup *)

(** A candidate matches when it is a regular file that may be executed;
    an error while looking at it is no match. *)
Lemma executable_file_iff w cand :
  is_executable_file w cand = Ok true
  <-> fs_is_file w cand = Some true /\ fs_access_x w cand = true.
Proof.
  unfold is_executable_file.
  destruct (fs_is_file w cand) as [[|]|]; split; try congruence.
  - intros H. split; congruence.
  - intros [_ ->]. reflexivity.
  - intros [H _]. discriminate.
  - intros [H _]. discriminate.
Qed.

Lemma which_scan_spec w name dirs :
  exists r,
    which_scan w name dirs = Ok r
    /\ match r with
       | Some c =>
           exists pre d post,
             dirs = pre ++ d :: post
             /\ c = path_div d name
             /\ is_executable_file w c = Ok true
             /\ Forall (fun d' => is_executable_file w (path_div d' name) <> Ok true) pre
       | None =>
           Forall (fun d => is_executable_file w (path_div d name) <> Ok true) dirs
       end.
Proof.
  induction dirs as [|p rest IH].
  - exists None. split; [reflexivity | constructor].
  - simpl. destruct (is_executable_file w (path_div p name)) as [[|]|e|] eqn:E.
    + exists (Some (path_div p name)). split; [reflexivity|].
      exists [], p, rest. repeat split; auto.
    + destruct IH as (r & Hr & Hspec). exists r. split; [exact Hr|].
      destruct r as [c|].
      * destruct Hspec as (pre & d & post & -> & Hc & Hx & Hpre).
        exists (p :: pre), d, post. repeat split; auto.
        constructor; [congruence | exact Hpre].
      * constructor; [congruence | exact Hspec].
    + assert (e = OSError) as ->.
      { unfold is_executable_file in E.
        destruct (fs_is_file w (path_div p name)) as [[|]|]; congruence. }
      destruct IH as (r & Hr & Hspec). exists r. split; [exact Hr|].
      destruct r as [c|].
      * destruct Hspec as (pre & d & post & -> & Hc & Hx & Hpre).
        exists (p :: pre), d, post. repeat split; auto.
        constructor; [congruence | exact Hpre].
      * constructor; [congruence | exact Hspec].
    + unfold is_executable_file in E.
      destruct (fs_is_file w (path_div p name)) as [[|]|]; discriminate.
Qed.

(** [which] always returns. *)
Lemma which_returns w name : exists r, which w name = Ok r.
Proof.
  destruct (which_scan_spec w name (search_path w)) as (r & Hr & _).
  exists r. exact Hr.
Qed.

(** What [which] finds is never the empty string. *)
Lemma pure_path_str_truthy raw : truthy (pure_path_str raw) = true.
Proof.
  unfold pure_path_str.
  destruct (truthy (posix_root raw ++ _)) eqn:E; [exact E | reflexivity].
Qed.

Lemma os_path_join_plain dir name :
  truthy dir = true -> endswith_slash dir = false ->
  startswith name (py "/") = false ->
  os_path_join dir name = dir ++ py "/" ++ name.
Proof.
  intros Hd He Hn. unfold os_path_join. rewrite Hn, Hd, He. reflexivity.
Qed.

Lemma split_on_from_join sep s : forall cur,
  join [sep] (split_on_from sep cur s) = cur ++ s.
Proof.
  induction s as [|c rest IH]; intros cur; cbn [split_on_from].
  - cbn. symmetry. apply app_nil_r.
  - destruct (N.eqb_spec c sep) as [->|Hne].
    + specialize (IH []). cbn [app] in IH.
      destruct (split_on_from sep [] rest) as [|f fs] eqn:E.
      * destruct rest; cbn in E; [discriminate|].
        destruct (_ =? _)%N in E; discriminate.
      * change (join [sep] (cur :: f :: fs)) with (cur ++ [sep] ++ join [sep] (f :: fs)).
        rewrite IH. reflexivity.
    + rewrite IH, <- app_assoc. reflexivity.
Qed.

Lemma split_on_from_nonempty sep s : forall cur, split_on_from sep cur s <> [].
Proof.
  induction s as [|c rest IH]; intros cur; cbn [split_on_from]; [discriminate|].
  destruct (c =? sep)%N; [discriminate | apply IH].
Qed.

Lemma split_on_from_fields sep s : forall cur,
  ~ In sep cur -> Forall (fun d => ~ In sep d) (split_on_from sep cur s).
Proof.
  induction s as [|c rest IH]; intros cur Hcur; cbn [split_on_from].
  - constructor; [exact Hcur | constructor].
  - destruct (N.eqb_spec c sep) as [->|Hne].
    + constructor; [exact Hcur | apply IH; intros []].
    + apply IH. intros Hin. apply in_app_or in Hin.
      destruct Hin as [Hin | [Heq | []]]; [exact (Hcur Hin) | congruence].
Qed.

Lemma split_on_from_plain sep p : forall cur rest,
  ~ In sep p ->
  split_on_from sep cur (p ++ rest) = split_on_from sep (cur ++ p) rest.
Proof.
  induction p as [|c p IH]; intros cur rest Hp; cbn [app split_on_from].
  - rewrite app_nil_r. reflexivity.
  - destruct (N.eqb_spec c sep) as [->|Hne]; [exfalso; apply Hp; left; reflexivity|].
    rewrite IH by (intros H; apply Hp; right; exact H).
    rewrite <- app_assoc. reflexivity.
Qed.

Lemma split_on_under_root comps : forall cur,
  Forall (fun c => ~ In SLASH c) comps ->
  split_on_from SLASH cur (under_root comps) = cur :: comps.
Proof.
  induction comps as [|c comps IH]; intros cur Hall; [reflexivity|].
  inversion Hall as [|? ? Hc Hrest]; subst.
  cbn [under_root flat_map]. cbn [app split_on_from].
  rewrite N.eqb_refl. f_equal.
  rewrite split_on_from_plain by exact Hc. cbn [app].
  apply IH. exact Hrest.
Qed.

Lemma under_root_join comps :
  comps <> [] -> under_root comps = SLASH :: join (py "/") comps.
Proof.
  induction comps as [|c comps IH]; intros Hne; [contradiction|].
  cbn [under_root flat_map]. destruct comps as [|c2 comps'].
  - cbn. rewrite app_nil_r. reflexivity.
  - change (join (py "/") (c :: c2 :: comps'))
      with (c ++ py "/" ++ join (py "/") (c2 :: comps')).
    fold (under_root (c2 :: comps')). rewrite IH by discriminate.
    cbn [app]. reflexivity.
Qed.

Lemma under_root_snoc comps c : under_root (comps ++ [c]) = under_root comps ++ SLASH :: c.
Proof.
  unfold under_root. rewrite flat_map_app. cbn. rewrite app_nil_r. reflexivity.
Qed.

Lemma plain_no_leading_slash c :
  plain_component c -> exists x r, c = x :: r /\ x <> SLASH.
Proof.
  intros (Hne & Hns & _). destruct c as [|x r]; [contradiction|].
  exists x, r. split; [reflexivity|]. intros ->. apply Hns. left. reflexivity.
Qed.

Lemma posix_root_single x r : x <> SLASH -> posix_root (SLASH :: x :: r) = py "/".
Proof.
  intros Hx. unfold posix_root, SLASH in *.
  destruct x as [|p]; [reflexivity|].
  repeat (destruct p as [p|p|]; try reflexivity; try congruence).
Qed.

Lemma endswith_slash_plain pre c :
  plain_component c -> endswith_slash (pre ++ c) = false.
Proof.
  intros (Hne & Hns & _). unfold endswith_slash.
  destruct (exists_last Hne) as (c' & x & ->).
  rewrite app_assoc, rev_app_distr. cbn.
  apply N.eqb_neq. intros ->. apply Hns, in_or_app. right. left. reflexivity.
Qed.

Lemma plain_kept comps :
  Forall plain_component comps ->
  filter (fun p => truthy p && negb (str_eqb p (py "."))) comps = comps.
Proof.
  induction 1 as [|c comps (Hne & _ & Hdot) _ IH]; [reflexivity|].
  cbn [filter]. destruct c as [|x r]; [contradiction|]. cbn [truthy andb].
  destruct (str_eqb (x :: r) (py ".")) eqn:E.
  - apply str_eqb_eq in E. contradiction.
  - cbn [negb]. rewrite IH. reflexivity.
Qed.

(** For a directory [/a/b] and an ordinary name, the candidate of [which]
    is [/a/b/name]. *)
Lemma path_div_plain comps name :
  comps <> [] -> Forall plain_component comps -> plain_component name ->
  path_div (under_root comps) name = under_root comps ++ py "/" ++ name.
Proof.
  intros Hne Hall Hname.
  destruct (plain_no_leading_slash name Hname) as (x & r & -> & Hx).
  assert (Hstart : startswith (x :: r) (py "/") = false).
  { cbn. destruct (N.eqb_spec x 47); [contradiction | reflexivity]. }
  assert (Htruthy : truthy (under_root comps) = true).
  { destruct comps; [contradiction | reflexivity]. }
  assert (Hend : endswith_slash (under_root comps) = false).
  { destruct (exists_last Hne) as (cs & c & ->).
    rewrite under_root_snoc.
    change (under_root cs ++ SLASH :: c) with (under_root cs ++ [SLASH] ++ c).
    rewrite app_assoc. apply endswith_slash_plain.
    apply Forall_app in Hall. destruct Hall as [_ Hc]. inversion Hc; assumption. }
  unfold path_div. rewrite os_path_join_plain by assumption.
  change (under_root comps ++ py "/" ++ x :: r)
    with (under_root comps ++ SLASH :: x :: r).
  rewrite <- under_root_snoc.
  assert (Hall' : Forall plain_component (comps ++ [x :: r])).
  { apply Forall_app. split; [exact Hall | constructor; [exact Hname | constructor]]. }
  unfold pure_path_str, split_on.
  rewrite split_on_under_root
    by (eapply Forall_impl; [|exact Hall']; intros c (_ & H & _); exact H).
  cbn [filter truthy andb]. rewrite plain_kept by exact Hall'.
  match goal with
  | |- context [posix_root ?raw] => assert (Hroot : posix_root raw = py "/")
  end.
  { destruct comps as [|c cs]; [contradiction|].
    inversion Hall as [|? ? Hc _]; subst.
    destruct (plain_no_leading_slash c Hc) as (y & q & -> & Hy).
    cbn [app under_root flat_map]. apply posix_root_single. exact Hy. }
  rewrite Hroot. cbn [py map list_ascii_of_string app truthy].
  symmetry. apply under_root_join. destruct comps; discriminate.
Qed.

(** C5. [which] never raises.  The directories it scans are the fields of
    the [PATH] variable between colons (one empty field when the variable
    is unset or empty), in their order; the candidate of a directory is the
    name inside it ([/a/b/name] for the directory [/a/b]); [which] returns
    the candidate of the first directory whose candidate is a regular file
    with execute permission, every earlier directory having been passed
    over because its candidate is not such a file or because looking at it
    failed; and it returns [None] when no directory has one. *)
Theorem which_returns_first_executable (w : World) (name : str) :
  exists dirs r,
    dirs <> []
    /\ join (py ":") dirs = match env_PATH w with Some p => p | None => [] end
    /\ Forall (fun d => ~ In 58%N d) dirs
    /\ which w name = Ok r
    /\ match r with
       | Some c =>
           exists pre d post,
             dirs = pre ++ d :: post
             /\ c = path_div d name
             /\ fs_is_file w c = Some true /\ fs_access_x w c = true
             /\ Forall (fun d' =>
                  ~ (fs_is_file w (path_div d' name) = Some true
                     /\ fs_access_x w (path_div d' name) = true)) pre
       | None =>
           Forall (fun d =>
             ~ (fs_is_file w (path_div d name) = Some true
                /\ fs_access_x w (path_div d name) = true)) dirs
       end
    /\ (forall comps,
          comps <> [] -> Forall plain_component comps -> plain_component name ->
          path_div (under_root comps) name = under_root comps ++ py "/" ++ name).
Proof.
  destruct (which_scan_spec w name (search_path w)) as (r & Hr & Hspec).
  exists (search_path w), r.
  split; [apply split_on_from_nonempty|].
  split; [apply (split_on_from_join 58%N)|].
  split; [apply split_on_from_fields; intros []|].
  split; [exact Hr|].
  split; [|intros comps; apply path_div_plain].
  destruct r as [c|].
  - destruct Hspec as (pre & d & post & Hsplit & Hc & Hx & Hpre).
    exists pre, d, post. apply executable_file_iff in Hx.
    repeat split; try tauto.
    eapply Forall_impl; [|exact Hpre].
    intros a Ha Hm. apply Ha, executable_file_iff, Hm.
  - eapply Forall_impl; [|exact Hspec].
    intros a Ha Hm. apply Ha, executable_file_iff, Hm.
Qed.

Example search_path_fields :
  search_path (mac_world 0) = [py "/usr/bin"; py "/opt/homebrew/bin"]
  /\ search_path pathless_world = [[]].
Proof. split; reflexivity. Qed.

Example which_tmux :
  which (mac_world 0) (py "tmux") = Ok (Some (py "/opt/homebrew/bin/tmux")).
Proof. reflexivity. Qed.

(** The first directory raises, the second holds a file that may not be
    executed, the third one matches. *)
Example which_skips_errors :
  which guarded_world (py "claude") = Ok (Some (py "/usr/bin/claude")).
Proof. reflexivity. Qed.

Example which_nothing : which bare_world (py "claude") = Ok None.
Proof. reflexivity. Qed.

(** ** Shell quoting round trip *)

Lemma safe_char_plain c :
  is_safe_char c = true ->
  is_shell_ws c = false /\ is_shell_quote c = false /\ (c =? BACKSLASH)%N = false.
Proof.
  unfold is_safe_char, is_shell_ws, is_shell_quote, SQUOTE, DQUOTE, BACKSLASH.
  intros H. bool_to_prop. lia.
Qed.

Lemma run_safe_chars s : forall token quoted acc rest,
  forallb is_safe_char s = true ->
  shlex_run LWord token quoted acc (s ++ rest)
  = shlex_run LWord (token ++ s) quoted acc rest.
Proof.
  induction s as [|c s IH]; intros token quoted acc rest H.
  - rewrite app_nil_r. reflexivity.
  - simpl in H. apply andb_true_iff in H. destruct H as [Hc Hs].
    destruct (safe_char_plain c Hc) as (Hws & Hq & Hb).
    simpl. rewrite Hws, Hq, Hb, IH by exact Hs.
    rewrite <- app_assoc. reflexivity.
Qed.

Lemma run_single_quoted s : forall token quoted acc rest,
  shlex_run (LQuote SQUOTE) token quoted acc (escape_squotes s ++ SQUOTE :: rest)
  = shlex_run LWord (token ++ s) true acc rest.
Proof.
  induction s as [|c s IH]; intros token quoted acc rest.
  - rewrite app_nil_r. simpl. reflexivity.
  - cbn [escape_squotes flat_map].
    destruct (c =? SQUOTE)%N eqn:Hc.
    + apply N.eqb_eq in Hc. subst c.
      change (flat_map _ s) with (escape_squotes s).
      cbn -[escape_squotes]. rewrite IH, <- app_assoc. reflexivity.
    + change (flat_map _ s) with (escape_squotes s).
      cbn -[escape_squotes]. rewrite Hc.
      replace ((c =? BACKSLASH)%N && false) with false by (symmetry; apply andb_false_r).
      rewrite IH, <- app_assoc. reflexivity.
Qed.

(** One quoted word is read back as that word, and is complete. *)
Lemma run_quoted_word s :
  exists quoted,
    truthy s || quoted = true
    /\ forall acc rest,
         shlex_run LSpace [] false acc (shlex_quote s ++ rest)
         = shlex_run LWord s quoted acc rest.
Proof.
  unfold shlex_quote. destruct s as [|c s].
  - exists true. split; [reflexivity|]. intros acc rest. reflexivity.
  - cbn [truthy negb].
    destruct (forallb is_safe_char (c :: s)) eqn:Hsafe.
    + exists false. split; [reflexivity|]. intros acc rest.
      simpl in Hsafe. apply andb_true_iff in Hsafe. destruct Hsafe as [Hc Hs].
      destruct (safe_char_plain c Hc) as (Hws & Hq & Hb).
      simpl. rewrite Hws, Hq, Hb.
      apply (run_safe_chars s [c] false acc rest Hs).
    + exists true. split; [reflexivity|]. intros acc rest.
      rewrite <- app_comm_cons, <- app_assoc. simpl app.
      cbn [shlex_run]. change (is_shell_ws SQUOTE) with false.
      change (SQUOTE =? BACKSLASH)%N with false.
      change (is_shell_quote SQUOTE) with true. cbv iota.
      apply (run_single_quoted (c :: s) [] false acc rest).
Qed.

Lemma run_command_line cmd : forall acc,
  shlex_run LSpace [] false acc (command_line cmd) = Some (rev acc ++ cmd).
Proof.
  unfold command_line.
  induction cmd as [|s rest IH]; intros acc.
  - simpl. rewrite app_nil_r. reflexivity.
  - destruct (run_quoted_word s) as (quoted & Hq & Hrun).
    destruct rest as [|s2 rest].
    + simpl. rewrite <- (app_nil_r (shlex_quote s)), Hrun.
      destruct s; simpl in *; try rewrite Hq; reflexivity.
    + change (join (py " ") (map shlex_quote (s :: s2 :: rest)))
        with (shlex_quote s ++ 32%N :: join (py " ") (map shlex_quote (s2 :: rest))).
      rewrite Hrun.
      assert (Hemit : forall more,
                shlex_run LWord s quoted acc (32%N :: more)
                = shlex_run LSpace [] false (s :: acc) more).
      { intros more. destruct s; simpl in *; try rewrite Hq; reflexivity. }
      rewrite Hemit, IH. simpl. rewrite <- app_assoc. reflexivity.
Qed.

(** C8. The command line written after [# Command: ] in the log header,
    split again by the shell's rules, is the command vector itself,
    whatever characters the elements hold (spaces, both kinds of quotes,
    backslashes, line breaks, empty elements). *)
Theorem command_line_round_trip (cmd : list str) :
  header_command cmd = py "# Command: " ++ command_line cmd ++ [NL]
  /\ shlex_split (command_line cmd) = Some cmd.
Proof.
  split; [reflexivity|].
  unfold shlex_split. apply (run_command_line cmd []).
Qed.

(** ** Background launcher *)

Ltac run_prog :=
  cbv beta delta [bind ret raise lift emit clock finally print print_noend
                  eprint eprint_noend popen_detached subprocess_run check_call
                  try_except best_effort] iota;
  cbn [now captures trace fst snd].

Lemma zfill2_length n : (n < 100)%N -> List.length (zfill 2 (decimal n)) = 2%nat.
Proof.
  intros Hn.
  assert (Hall : forallb (fun k => Nat.eqb (List.length (zfill 2 (decimal (N.of_nat k)))) 2)
                   (seq 0 100) = true) by (vm_compute; reflexivity).
  rewrite forallb_forall in Hall.
  specialize (Hall (N.to_nat n)). rewrite N2Nat.id in Hall.
  apply Nat.eqb_eq, Hall, in_seq. lia.
Qed.

Lemma zfill4_length n : (n < 10000)%N -> List.length (zfill 4 (decimal n)) = 4%nat.
Proof.
  intros Hn.
  assert (Hall : forallb (fun k => Nat.eqb (List.length (zfill 4 (decimal (N.of_nat k)))) 4)
                   (seq 0 (100 * 100)) = true) by (vm_compute; reflexivity).
  rewrite forallb_forall in Hall.
  specialize (Hall (N.to_nat n)). rewrite N2Nat.id in Hall.
  apply Nat.eqb_eq, Hall, in_seq. lia.
Qed.

(** The stamp in the log file name has fifteen characters, down to the
    second: [YYYYmmdd-HHMMSS]. *)
Lemma strftime_compact_length t :
  (tm_year t < 10000)%N -> (tm_mon t < 100)%N -> (tm_mday t < 100)%N ->
  (tm_hour t < 100)%N -> (tm_min t < 100)%N -> (tm_sec t < 100)%N ->
  List.length (strftime_compact t) = 15%nat.
Proof.
  intros Hy Hm Hd Hh Hmi Hs. unfold strftime_compact.
  rewrite !length_app, zfill4_length, !zfill2_length by assumption.
  reflexivity.
Qed.

Lemma written_to_app path a b :
  written_to path (a ++ b) = written_to path a ++ written_to path b.
Proof. unfold written_to. apply flat_map_app. Qed.












Example sample_log_path :
  log_file_path (py "/tmp/logs") sample_time = py "/tmp/logs/claude-20260307-090502.log".
Proof. reflexivity. Qed.

Example sample_header :
  written_to (py "/tmp/logs/claude-20260307-090502.log")
    (trace (snd (run_background (mac_world 0) [py "claude"; py "-p"; py "it's ok"]
                   (Some (py "proj")) (py "/tmp/logs") false (start 0))))
  = py "# Command: claude -p 'it'" ++ [DQUOTE] ++ py "'" ++ [DQUOTE] ++ py "'s ok'" ++ [NL]
    ++ py "# Started: 2026-03-07 09:05:02" ++ [NL]
    ++ py "# CWD: proj" ++ [NL; NL].
Proof. vm_compute. reflexivity. Qed.


Example multi_line_prompt_header :
  splitlines
    (written_to (log_file_path (py "/tmp/logs") sample_time)
       (trace (snd (run_background (mac_world 0)
                      [py "claude"; py "-p"; py "fix" ++ [NL] ++ py "this"]
                      None (py "/tmp/logs") false (start 0)))))
  = [py "# Command: claude -p 'fix"; py "this'";
     py "# Started: 2026-03-07 09:05:02"; py "# CWD: /Users/dev/proj"; []].
Proof. vm_compute. reflexivity. Qed.

(** ** Waiting for text in the pane *)

Section WaitLoop.
Variable w : World.
Variables target pattern : str.
Variables deadline poll_ms : Z.

Local Abbreviation loop := (wait_loop w target pattern deadline poll_ms).
Local Abbreviation fits := (enough deadline poll_ms).

Lemma wait_loop_done fuel s :
  deadline <= now s -> loop (S fuel) s = (Ok false, s).
Proof.
  intros H. cbn [wait_loop]. run_prog.
  destruct (Z.ltb_spec (now s) deadline); [lia | reflexivity].
Qed.

Lemma wait_loop_hit fuel s buf :
  now s < deadline ->
  cap_result (pane w (captures s)) = Buffer buf ->
  contains buf pattern = true ->
  loop (S fuel) s = (Ok true, captured w target s).
Proof.
  intros H Hc Hin. cbn [wait_loop]. run_prog.
  destruct (Z.ltb_spec (now s) deadline); [|lia].
  unfold tmux_capture. rewrite Hc, Hin. reflexivity.
Qed.

Lemma wait_loop_miss fuel s buf :
  0 <= poll_ms -> now s < deadline ->
  cap_result (pane w (captures s)) = Buffer buf ->
  contains buf pattern = false ->
  loop (S fuel) s = loop fuel (polled w target poll_ms s).
Proof.
  intros Hp H Hc Hin. cbn [wait_loop]. run_prog.
  destruct (Z.ltb_spec (now s) deadline); [|lia].
  unfold tmux_capture. rewrite Hc, Hin. unfold sleep.
  destruct (Z.ltb_spec poll_ms 0); [lia|].
  unfold polled. cbn [now captures trace]. rewrite <- app_assoc. reflexivity.
Qed.

Lemma wait_loop_exit_error fuel s :
  0 <= poll_ms -> now s < deadline ->
  cap_result (pane w (captures s)) = CaptureExitError ->
  loop (S fuel) s = loop fuel (polled w target poll_ms s).
Proof.
  intros Hp H Hc. cbn [wait_loop]. run_prog.
  destruct (Z.ltb_spec (now s) deadline); [|lia].
  unfold tmux_capture. rewrite Hc. cbn [exn_eqb]. unfold sleep.
  destruct (Z.ltb_spec poll_ms 0); [lia|].
  unfold polled. cbn [now captures trace]. rewrite <- app_assoc. reflexivity.
Qed.

Lemma wait_loop_exec_error fuel s :
  now s < deadline ->
  cap_result (pane w (captures s)) = CaptureExecError ->
  loop (S fuel) s = (Raise OSError, captured w target s).
Proof.
  intros H Hc. cbn [wait_loop]. run_prog.
  destruct (Z.ltb_spec (now s) deadline); [|lia].
  unfold tmux_capture. rewrite Hc. reflexivity.
Qed.

Lemma enough_polled fuel s :
  0 < poll_ms -> now s < deadline -> fits (S fuel) s ->
  fits fuel (polled w target poll_ms s).
Proof.
  unfold polled, enough. cbn [now]. intros Hp Hlt [_ H]. split; nia.
Qed.

(** Every wait ends: with the pattern seen in the last capture, with the
    deadline passed and the pattern never seen, or with tmux failing to
    execute. *)
Lemma wait_loop_cases fuel : forall s,
  0 < poll_ms -> fits fuel s ->
  exists r s',
    loop fuel s = (r, s')
    /\ (captures s <= captures s')%nat
    /\ now s <= now s'
    /\ match r with
       | Ok true => seen_during w pattern s s'
       | Ok false => unseen_during w pattern s s' /\ deadline <= now s'
       | Raise e => e = OSError
       | OutOfFuel => False
       end.
Proof.
  induction fuel as [|fuel IH]; intros s Hp Hen.
  - destruct Hen as [H _]. lia.
  - destruct (Z.lt_ge_cases (now s) deadline) as [Hlt | Hge].
    + pose proof (enough_polled fuel s Hp Hlt Hen) as Hen'.
      destruct (cap_result (pane w (captures s))) as [buf| |] eqn:Hc.
      * destruct (contains buf pattern) eqn:Hin.
        -- exists (Ok true), (captured w target s).
           split; [eapply wait_loop_hit; eassumption|].
           unfold captured, seen_during. cbn [captures now pred].
           repeat split; try lia. exists buf. auto.
        -- destruct (IH _ Hp Hen') as (r & s' & Hr & Hcap & Hnow & Hres).
           exists r, s'.
           split; [rewrite (wait_loop_miss fuel s buf) by (assumption || lia); exact Hr|].
           unfold polled in Hcap, Hnow. cbn [captures now] in Hcap, Hnow.
           repeat split; try lia.
           destruct r as [[|]|e|]; auto.
           ++ destruct Hres as [Hlt' Hbuf]. split; [|exact Hbuf].
              unfold polled in Hlt'. cbn [captures] in Hlt'. lia.
           ++ destruct Hres as [Hun Hd]. split; [|exact Hd].
              intros n b Hn Hb.
              destruct (Nat.eq_dec n (captures s)) as [->|Hne].
              ** congruence.
              ** apply (Hun n b); [|exact Hb].
                 unfold polled. cbn [captures]. lia.
      * destruct (IH _ Hp Hen') as (r & s' & Hr & Hcap & Hnow & Hres).
        exists r, s'.
        split; [rewrite (wait_loop_exit_error fuel s) by (assumption || lia); exact Hr|].
        unfold polled in Hcap, Hnow. cbn [captures now] in Hcap, Hnow.
        repeat split; try lia.
        destruct r as [[|]|e|]; auto.
        -- destruct Hres as [Hlt' Hbuf]. split; [|exact Hbuf].
           unfold polled in Hlt'. cbn [captures] in Hlt'. lia.
        -- destruct Hres as [Hun Hd]. split; [|exact Hd].
           intros n b Hn Hb.
           destruct (Nat.eq_dec n (captures s)) as [->|Hne].
           ++ congruence.
           ++ apply (Hun n b); [|exact Hb].
              unfold polled. cbn [captures]. lia.
      * exists (Raise OSError), (captured w target s).
        split; [apply wait_loop_exec_error; assumption|].
        unfold captured. cbn [captures now]. repeat split; lia.
    + exists (Ok false), s.
      split; [apply wait_loop_done; lia|].
      repeat split; try lia.
      intros n b Hn. lia.
Qed.

(** When the pattern never shows, the wait fails; it comes back at or
    after the deadline, and less than one capture and one sleep after
    it. *)
Lemma wait_loop_absent_timing fuel : forall s,
  0 < poll_ms -> pattern_absent w pattern -> fits fuel s ->
  exists s',
    loop fuel s = (Ok false, s')
    /\ (deadline <= now s' \/ (s' = s /\ deadline <= now s))
    /\ (s' = s
        \/ ((captures s < captures s')%nat
            /\ now s' < deadline + poll_ms
                        + Z.of_N (cap_ms (pane w (pred (captures s'))))))
    /\ now s + poll_ms * Z.of_nat (captures s' - captures s) <= now s'.
Proof.
  induction fuel as [|fuel IH]; intros s Hp Habs Hen.
  - destruct Hen as [H _]. lia.
  - destruct (Z.lt_ge_cases (now s) deadline) as [Hlt | Hge].
    + pose proof (enough_polled fuel s Hp Hlt Hen) as Hen'.
      destruct (IH _ Hp Habs Hen') as (s' & Hr & Hlow & Hup & Hcnt).
      assert (Hstep : loop (S fuel) s = loop fuel (polled w target poll_ms s)).
      { pose proof (Habs (captures s)) as Hc.
        destruct (cap_result (pane w (captures s))) as [buf| |] eqn:E.
        - apply (wait_loop_miss fuel s buf); (assumption || lia).
        - apply wait_loop_exit_error; (assumption || lia).
        - contradiction. }
      exists s'. split; [rewrite Hstep; exact Hr|].
      assert (Hmono : (captures (polled w target poll_ms s) <= captures s')%nat
                      /\ now (polled w target poll_ms s) <= now s').
      { destruct (wait_loop_cases fuel _ Hp Hen') as (r0 & s0 & Hr0 & Hc0 & Hn0 & _).
        rewrite Hr in Hr0. injection Hr0 as <- <-. auto. }
      unfold polled in Hlow, Hup, Hcnt, Hmono.
      cbn [now captures] in Hlow, Hup, Hcnt, Hmono.
      destruct Hmono as [Hm1 Hm2].
      split; [left; destruct Hlow as [H | [_ H]]; lia|].
      split.
      * right. destruct Hup as [-> | [Hc Hb]].
        -- unfold polled. cbn [captures now pred]. split; lia.
        -- split; lia.
      * replace (captures s' - captures s)%nat
          with (S (captures s' - S (captures s)))%nat by lia.
        nia.
    + exists s. split; [apply wait_loop_done; lia|].
      split; [left; lia|]. split; [left; reflexivity|].
      rewrite Nat.sub_diag. lia.
Qed.

End WaitLoop.

(** A failed capture and a capture without the pattern lead to the same
    wait. *)
Lemma wait_loop_failure_or_miss w w2 target pattern deadline poll_ms fuel : forall s,
  0 <= poll_ms ->
  (forall n, cap_ms (pane w n) = cap_ms (pane w2 n)) ->
  (forall n, failure_or_miss pattern (cap_result (pane w n)) (cap_result (pane w2 n))) ->
  wait_loop w target pattern deadline poll_ms fuel s
  = wait_loop w2 target pattern deadline poll_ms fuel s.
Proof.
  induction fuel as [|fuel IH]; intros s Hp Hms Hsim; [reflexivity|].
  destruct (Z.lt_ge_cases (now s) deadline) as [Hlt | Hge].
  - assert (Hpolled : polled w target poll_ms s = polled w2 target poll_ms s)
      by (unfold polled; rewrite Hms; reflexivity).
    assert (Hcaptured : captured w target s = captured w2 target s)
      by (unfold captured; rewrite Hms; reflexivity).
    destruct (Hsim (captures s)) as [Heq | (H1 & buf & H2 & Hin)].
    + destruct (cap_result (pane w (captures s))) as [buf| |] eqn:E.
      * destruct (contains buf pattern) eqn:Hin.
        -- rewrite (wait_loop_hit w target pattern deadline poll_ms fuel s buf) by assumption.
           rewrite (wait_loop_hit w2 target pattern deadline poll_ms fuel s buf)
             by (congruence || assumption).
           rewrite Hcaptured. reflexivity.
        -- rewrite (wait_loop_miss w target pattern deadline poll_ms fuel s buf) by assumption.
           rewrite (wait_loop_miss w2 target pattern deadline poll_ms fuel s buf)
             by (congruence || assumption).
           rewrite Hpolled. apply IH; assumption.
      * rewrite (wait_loop_exit_error w target pattern deadline poll_ms fuel s) by assumption.
        rewrite (wait_loop_exit_error w2 target pattern deadline poll_ms fuel s)
          by (congruence || assumption).
        rewrite Hpolled. apply IH; assumption.
      * rewrite (wait_loop_exec_error w target pattern deadline poll_ms fuel s) by assumption.
        rewrite (wait_loop_exec_error w2 target pattern deadline poll_ms fuel s)
          by (congruence || assumption).
        rewrite Hcaptured. reflexivity.
    + rewrite (wait_loop_exit_error w target pattern deadline poll_ms fuel s) by assumption.
      rewrite (wait_loop_miss w2 target pattern deadline poll_ms fuel s buf)
        by assumption.
      rewrite Hpolled. apply IH; assumption.
  - rewrite (wait_loop_done w target pattern deadline poll_ms fuel s) by assumption.
    rewrite (wait_loop_done w2 target pattern deadline poll_ms fuel s) by assumption.
    reflexivity.
Qed.

Lemma tmux_wait_unfold w target pattern timeout_ms poll_ms s :
  tmux_wait_for_text w target pattern timeout_ms poll_ms s
  = wait_loop w target pattern (now s + timeout_ms) poll_ms
      (wait_fuel timeout_ms poll_ms) s.
Proof. reflexivity. Qed.

Lemma wait_fuel_enough timeout_ms poll_ms s :
  0 < poll_ms ->
  enough (now s + timeout_ms) poll_ms (wait_fuel timeout_ms poll_ms) s.
Proof.
  intros Hp. unfold enough, wait_fuel. split; [lia|].
  destruct (Z.le_gt_cases 0 timeout_ms) as [Hpos | Hneg].
  - pose proof (Z.div_pos timeout_ms poll_ms Hpos Hp) as Hq.
    pose proof (Z.mul_succ_div_gt timeout_ms poll_ms Hp) as Hgt.
    rewrite !Nat2Z.inj_succ, Z2Nat.id by exact Hq. lia.
  - rewrite !Nat2Z.inj_succ. nia.
Qed.

(** Every wait with a positive poll interval ends, in one of three ways. *)
Lemma tmux_wait_cases w target pattern timeout_ms poll_ms s :
  0 < poll_ms ->
  exists r s',
    tmux_wait_for_text w target pattern timeout_ms poll_ms s = (r, s')
    /\ match r with
       | Ok true => seen_during w pattern s s'
       | Ok false => unseen_during w pattern s s' /\ now s + timeout_ms <= now s'
       | Raise e => e = OSError
       | OutOfFuel => False
       end.
Proof.
  intros Hp. rewrite tmux_wait_unfold.
  destruct (wait_loop_cases w target pattern (now s + timeout_ms) poll_ms
              (wait_fuel timeout_ms poll_ms) s Hp (wait_fuel_enough _ _ _ Hp))
    as (r & s' & Hr & _ & _ & Hres).
  exists r, s'. split; [exact Hr | exact Hres].
Qed.

Lemma polled_n_facts w target poll_ms k : forall s,
  0 <= poll_ms ->
  captures (polled_n w target poll_ms k s) = (captures s + k)%nat
  /\ now s + poll_ms * Z.of_nat k <= now (polled_n w target poll_ms k s).
Proof.
  induction k as [|k IH]; intros s Hp.
  - cbn. split; lia.
  - cbn [polled_n]. destruct (IH (polled w target poll_ms s) Hp) as [Hc Hn].
    remember (polled_n w target poll_ms k (polled w target poll_ms s)) as s'.
    unfold polled in Hc, Hn. cbn [captures now] in Hc, Hn.
    split; [lia|]. rewrite Nat2Z.inj_succ. nia.
Qed.

Lemma wait_loop_after_misses w target pattern deadline poll_ms k : forall fuel s,
  0 <= poll_ms ->
  (forall i, (i < k)%nat ->
     now (polled_n w target poll_ms i s) < deadline
     /\ misses w pattern (polled_n w target poll_ms i s)) ->
  wait_loop w target pattern deadline poll_ms (k + fuel) s
  = wait_loop w target pattern deadline poll_ms fuel (polled_n w target poll_ms k s).
Proof.
  induction k as [|k IH]; intros fuel s Hp Hmiss; [reflexivity|].
  destruct (Hmiss 0%nat ltac:(lia)) as [Hlt Hm]. cbn [polled_n] in Hlt, Hm.
  assert (Hstep : wait_loop w target pattern deadline poll_ms (S (k + fuel)) s
                  = wait_loop w target pattern deadline poll_ms (k + fuel)
                      (polled w target poll_ms s)).
  { unfold misses in Hm.
    destruct (cap_result (pane w (captures s))) as [buf| |] eqn:E.
    - apply (wait_loop_miss w target pattern deadline poll_ms _ s buf); assumption.
    - apply wait_loop_exit_error; assumption.
    - contradiction. }
  cbn [plus polled_n]. rewrite Hstep. apply IH; [exact Hp|].
  intros i Hi. apply (Hmiss (S i)). lia.
Qed.

Lemma wait_fuel_covers timeout_ms poll_ms k :
  0 < poll_ms -> poll_ms * Z.of_nat k < timeout_ms ->
  exists fuel, wait_fuel timeout_ms poll_ms = (k + S fuel)%nat.
Proof.
  intros Hp Hk. unfold wait_fuel.
  assert (Hq : Z.of_nat k <= timeout_ms / poll_ms)
    by (apply Z.div_le_lower_bound; lia).
  exists (S (Z.to_nat (timeout_ms / poll_ms)) - k)%nat. lia.
Qed.










(** Four polls of half a second fill a timeout of two seconds. *)
Example idle_wait_run :
  tmux_wait_for_text (mac_world 0) sample_target TRUST_PROMPT 2000 500 (start 0)
  = (Ok false, polled_n (mac_world 0) sample_target 500 4 (start 0)).
Proof. vm_compute. reflexivity. Qed.

Example slow_wait_run :
  let r := tmux_wait_for_text slow_world (py "claude-code:0.0") TRUST_PROMPT 2000 500
             (start 0) in
  fst r = Ok false /\ now (snd r) = 3000 /\ captures (snd r) = 2%nat.
Proof. vm_compute. repeat split. Qed.


(** C9. A capture that fails with an exit status counts as "not yet
    there": the iteration does not raise, sleeps for the poll interval and
    goes on with the next one; a pane whose every capture fails makes the
    wait return [False] at the deadline, not before; and a world in which
    captures fail is told apart by no wait from the world in which they
    return text without the pattern. *)
Theorem capture_failure_counts_as_absent
    (w : World) (target pattern : str) (timeout_ms poll_ms : Z) (s : State) :
  0 < poll_ms ->
  (forall deadline fuel,
      now s < deadline ->
      cap_result (pane w (captures s)) = CaptureExitError ->
      wait_loop w target pattern deadline poll_ms (S fuel) s
      = wait_loop w target pattern deadline poll_ms fuel
          (polled w target poll_ms s))
  /\ ((forall n, cap_result (pane w n) = CaptureExitError) ->
      exists s',
        tmux_wait_for_text w target pattern timeout_ms poll_ms s = (Ok false, s')
        /\ now s + timeout_ms <= now s'
        /\ (0 < timeout_ms -> (captures s < captures s')%nat))
  /\ (forall w2,
        (forall n, cap_ms (pane w n) = cap_ms (pane w2 n)) ->
        (forall n, failure_or_miss pattern (cap_result (pane w n))
                     (cap_result (pane w2 n))) ->
        tmux_wait_for_text w target pattern timeout_ms poll_ms s
        = tmux_wait_for_text w2 target pattern timeout_ms poll_ms s).
Proof.
  intros Hp. split; [|split].
  - intros deadline fuel Hlt Hc. apply wait_loop_exit_error; (assumption || lia).
  - intros Hfail.
    assert (Habs : pattern_absent w pattern)
      by (intros n; rewrite Hfail; exact I).
    destruct (wait_loop_absent_timing w target pattern (now s + timeout_ms) poll_ms
                (wait_fuel timeout_ms poll_ms) s Hp Habs (wait_fuel_enough _ _ _ Hp))
      as (s' & Hr & Hlow & Hup & _).
    exists s'. rewrite tmux_wait_unfold. split; [exact Hr|].
    split; [destruct Hlow as [H | [-> H]]; lia|].
    intros Ht. destruct Hup as [-> | [Hc _]]; [|exact Hc].
    destruct Hlow as [H | [_ H]]; lia.
  - intros w2 Hms Hsim. rewrite !tmux_wait_unfold.
    apply wait_loop_failure_or_miss; (assumption || lia).
Qed.

Lemma capture_failure_witness :
  (forall deadline fuel,
      now (start 0) < deadline ->
      cap_result (pane failing_world (captures (start 0))) = CaptureExitError ->
      wait_loop failing_world (sample_target) TRUST_PROMPT deadline 500 (S fuel)
        (start 0)
      = wait_loop failing_world (sample_target) TRUST_PROMPT deadline 500 fuel
          (polled failing_world (sample_target) 500 (start 0)))
  /\ ((forall n, cap_result (pane failing_world n) = CaptureExitError) ->
      exists s',
        tmux_wait_for_text failing_world (sample_target) TRUST_PROMPT 2000 500
          (start 0) = (Ok false, s')
        /\ now (start 0) + 2000 <= now s'
        /\ (0 < 2000 -> (captures (start 0) < captures s')%nat))
  /\ (forall w2,
        (forall n, cap_ms (pane failing_world n) = cap_ms (pane w2 n)) ->
        (forall n, failure_or_miss TRUST_PROMPT (cap_result (pane failing_world n))
                     (cap_result (pane w2 n))) ->
        tmux_wait_for_text failing_world (sample_target) TRUST_PROMPT 2000 500
          (start 0)
        = tmux_wait_for_text w2 (sample_target) TRUST_PROMPT 2000 500 (start 0)).
Proof.
  apply (capture_failure_counts_as_absent failing_world (sample_target)
           TRUST_PROMPT 2000 500 (start 0)).
  lia.
Defined.

Example failing_wait_run :
  let r := tmux_wait_for_text failing_world sample_target TRUST_PROMPT 2000 500
             (start 0) in
  fst r = Ok false /\ now (snd r) = 2000 /\ captures (snd r) = 4%nat
  /\ trace (snd r)
     = [ESpawn (capture_argv sample_target 200) None Piped false; ESleep 500;
        ESpawn (capture_argv sample_target 200) None Piped false; ESleep 500;
        ESpawn (capture_argv sample_target 200) None Piped false; ESleep 500;
        ESpawn (capture_argv sample_target 200) None Piped false; ESleep 500].
Proof. vm_compute. repeat split. Qed.

(** ** The trust prompt *)





(** The prompt shown twice: Enter, a pause, then [1] and Enter. *)
Example trust_prompt_twice :
  handle_trust_prompt (trusting_world 2) sample_target (start 0)
  = (Ok tt,
     {| now := 800; captures := 2;
        trace := [ESpawn (capture_argv sample_target 200) None Piped false;
                  ESpawn (send_keys sample_target (py "Enter")) None Inherited false;
                  ESleep 800;
                  ESpawn (capture_argv sample_target 200) None Piped false;
                  ESpawn (send_keys sample_target (py "1")) None Inherited false;
                  ESpawn (send_keys sample_target (py "Enter")) None Inherited false] |}).
Proof. vm_compute. reflexivity. Qed.

(** The prompt shown once: Enter, a pause, and two seconds of polling. *)
Example trust_prompt_once :
  let r := handle_trust_prompt (trusting_world 1) sample_target (start 0) in
  fst r = Ok tt /\ now (snd r) = 2800
  /\ spawned_of (trace (snd r))
     = [capture_argv sample_target 200; send_keys sample_target (py "Enter");
        capture_argv sample_target 200; capture_argv sample_target 200;
        capture_argv sample_target 200; capture_argv sample_target 200].
Proof. vm_compute. repeat split. Qed.

(** No prompt: twenty seconds of polling, nothing sent. *)
Example trust_prompt_never :
  let r := handle_trust_prompt (mac_world 0) sample_target (start 0) in
  fst r = Ok tt /\ now (snd r) = 20000 /\ captures (snd r) = 40%nat
  /\ forallb (fun argv => str_eqb (nth 1 argv []) (py "capture-pane"))
       (spawned_of (trace (snd r))) = true.
Proof. vm_compute. repeat split. Qed.

(** ** Entry point *)

Lemma stderr_of_app a b : stderr_of (a ++ b) = stderr_of a ++ stderr_of b.
Proof. unfold stderr_of. apply flat_map_app. Qed.

Lemma spawned_of_app a b : spawned_of (a ++ b) = spawned_of a ++ spawned_of b.
Proof. unfold spawned_of. apply flat_map_app. Qed.

Lemma which_truthy w name c : which w name = Ok (Some c) -> truthy c = true.
Proof.
  intros H. destruct (which_scan_spec w name (search_path w)) as (r & Hr & Hspec).
  unfold which in H. rewrite H in Hr. injection Hr as <-.
  destruct Hspec as (pre & d & post & _ & -> & _). apply pure_path_str_truthy.
Qed.

Lemma main_missing w a s :
  fs_exists_raises w (arg_claude_bin a) = false ->
  fs_exists w (arg_claude_bin a) = false ->
  which w (py "claude") = Ok None ->
  main w a s
  = (Ok 2,
     after [EPrintErr (CLAUDE_MISSING (arg_claude_bin a) ++ [NL]);
            EPrintErr (py "Install: npm install -g @anthropic-ai/claude-code" ++ [NL]);
            EPrintErr (py "Or set CLAUDE_CODE_BIN=/path/to/claude" ++ [NL])] s).
Proof.
  intros Hr Hex Hw. unfold main, resolve_claude_binary.
  cbn [arg_claude_bin set_extra]. rewrite Hr, Hex. run_prog. rewrite Hw. run_prog.
  unfold after. repeat rewrite <- app_assoc. reflexivity.
Qed.

(** The existence test of the configured path raises: so does [main],
    before it has done anything. *)
Lemma main_unlocatable w a s :
  fs_exists_raises w (arg_claude_bin a) = true ->
  main w a s = (Raise OSError, s).
Proof.
  intros Hr. unfold main, resolve_claude_binary.
  cbn [arg_claude_bin set_extra]. rewrite Hr. reflexivity.
Qed.

Lemma main_located w a a' s :
  located_args w a = Some a' -> main w a s = dispatch_run w a' s.
Proof.
  unfold located_args, main, resolve_claude_binary.
  cbn [arg_claude_bin set_extra].
  destruct (fs_exists_raises w (arg_claude_bin a)); [discriminate|].
  destruct (fs_exists w (arg_claude_bin a)).
  - intros H. injection H as <-. reflexivity.
  - run_prog. destruct (which w (py "claude")) as [[[|c r]|]|e|]; try discriminate.
    intros H. injection H as <-. reflexivity.
Qed.

(** Locating the target changes the path of the binary only. *)
Lemma located_args_same w a a' :
  located_args w a = Some a' ->
  arg_mode a' = arg_mode a /\ arg_prompt a' = arg_prompt a
  /\ arg_background a' = arg_background a /\ arg_notify a' = arg_notify a
  /\ arg_clipboard a' = arg_clipboard a /\ arg_cwd a' = arg_cwd a
  /\ arg_log_dir a' = arg_log_dir a.
Proof.
  unfold located_args. cbn [arg_claude_bin set_extra].
  destruct (fs_exists_raises w (arg_claude_bin a)); [discriminate|].
  destruct (fs_exists w (arg_claude_bin a)).
  - intros H. injection H as <-. repeat split.
  - destruct (which w (py "claude")) as [[[|c r]|]|e|]; try discriminate.
    intros H. injection H as <-. repeat split.
Qed.

Lemma located_args_iff w a :
  (exists a', located_args w a = Some a')
  <-> fs_exists_raises w (arg_claude_bin a) = false
      /\ (fs_exists w (arg_claude_bin a) = true
          \/ exists c, which w (py "claude") = Ok (Some c)).
Proof.
  unfold located_args. cbn [arg_claude_bin set_extra]. split.
  - intros (a' & H).
    destruct (fs_exists_raises w (arg_claude_bin a)); [discriminate|].
    split; [reflexivity|].
    destruct (fs_exists w (arg_claude_bin a)); [left; reflexivity|].
    right. destruct (which w (py "claude")) as [[[|c r]|]|e|]; try discriminate.
    eauto.
  - intros (-> & [-> | (c & Hc)]); [eauto|].
    destruct (fs_exists w (arg_claude_bin a)); [eauto|].
    rewrite Hc. pose proof (which_truthy _ _ _ Hc) as Ht.
    destruct c; [discriminate | eauto].
Qed.

Lemma bind_ok {A B} (c : M A) (k : A -> M B) s v s' :
  bind c k s = (Ok v, s') ->
  exists a s1, c s = (Ok a, s1) /\ k a s1 = (Ok v, s').
Proof.
  unfold bind. destruct (c s) as [[a|e|] s1]; intros H; try discriminate; eauto.
Qed.

Ltac peel H := apply bind_ok in H; destruct H as (? & ? & _ & H).

Lemma notify_macos_eq w title message s :
  notify_macos w title message s
  = (Ok tt, after [ESpawn (notify_argv title message) None Piped false] s).
Proof.
  unfold notify_macos, subprocess_run. run_prog.
  destruct (spawn w (notify_argv title message) None); reflexivity.
Qed.

Lemma dispatch_interactive b : dispatch b Interactive = ToInteractive.
Proof. destruct b; reflexivity. Qed.

Lemma run_interactive_no_tmux w a s :
  which w (py "tmux") = Ok None ->
  run_interactive_tmux w a s = (Ok 2, after [EPrintErr (TMUX_MISSING ++ [NL])] s).
Proof.
  intros H. unfold run_interactive_tmux. run_prog. rewrite H. reflexivity.
Qed.

(** The interactive runner returns 2 without tmux and 0 otherwise. *)
Lemma run_interactive_exit w a s rc s' :
  run_interactive_tmux w a s = (Ok rc, s') ->
  (rc = 0 /\ exists c, which w (py "tmux") = Ok (Some c))
  \/ (rc = 2 /\ which w (py "tmux") = Ok None).
Proof.
  destruct (which_returns w (py "tmux")) as (tb & Htb).
  unfold run_interactive_tmux. unfold bind at 1. unfold lift at 1. rewrite Htb.
  destruct tb as [c|].
  - pose proof (which_truthy _ _ _ Htb) as Ht.
    destruct c as [|x c]; [discriminate|]. cbn [otruthy negb].
    intros H. left. split; [|eauto].
    repeat peel H. injection H as <- _. reflexivity.
  - cbn [otruthy negb]. run_prog. intros H. injection H as <- _. right. auto.
Qed.

Lemma run_for_clipboard_eq w cmd dir s :
  run_for_clipboard w cmd dir s
  = match spawn w ([py "script"; py "-q"; py "/dev/null"] ++ cmd) dir with
    | SpawnFails =>
        (Raise OSError,
         after [ESpawn ([py "script"; py "-q"; py "/dev/null"] ++ cmd) dir Piped false] s)
    | Child _ rc out err =>
        (Ok rc,
         after ([ESpawn ([py "script"; py "-q"; py "/dev/null"] ++ cmd) dir Piped false;
                 EPrint out]
                ++ (if truthy err then [EPrintErr err] else [])
                ++ [ESpawn [py "pbcopy"] None Inherited false]
                ++ match spawn w [py "pbcopy"] None with
                   | SpawnFails => []
                   | Child _ _ _ _ => [EStdin out]
                   end) s)
    end.
Proof.
  unfold run_for_clipboard, copy_to_clipboard. run_prog.
  destruct (spawn w ([py "script"; py "-q"; py "/dev/null"] ++ cmd) dir)
    as [|pid rc out err]; [reflexivity|].
  run_prog. destruct (truthy err); run_prog;
    destruct (spawn w [py "pbcopy"] None); unfold after; cbn [now captures trace];
    repeat rewrite <- app_assoc; reflexivity.
Qed.

Lemma run_with_pty_eq w cmd dir s sb :
  which w (py "script") = Ok sb ->
  run_with_pty w cmd dir s
  = match spawn w (wrap_with_script sb cmd) dir with
    | SpawnFails =>
        (Raise OSError, after [ESpawn (wrap_with_script sb cmd) dir Inherited false] s)
    | Child _ rc _ _ =>
        (Ok rc, after [ESpawn (wrap_with_script sb cmd) dir Inherited false] s)
    end.
Proof.
  intros H. unfold run_with_pty. run_prog. rewrite H.
  destruct (spawn w (wrap_with_script sb cmd) dir); reflexivity.
Qed.

(** X23. Where the existence test of the configured path answers, the
    launcher does what the specification says of a missing binary.  When
    the target program is neither at the configured path nor on the search
    path, [main] returns 2 after printing to the error stream a diagnostic
    that names the path it looked for, and starts nothing.  When the
    target is found, the run is interactive (asked for, or chosen from the
    prompt) and tmux is not on the search path, [main] returns 2 and the
    error stream holds the diagnostic that names tmux. *)
Theorem missing_binary_exits_with_2 (w : World) (a : Args) (s : State) :
  fs_exists_raises w (arg_claude_bin a) = false ->
  (fs_exists w (arg_claude_bin a) = false ->
   which w (py "claude") = Ok None ->
   main w a s
   = (Ok 2,
      after [EPrintErr (py "Error: claude binary not found at "
                        ++ arg_claude_bin a ++ [NL]);
             EPrintErr (py "Install: npm install -g @anthropic-ai/claude-code" ++ [NL]);
             EPrintErr (py "Or set CLAUDE_CODE_BIN=/path/to/claude" ++ [NL])] s))
  /\ (fs_exists w (arg_claude_bin a) = true
      \/ (exists c, which w (py "claude") = Ok (Some c)) ->
      resolve_mode (arg_mode a) (arg_prompt a) = Interactive ->
      which w (py "tmux") = Ok None ->
      exists s',
        main w a s = (Ok 2, s')
        /\ stderr_of (trace s')
           = stderr_of (trace s)
             ++ [py "Error: tmux not found. Install via: brew install tmux" ++ [NL]]).
Proof.
  intros Hr. split.
  - intros Hex Hw. rewrite (main_missing w a s Hr Hex Hw).
    unfold CLAUDE_MISSING. rewrite <- app_assoc. reflexivity.
  - intros Hloc Hmode Htmux.
    destruct (proj2 (located_args_iff w a) (conj Hr Hloc)) as (a' & Ha').
    destruct (located_args_same w a a' Ha') as (Hm & Hpr & Hbg & Hnt & _).
    rewrite (main_located w a a' s Ha'). unfold dispatch_run.
    rewrite Hm, Hpr, Hmode, dispatch_interactive.
    unfold bind at 1. rewrite (run_interactive_no_tmux w a' s Htmux).
    destruct (arg_notify a').
    + unfold bind at 1. rewrite notify_macos_eq. eexists. split; [reflexivity|].
      unfold after. cbn [trace]. rewrite !stderr_of_app. cbn. rewrite app_nil_r.
      reflexivity.
    + eexists. split; [reflexivity|].
      unfold after. cbn [trace]. rewrite !stderr_of_app. reflexivity.
Qed.

Lemma missing_binary_witness :
  main bare_world (default_args (Some (py "hi"))) (start 0)
  = (Ok 2,
     after [EPrintErr (py "Error: claude binary not found at "
                       ++ arg_claude_bin (default_args (Some (py "hi"))) ++ [NL]);
            EPrintErr (py "Install: npm install -g @anthropic-ai/claude-code" ++ [NL]);
            EPrintErr (py "Or set CLAUDE_CODE_BIN=/path/to/claude" ++ [NL])] (start 0))
  /\ exists s',
       main no_tmux_world (default_args (Some (py "/help"))) (start 0) = (Ok 2, s')
       /\ stderr_of (trace s')
          = stderr_of (trace (start 0))
            ++ [py "Error: tmux not found. Install via: brew install tmux" ++ [NL]].
Proof.
  split.
  - apply (proj1 (missing_binary_exits_with_2 bare_world
                    (default_args (Some (py "hi"))) (start 0) eq_refl));
      reflexivity.
  - apply (proj2 (missing_binary_exits_with_2 no_tmux_world
                    (default_args (Some (py "/help"))) (start 0) eq_refl));
      [left; reflexivity | reflexivity | reflexivity].
Defined.

(** C2, where the code departs from it.  A target that cannot be located
    because the existence test of the configured path itself fails (a
    directory on the way may not be searched, a name is too long) does not
    end in exit code 2: [Path.exists] raises, [main] has no handler, and
    the run ends with that [OSError] before anything was printed to the
    error stream and before the search path was tried.  [which], a few
    lines above, guards the same failure with [try ... except OSError]. *)
Theorem unlocatable_target_raises (w : World) (a : Args) (s : State) :
  fs_exists_raises w (arg_claude_bin a) = true ->
  main w a s = (Raise OSError, s)
  /\ fst (main w a s) <> Ok 2
  /\ stderr_of (trace (snd (main w a s))) = stderr_of (trace s).
Proof.
  intros Hr. rewrite (main_unlocatable w a s Hr). cbn [fst snd].
  split; [reflexivity | split; [discriminate | reflexivity]].
Qed.

Lemma unlocatable_target_witness :
  main unsearchable_world (unsearchable_args (Some (py "hi"))) (start 0)
  = (Raise OSError, start 0)
  /\ fst (main unsearchable_world (unsearchable_args (Some (py "hi"))) (start 0))
     <> Ok 2
  /\ stderr_of (trace (snd (main unsearchable_world
                               (unsearchable_args (Some (py "hi"))) (start 0))))
     = stderr_of (trace (start 0)).
Proof.
  apply (unlocatable_target_raises unsearchable_world
           (unsearchable_args (Some (py "hi"))) (start 0)).
  reflexivity.
Defined.

(** On the same machine [which] answers, and finds nothing: the guarded
    directory is skipped. *)
Example unsearchable_which :
  which unsearchable_world (py "claude") = Ok None.
Proof. vm_compute. reflexivity. Qed.

Lemma dispatch_run_headless w a s :
  dispatch (arg_background a) (resolve_mode (arg_mode a) (arg_prompt a)) = ToHeadless ->
  dispatch_run w a s
  = (rc <- (if arg_clipboard a
            then run_for_clipboard w (build_headless_cmd a) (arg_cwd a)
            else run_with_pty w (build_headless_cmd a) (arg_cwd a)) ;;
     (if arg_notify a then notify_macos w (py "Claude Code") (task_status rc)
      else ret tt) ;;
     ret rc) s.
Proof. intros H. unfold dispatch_run. rewrite H. reflexivity. Qed.

Lemma dispatch_run_background w a s :
  dispatch (arg_background a) (resolve_mode (arg_mode a) (arg_prompt a)) = ToBackground ->
  dispatch_run w a s
  = run_background w (build_headless_cmd a) (arg_cwd a) (arg_log_dir a) (arg_notify a) s.
Proof. intros H. unfold dispatch_run. rewrite H. reflexivity. Qed.

Lemma dispatch_run_interactive w a s :
  dispatch (arg_background a) (resolve_mode (arg_mode a) (arg_prompt a)) = ToInteractive ->
  dispatch_run w a s
  = (rc <- run_interactive_tmux w a ;;
     (if arg_notify a then notify_macos w (py "Claude Code") (task_status rc)
      else ret tt) ;;
     ret rc) s.
Proof. intros H. unfold dispatch_run. rewrite H. reflexivity. Qed.

Lemma run_background_returns_0 w cmd dir log_dir notify s sb pid rc out err :
  os_makedirs w log_dir = true ->
  os_open_w w (log_file_path log_dir (localtime w (now s))) = true ->
  which w (py "script") = Ok sb ->
  spawn w (wrap_with_script sb cmd) dir = Child pid rc out err ->
  (notify = true -> spawn w [py "bash"; py "-c"; watcher_script pid] None <> SpawnFails) ->
  fst (run_background w cmd dir log_dir notify s) = Ok 0.
Proof.
  intros Hmk Hop Hsb Hsp Hwatch.
  unfold run_background. run_prog. rewrite Hmk. run_prog. rewrite Hop. run_prog.
  rewrite Hsb, Hsp. run_prog. destruct notify; run_prog; [|reflexivity].
  destruct (spawn w [py "bash"; py "-c"; watcher_script pid] None) eqn:E;
    [exfalso; apply Hwatch; reflexivity | reflexivity].
Qed.

(** C3 (amended). Once the target is found: a synchronous headless run
    (under [script] when found, bare otherwise, and always under [script]
    with [--clipboard]) returns the exit code of the process it ran,
    unchanged; a background launch that could create its log and start the
    child returns 0 whatever exit code the child ends with; an interactive
    run that returns normally returns 0 (or 2 when tmux is missing): the
    exit code of the program inside the session is never read. *)
Theorem exit_code_by_route (w : World) (a a' : Args) (s : State) :
  located_args w a = Some a' ->
  match dispatch (arg_background a) (resolve_mode (arg_mode a) (arg_prompt a)) with
  | ToHeadless =>
      forall sb pid rc out err,
        which w (py "script") = Ok sb ->
        spawn w (if arg_clipboard a
                 then [py "script"; py "-q"; py "/dev/null"] ++ build_headless_cmd a'
                 else wrap_with_script sb (build_headless_cmd a'))
          (arg_cwd a) = Child pid rc out err ->
        fst (main w a s) = Ok rc
  | ToBackground =>
      forall sb pid rc out err,
        os_makedirs w (arg_log_dir a) = true ->
        os_open_w w (log_file_path (arg_log_dir a) (localtime w (now s))) = true ->
        which w (py "script") = Ok sb ->
        spawn w (wrap_with_script sb (build_headless_cmd a')) (arg_cwd a)
        = Child pid rc out err ->
        (arg_notify a = true ->
         spawn w [py "bash"; py "-c"; watcher_script pid] None <> SpawnFails) ->
        fst (main w a s) = Ok 0
  | ToInteractive =>
      forall rc,
        fst (main w a s) = Ok rc ->
        (rc = 0 /\ exists c, which w (py "tmux") = Ok (Some c))
        \/ (rc = 2 /\ which w (py "tmux") = Ok None)
  end.
Proof.
  intros Ha'.
  destruct (located_args_same w a a' Ha') as (Hm & Hpr & Hbg & Hnt & Hcl & Hcwd & Hld).
  rewrite (main_located w a a' s Ha').
  rewrite <- Hm, <- Hpr, <- Hbg, <- Hnt, <- Hcl, <- Hcwd, <- Hld.
  destruct (dispatch (arg_background a')
              (resolve_mode (arg_mode a') (arg_prompt a'))) eqn:Hroute.
  - intros sb pid rc out err Hmk Hop Hsb Hsp Hwatch.
    rewrite (dispatch_run_background w a' s Hroute).
    eapply run_background_returns_0; eassumption.
  - intros rc Hrc.
    rewrite (dispatch_run_interactive w a' s Hroute) in Hrc.
    destruct (bind _ _ s) as [r s'] eqn:E. cbn [fst] in Hrc. subst r.
    apply bind_ok in E. destruct E as (rc0 & s1 & Hrun & E).
    peel E. injection E as <- _.
    exact (run_interactive_exit w a' s rc0 s1 Hrun).
  - intros sb pid rc out err Hsb Hsp.
    rewrite (dispatch_run_headless w a' s Hroute).
    unfold bind at 1.
    destruct (arg_clipboard a').
    + rewrite run_for_clipboard_eq, Hsp.
      destruct (arg_notify a'); [|reflexivity].
      unfold bind at 1. rewrite notify_macos_eq. reflexivity.
    + rewrite (run_with_pty_eq w _ _ s sb Hsb), Hsp.
      destruct (arg_notify a'); [|reflexivity].
      unfold bind at 1. rewrite notify_macos_eq. reflexivity.
Qed.

Lemma exit_code_witness :
  fst (main (mac_world 7) (default_args (Some (py "hi"))) (start 0)) = Ok 7.
Proof.
  apply (exit_code_by_route (mac_world 7) (default_args (Some (py "hi")))
           (default_args (Some (py "hi"))) (start 0) eq_refl
           (Some (py "/usr/bin/script")) 4242 7 [] [] eq_refl eq_refl).
Defined.

Example background_exit_code :
  fst (main (mac_world 1) (sample_args (Some (py "hi")) Auto true false false) (start 0))
  = Ok 0.
Proof. vm_compute. reflexivity. Qed.

Example interactive_exit_code :
  fst (main (mac_world 1) (default_args (Some (py "/help"))) (start 0))
  = Raise CalledProcessError.
Proof. vm_compute. reflexivity. Qed.

Example interactive_exit_code_ok :
  fst (main (mac_world 0) (default_args (Some (py "/help"))) (start 0)) = Ok 0.
Proof. vm_compute. reflexivity. Qed.

(** C3, refuted as stated: in the background the child is started under
    [script] and exits with 1, and the launcher has returned 0. *)
Lemma background_does_not_propagate_exit_code :
  ~ propagates_child_exit_code (mac_world 1)
      (sample_args (Some (py "hi")) Auto true false false) (start 0).
Proof.
  intros H.
  specialize (H [py "/usr/bin/script"; py "-q"; py "/dev/null"] None
                (ToFile (log_file_path (py "/Users/dev/.claude/logs/headless")
                           sample_time))
                true 4242 1 [] []).
  assert (Hin : In (ESpawn
                      ([py "/usr/bin/script"; py "-q"; py "/dev/null"]
                       ++ build_headless_cmd
                            (sample_args (Some (py "hi")) Auto true false false))
                      None
                      (ToFile (log_file_path (py "/Users/dev/.claude/logs/headless")
                                 sample_time))
                      true)
                   (trace (snd (main (mac_world 1)
                                  (sample_args (Some (py "hi")) Auto true false false)
                                  (start 0))))).
  { vm_compute. do 6 right. left. reflexivity. }
  specialize (H Hin eq_refl). vm_compute in H. discriminate H.
Qed.

(** C10. With [--clipboard], a synchronous headless run starts exactly
    [script -q /dev/null <command>], with the bare name [script] and
    whatever [which("script")] would have answered; when that cannot be
    started the run ends with the error and the command is never started
    unwrapped, whereas [run_with_pty] on the same machine, its probe
    having found no [script], starts the command directly. *)
Theorem clipboard_path_wraps_without_probe (w : World) (a a' : Args) (s : State) :
  located_args w a = Some a' ->
  dispatch (arg_background a) (resolve_mode (arg_mode a) (arg_prompt a)) = ToHeadless ->
  arg_clipboard a = true ->
  (exists s',
     main w a s
     = (match spawn w ([py "script"; py "-q"; py "/dev/null"] ++ build_headless_cmd a')
                (arg_cwd a) with
        | SpawnFails => Raise OSError
        | Child _ rc _ _ => Ok rc
        end, s')
     /\ spawned_of (trace s')
        = spawned_of (trace s)
          ++ ([py "script"; py "-q"; py "/dev/null"] ++ build_headless_cmd a')
             :: match spawn w ([py "script"; py "-q"; py "/dev/null"]
                               ++ build_headless_cmd a') (arg_cwd a) with
                | SpawnFails => []
                | Child _ rc _ _ =>
                    [py "pbcopy"]
                    :: (if arg_notify a
                        then [notify_argv (py "Claude Code") (task_status rc)]
                        else [])
                end)
  /\ (which w (py "script") = Ok None ->
      spawned_of (trace (snd (run_with_pty w (build_headless_cmd a') (arg_cwd a) s)))
      = spawned_of (trace s) ++ [build_headless_cmd a']).
Proof.
  intros Ha' Hroute Hclip.
  destruct (located_args_same w a a' Ha') as (Hm & Hpr & Hbg & Hnt & Hcl & Hcwd & Hld).
  rewrite <- Hm, <- Hpr, <- Hbg in Hroute. rewrite <- Hcl in Hclip.
  rewrite <- Hnt, <- Hcwd.
  split.
  - rewrite (main_located w a a' s Ha'), (dispatch_run_headless w a' s Hroute), Hclip.
    unfold bind at 1. rewrite run_for_clipboard_eq.
    destruct (spawn w ([py "script"; py "-q"; py "/dev/null"] ++ build_headless_cmd a')
                (arg_cwd a')) as [|pid rc out err].
    + eexists. split; [reflexivity|].
      unfold after. cbn [trace]. rewrite spawned_of_app. reflexivity.
    + destruct (arg_notify a').
      * unfold bind at 1. rewrite notify_macos_eq.
        eexists. split; [reflexivity|].
        unfold after. cbn [trace]. rewrite !spawned_of_app.
        destruct (truthy err); destruct (spawn w [py "pbcopy"] None);
          cbn; rewrite <- app_assoc; reflexivity.
      * eexists. split; [reflexivity|].
        unfold after. cbn [trace]. rewrite !spawned_of_app.
        destruct (truthy err); destruct (spawn w [py "pbcopy"] None);
          cbn; reflexivity.
  - intros Hsb. rewrite (run_with_pty_eq w _ _ s None Hsb). cbn [wrap_with_script].
    destruct (spawn w (build_headless_cmd a') (arg_cwd a'));
      unfold after; cbn [snd trace]; rewrite spawned_of_app; reflexivity.
Qed.

Lemma clipboard_witness :
  (exists s',
     main no_script_world (sample_args (Some (py "hi")) Auto false true false) (start 0)
     = (Raise OSError, s')
     /\ spawned_of (trace s')
        = [[py "script"; py "-q"; py "/dev/null";
            py "/Users/dev/.local/bin/claude"; py "-p"; py "hi"]])
  /\ (which no_script_world (py "script") = Ok None ->
      spawned_of (trace (snd (run_with_pty no_script_world
                                [py "/Users/dev/.local/bin/claude"; py "-p"; py "hi"]
                                None (start 0))))
      = [[py "/Users/dev/.local/bin/claude"; py "-p"; py "hi"]]).
Proof.
  apply (clipboard_path_wraps_without_probe no_script_world
           (sample_args (Some (py "hi")) Auto false true false)
           (sample_args (Some (py "hi")) Auto false true false)
           (start 0) eq_refl eq_refl eq_refl).
Defined.

Example clipboard_run_with_script :
  let r := main (mac_world 3) (sample_args (Some (py "hi")) Headless false true true)
             (start 0) in
  fst r = Ok 3
  /\ spawned_of (trace (snd r))
     = [[py "script"; py "-q"; py "/dev/null";
         py "/Users/dev/.local/bin/claude"; py "-p"; py "hi"];
        [py "pbcopy"];
        notify_argv (py "Claude Code") (py "Headless task failed (exit 3)")].
Proof. vm_compute. repeat split. Qed.

Example headless_run_without_script :
  let r := main no_script_world (default_args (Some (py "hi"))) (start 0) in
  fst r = Ok 0
  /\ spawned_of (trace (snd r)) = [[py "/Users/dev/.local/bin/claude"; py "-p"; py "hi"]].
Proof. vm_compute. repeat split. Qed.

(** ** The launcher always ends *)

Lemma returns_ret {A} (a : A) : returns (ret a).
Proof. intros s. discriminate. Qed.

Lemma returns_raise {A} e : returns (@raise A e).
Proof. intros s. discriminate. Qed.

Lemma returns_emit ev : returns (emit ev).
Proof. intros s. discriminate. Qed.

Lemma returns_clock : returns clock.
Proof. intros s. discriminate. Qed.

Lemma returns_bind {A B} (c : M A) (k : A -> M B) :
  returns c -> (forall a, returns (k a)) -> returns (bind c k).
Proof.
  intros Hc Hk s. unfold bind. specialize (Hc s).
  destruct (c s) as [[a|e|] s1]; cbn [fst] in *; [apply Hk | discriminate | congruence].
Qed.

Lemma returns_try_except {A} (c h : M A) e :
  returns c -> returns h -> returns (try_except c e h).
Proof.
  intros Hc Hh s. unfold try_except. specialize (Hc s).
  destruct (c s) as [[a|e'|] s1]; cbn [fst] in *; try discriminate; [|congruence].
  destruct (exn_eqb e' e); [apply Hh | discriminate].
Qed.

Lemma returns_best_effort c : returns c -> returns (best_effort c).
Proof.
  intros Hc s. unfold best_effort. specialize (Hc s).
  destruct (c s) as [[a|e'|] s1]; cbn [fst] in *; try discriminate. congruence.
Qed.

Lemma returns_finally {A} (c : M A) f : returns c -> returns f -> returns (finally c f).
Proof.
  intros Hc Hf s. unfold finally. specialize (Hc s).
  destruct (c s) as [r s1]. specialize (Hf s1).
  destruct (f s1) as [[u|e|] s2]; cbn [fst] in *; [exact Hc | discriminate | congruence].
Qed.

Lemma returns_sleep ms : returns (sleep ms).
Proof. intros s. unfold sleep. destruct (ms <? 0); discriminate. Qed.

Lemma returns_sleep_arg limit ms : returns (sleep_arg limit ms).
Proof.
  unfold sleep_arg.
  destruct ((ms <? - limit) || (limit <? ms)); [discriminate | apply returns_sleep].
Qed.

Lemma returns_which w name : returns (lift (which w name)).
Proof.
  intros s. destruct (which_returns w name) as (r & Hr).
  unfold lift. rewrite Hr. discriminate.
Qed.

Lemma returns_capture w target lines : returns (tmux_capture w target lines).
Proof.
  intros s. unfold tmux_capture.
  destruct (cap_result (pane w (captures s))); discriminate.
Qed.

Lemma returns_wait w target pattern timeout_ms poll_ms :
  0 < poll_ms -> returns (tmux_wait_for_text w target pattern timeout_ms poll_ms).
Proof.
  intros Hp s.
  destruct (tmux_wait_cases w target pattern timeout_ms poll_ms s Hp)
    as (r & s' & Hr & Hres).
  rewrite Hr. cbn [fst]. destruct r; [discriminate | discriminate | contradiction].
Qed.

Ltac step_returns :=
  first
    [ apply returns_ret | apply returns_raise | apply returns_emit
    | apply returns_clock | apply returns_sleep | apply returns_sleep_arg
    | apply returns_which
    | apply returns_capture | apply returns_wait; lia
    | apply returns_best_effort | apply returns_try_except
    | apply returns_finally
    | apply returns_bind; [|intro]
    | match goal with
      | |- returns (if ?b then _ else _) => destruct b
      | |- returns (match ?x with _ => _ end) => destruct x
      | |- returns (let '(_, _) := ?x in _) => destruct x
      end ].

Lemma returns_subprocess_run w argv dir stdout :
  returns (subprocess_run w argv dir stdout).
Proof. unfold subprocess_run. repeat step_returns. Qed.

Lemma returns_check_call w argv : returns (check_call w argv).
Proof.
  unfold check_call. apply returns_bind; [apply returns_subprocess_run|].
  intros [[rc out] err]. repeat step_returns.
Qed.

Lemma returns_popen w argv dir stdout : returns (popen_detached w argv dir stdout).
Proof. unfold popen_detached. repeat step_returns. Qed.

Lemma returns_notify w title message : returns (notify_macos w title message).
Proof.
  unfold notify_macos. apply returns_best_effort.
  apply returns_bind; [apply returns_subprocess_run | intro; apply returns_ret].
Qed.

Lemma returns_copy_to_clipboard w text : returns (copy_to_clipboard w text).
Proof. unfold copy_to_clipboard. repeat step_returns. Qed.

Lemma returns_run_background w cmd dir log_dir notify :
  returns (run_background w cmd dir log_dir notify).
Proof.
  unfold run_background, print.
  repeat first [apply returns_popen | step_returns].
Qed.

Lemma returns_run_with_pty w cmd dir : returns (run_with_pty w cmd dir).
Proof.
  unfold run_with_pty. apply returns_bind; [apply returns_which | intro sb].
  apply returns_bind; [apply returns_subprocess_run|].
  intros [[rc out] err]. apply returns_ret.
Qed.

Lemma returns_run_for_clipboard w cmd dir : returns (run_for_clipboard w cmd dir).
Proof.
  unfold run_for_clipboard. apply returns_bind; [apply returns_subprocess_run|].
  intros [[rc out] err]. unfold print_noend, eprint_noend.
  repeat first [apply returns_copy_to_clipboard | step_returns].
Qed.

Lemma returns_handle_trust_prompt w target : returns (handle_trust_prompt w target).
Proof.
  unfold handle_trust_prompt, default_poll_ms.
  repeat first [apply returns_subprocess_run | step_returns].
Qed.

Lemma returns_send_prompt_lines w target delay lines :
  returns (send_prompt_lines w target delay lines).
Proof.
  induction lines as [|line rest IH]; cbn [send_prompt_lines].
  - apply returns_ret.
  - repeat first [exact IH | apply returns_check_call | step_returns].
Qed.

Lemma returns_run_interactive_tmux w a : returns (run_interactive_tmux w a).
Proof.
  unfold run_interactive_tmux, print, eprint.
  repeat first [apply returns_subprocess_run | apply returns_check_call
               | apply returns_handle_trust_prompt | apply returns_send_prompt_lines
               | step_returns].
Qed.

Lemma returns_dispatch_run w a : returns (dispatch_run w a).
Proof.
  unfold dispatch_run.
  destruct (dispatch (arg_background a) (resolve_mode (arg_mode a) (arg_prompt a))).
  - apply returns_run_background.
  - repeat first [apply returns_run_interactive_tmux | apply returns_notify
                 | step_returns].
  - repeat first [apply returns_run_for_clipboard | apply returns_run_with_pty
                 | apply returns_notify | step_returns].
Qed.

(** Whatever the machine and the arguments, [main] ends with an exit code
    or with an exception: no wait of the session controller is unbounded. *)
Lemma main_returns w a : returns (main w a).
Proof.
  unfold main, resolve_claude_binary, eprint.
  repeat first [apply returns_dispatch_run | step_returns].
Qed.

(** * Further properties of the launcher *)

(** ** Prompts *)

Lemma scan_join P lb Q : forall fresh,
  is_linebreak lb = true ->
  slash_scan fresh (P ++ lb :: Q) = slash_scan fresh P || slash_scan true Q.
Proof.
  induction P as [|c P IH]; intros fresh Hlb; simpl.
  - rewrite Hlb. reflexivity.
  - destruct (is_linebreak c); [apply IH; exact Hlb|].
    destruct fresh; [|apply IH; exact Hlb].
    destruct (c =? SLASH)%N; [reflexivity|].
    destruct (is_space c); apply IH; exact Hlb.
Qed.

Lemma scan_extend P Q : forall fresh,
  slash_scan fresh P = true -> slash_scan fresh (P ++ Q) = true.
Proof.
  induction P as [|c P IH]; intros fresh H; simpl in *; [discriminate|].
  destruct (is_linebreak c); [apply IH; exact H|].
  destruct fresh; [|apply IH; exact H].
  destruct (c =? SLASH)%N; [reflexivity|].
  destruct (is_space c); apply IH; exact H.
Qed.

(** X1. Two prompts joined by a line break hold a slash command exactly
    when one of them does, and text added at the end of a prompt that
    holds one never hides it. *)
Theorem slash_commands_of_joined_prompts (P Q : str) (lb : char) :
  is_linebreak lb = true ->
  looks_like_slash_commands (Some (P ++ lb :: Q))
  = looks_like_slash_commands (Some P) || looks_like_slash_commands (Some Q)
  /\ (looks_like_slash_commands (Some P) = true ->
      looks_like_slash_commands (Some (P ++ Q)) = true).
Proof.
  intros Hlb. rewrite !looks_like_scan. split.
  - apply scan_join. exact Hlb.
  - apply scan_extend.
Qed.

Lemma slash_commands_of_joined_prompts_witness :
  looks_like_slash_commands (Some (py "fix the bug" ++ NL :: py "  /clear"))
  = looks_like_slash_commands (Some (py "fix the bug"))
    || looks_like_slash_commands (Some (py "  /clear"))
  /\ (looks_like_slash_commands (Some (py "fix the bug")) = true ->
      looks_like_slash_commands (Some (py "fix the bug" ++ py "  /clear")) = true).
Proof.
  apply (slash_commands_of_joined_prompts (py "fix the bug") (py "  /clear") NL).
  reflexivity.
Defined.


Example sent_lines_sample :
  sent_lines (py "hello" ++ [NL; 32; 32; NL]%N ++ py " /clear" ++ [NL])
  = [py "hello"; py " /clear"].
Proof. reflexivity. Qed.

(** ** Target lookup without a search path *)

Lemma path_div_empty name : path_div [] name = pure_path_str name.
Proof.
  unfold path_div, os_path_join.
  destruct (startswith name (py "/")); reflexivity.
Qed.

(** X3. When [PATH] is unset or empty, [which] looks at one candidate
    only, the name itself (relative to the current directory), and returns
    it exactly when it is a regular file that may be executed. *)
Theorem which_without_search_path (w : World) (name : str) :
  env_PATH w = None \/ env_PATH w = Some [] ->
  which w name
  = Ok (match fs_is_file w (pure_path_str name) with
        | Some true =>
            if fs_access_x w (pure_path_str name) then Some (pure_path_str name)
            else None
        | _ => None
        end).
Proof.
  intros H. unfold which, search_path.
  assert (Hdirs : split_on 58%N (match env_PATH w with Some p => p | None => [] end)
                  = [[]]) by (destruct H as [-> | ->]; reflexivity).
  rewrite Hdirs. cbn [which_scan]. rewrite path_div_empty.
  unfold is_executable_file.
  destruct (fs_is_file w (pure_path_str name)) as [[|]|]; try reflexivity.
  destruct (fs_access_x w (pure_path_str name)); reflexivity.
Qed.

Lemma which_without_search_path_witness :
  which pathless_world (py "claude")
  = Ok (match fs_is_file pathless_world (pure_path_str (py "claude")) with
        | Some true =>
            if fs_access_x pathless_world (pure_path_str (py "claude"))
            then Some (pure_path_str (py "claude"))
            else None
        | _ => None
        end).
Proof.
  apply (which_without_search_path pathless_world (py "claude")).
  left. reflexivity.
Defined.

(** ** Command lines shown or typed *)

Lemma run_word_then_space s quoted acc more :
  truthy s || quoted = true ->
  shlex_run LWord s quoted acc (32%N :: more) = shlex_run LSpace [] false (s :: acc) more.
Proof. intros H. simpl. rewrite H. reflexivity. Qed.

(** X4. The line that starts claude in the tmux pane, read by the rules
    of the shell, is the word [cd], the working directory as one word,
    [&&], and then the parts of the claude command, each as one word with
    its characters unchanged. *)
Theorem launch_line_words (dir : str) (parts : list str) :
  shlex_split (py "cd " ++ shlex_quote dir ++ py " && " ++ command_line parts)
  = Some (py "cd" :: dir :: py "&&" :: parts).
Proof.
  unfold shlex_split.
  change (py "cd " ++ shlex_quote dir ++ py " && " ++ command_line parts)
    with (99%N :: 100%N :: 32%N
          :: (shlex_quote dir ++ 32%N :: 38%N :: 38%N :: 32%N :: command_line parts)).
  change (shlex_run LSpace [] false []
            (99%N :: 100%N :: 32%N
             :: (shlex_quote dir ++ 32%N :: 38%N :: 38%N :: 32%N :: command_line parts)))
    with (shlex_run LSpace [] false [py "cd"]
            (shlex_quote dir ++ 32%N :: 38%N :: 38%N :: 32%N :: command_line parts)).
  destruct (run_quoted_word dir) as (quoted & Hq & Hrun).
  rewrite Hrun, (run_word_then_space dir quoted _ _ Hq).
  change (shlex_run LSpace [] false [dir; py "cd"]
            (38%N :: 38%N :: 32%N :: command_line parts))
    with (shlex_run LSpace [] false [py "&&"; dir; py "cd"] (command_line parts)).
  rewrite run_command_line. reflexivity.
Qed.

Example launch_line_sample :
  shlex_split (py "cd " ++ shlex_quote (py "/tmp/my dir") ++ py " && "
               ++ command_line [py "claude"; py "--resume"; py "it's"])
  = Some [py "cd"; py "/tmp/my dir"; py "&&"; py "claude"; py "--resume"; py "it's"].
Proof. reflexivity. Qed.

(** X5. The commands that the launcher prints for the operator name
    their object exactly: the [tail -f] line names the log file, the
    [tmux attach] line the session, and the snapshot line is the very
    capture command that the controller runs itself. *)
Theorem printed_commands_words (path session target : str) :
  shlex_split (py "tail -f " ++ shlex_quote path) = Some [py "tail"; py "-f"; path]
  /\ shlex_split (py "tmux attach -t " ++ shlex_quote session)
     = Some [py "tmux"; py "attach"; py "-t"; session]
  /\ shlex_split (py "tmux capture-pane -p -J -t " ++ shlex_quote target
                  ++ py " -S -200")
     = Some (capture_argv target 200).
Proof.
  unfold shlex_split. repeat split.
  - change (py "tail -f " ++ shlex_quote path)
      with (command_line [py "tail"; py "-f"; path]).
    apply (run_command_line _ []).
  - change (py "tmux attach -t " ++ shlex_quote session)
      with (command_line [py "tmux"; py "attach"; py "-t"; session]).
    apply (run_command_line _ []).
  - replace (py "tmux capture-pane -p -J -t " ++ shlex_quote target ++ py " -S -200")
      with (command_line (capture_argv target 200)).
    + apply (run_command_line _ []).
    + unfold command_line, capture_argv, tmux_cmd.
      change (decimal 200) with (py "200").
      cbn [map join]. 
      change (shlex_quote (py "tmux")) with (py "tmux").
      change (shlex_quote (py "capture-pane")) with (py "capture-pane").
      change (shlex_quote (py "-p")) with (py "-p").
      change (shlex_quote (py "-J")) with (py "-J").
      change (shlex_quote (py "-t")) with (py "-t").
      change (shlex_quote (py "-S")) with (py "-S").
      change (shlex_quote (py "-" ++ py "200")) with (py "-200").
      reflexivity.
Qed.

(** ** Background launches that fail, and what a successful one shows *)

Lemma stdout_of_app a b : stdout_of (a ++ b) = stdout_of a ++ stdout_of b.
Proof. unfold stdout_of. apply flat_map_app. Qed.

(** X6. When the log directory cannot be created, or the log file cannot
    be opened, the background launch ends with the OS error: nothing was
    written, no process was started and nothing was printed. *)
Theorem background_log_creation_failure
    (w : World) (cmd : list str) (dir : option str) (log_dir : str)
    (notify : bool) (s : State) :
  (os_makedirs w log_dir = false ->
   run_background w cmd dir log_dir notify s
   = (Raise OSError, after [EMakedirs log_dir] s))
  /\ (os_makedirs w log_dir = true ->
      os_open_w w (log_file_path log_dir (localtime w (now s))) = false ->
      run_background w cmd dir log_dir notify s
      = (Raise OSError,
         after [EMakedirs log_dir;
                EOpen (log_file_path log_dir (localtime w (now s)))] s)).
Proof.
  split.
  - intros Hmk. unfold run_background. run_prog. rewrite Hmk. reflexivity.
  - intros Hmk Hop. unfold run_background. run_prog. rewrite Hmk. run_prog.
    rewrite Hop. run_prog. unfold after. rewrite <- app_assoc. reflexivity.
Qed.

Lemma background_log_creation_failure_witness :
  run_background (machine false true (fun _ _ => Child 4242 0 [] []))
    [py "claude"; py "-p"; py "hi"] None (py "/tmp/logs") false (start 0)
  = (Raise OSError, after [EMakedirs (py "/tmp/logs")] (start 0))
  /\ run_background (machine true false (fun _ _ => Child 4242 0 [] []))
       [py "claude"; py "-p"; py "hi"] None (py "/tmp/logs") false (start 0)
     = (Raise OSError,
        after [EMakedirs (py "/tmp/logs");
               EOpen (log_file_path (py "/tmp/logs") sample_time)] (start 0)).
Proof.
  split.
  - apply (proj1 (background_log_creation_failure
                    (machine false true (fun _ _ => Child 4242 0 [] []))
                    [py "claude"; py "-p"; py "hi"] None (py "/tmp/logs") false
                    (start 0))).
    reflexivity.
  - apply (proj2 (background_log_creation_failure
                    (machine true false (fun _ _ => Child 4242 0 [] []))
                    [py "claude"; py "-p"; py "hi"] None (py "/tmp/logs") false
                    (start 0))); reflexivity.
Defined.

(** X7. When the child of a background launch cannot be started, the
    launch ends with the OS error after closing the log file, which keeps
    the header; nothing is printed and no watcher is started. *)
Theorem background_child_cannot_start
    (w : World) (cmd : list str) (dir : option str) (log_dir : str)
    (notify : bool) (s : State) (script_bin : option str) :
  os_makedirs w log_dir = true ->
  os_open_w w (log_file_path log_dir (localtime w (now s))) = true ->
  which w (py "script") = Ok script_bin ->
  spawn w (wrap_with_script script_bin cmd) dir = SpawnFails ->
  let path := log_file_path log_dir (localtime w (now s)) in
  run_background w cmd dir log_dir notify s
  = (Raise OSError,
     after [EMakedirs log_dir; EOpen path;
            EWrite path (header_command cmd);
            EWrite path (header_started (localtime w (now s)));
            EWrite path (header_cwd w dir);
            EFlush path;
            ESpawn (wrap_with_script script_bin cmd) dir (ToFile path) true;
            EClose path] s).
Proof.
  intros Hmk Hop Hsb Hsp path. subst path.
  unfold run_background. run_prog. rewrite Hmk. run_prog. rewrite Hop. run_prog.
  rewrite Hsb, Hsp. run_prog. unfold after. repeat rewrite <- app_assoc. reflexivity.
Qed.

Lemma background_child_cannot_start_witness :
  run_background (machine true true (all_but (py "/usr/bin/script")))
    [py "claude"; py "-p"; py "hi"] None (py "/tmp/logs") true (start 0)
  = (Raise OSError,
     after [EMakedirs (py "/tmp/logs");
            EOpen (log_file_path (py "/tmp/logs") sample_time);
            EWrite (log_file_path (py "/tmp/logs") sample_time)
              (header_command [py "claude"; py "-p"; py "hi"]);
            EWrite (log_file_path (py "/tmp/logs") sample_time)
              (header_started sample_time);
            EWrite (log_file_path (py "/tmp/logs") sample_time)
              (header_cwd (machine true true (all_but (py "/usr/bin/script"))) None);
            EFlush (log_file_path (py "/tmp/logs") sample_time);
            ESpawn (wrap_with_script (Some (py "/usr/bin/script"))
                      [py "claude"; py "-p"; py "hi"]) None
              (ToFile (log_file_path (py "/tmp/logs") sample_time)) true;
            EClose (log_file_path (py "/tmp/logs") sample_time)] (start 0)).
Proof.
  apply (background_child_cannot_start
           (machine true true (all_but (py "/usr/bin/script")))
           [py "claude"; py "-p"; py "hi"] None (py "/tmp/logs") true (start 0)
           (Some (py "/usr/bin/script"))); reflexivity.
Defined.

(** X8. A background launch whose child starts prints five lines (the
    banner, the PID, the log path, a [tail -f] command for the log and a
    [kill] command for the PID) and ends without having slept.  Without
    [--notify] it has started the child only and returns 0; with
    [--notify] it also starts, detached, the watcher [bash -c ...], and
    when that cannot be started it ends with the OS error although the
    child is running and has been announced. *)
Theorem background_launch_report
    (w : World) (cmd : list str) (dir : option str) (log_dir : str)
    (notify : bool) (s : State) (script_bin : option str)
    (pid rc : Z) (out err : str) :
  os_makedirs w log_dir = true ->
  os_open_w w (log_file_path log_dir (localtime w (now s))) = true ->
  which w (py "script") = Ok script_bin ->
  spawn w (wrap_with_script script_bin cmd) dir = Child pid rc out err ->
  let path := log_file_path log_dir (localtime w (now s)) in
  exists s',
    run_background w cmd dir log_dir notify s
    = (if notify
       then match spawn w [py "bash"; py "-c"; watcher_script pid] None with
            | SpawnFails => Raise OSError
            | Child _ _ _ _ => Ok 0
            end
       else Ok 0, s')
    /\ stdout_of (trace s')
       = stdout_of (trace s)
         ++ [py "Background process started:" ++ [NL];
             py "  PID:  " ++ decimalZ pid ++ [NL];
             py "  Log:  " ++ path ++ [NL];
             py "  Tail: " ++ (py "tail -f " ++ shlex_quote path) ++ [NL];
             py "  Stop: kill " ++ decimalZ pid ++ [NL]]
    /\ spawned_of (trace s')
       = spawned_of (trace s)
         ++ wrap_with_script script_bin cmd
            :: (if notify then [[py "bash"; py "-c"; watcher_script pid]] else [])
    /\ stderr_of (trace s') = stderr_of (trace s)
    /\ now s' = now s.
Proof.
  intros Hmk Hop Hsb Hsp path. subst path.
  unfold run_background. run_prog. rewrite Hmk. run_prog. rewrite Hop. run_prog.
  rewrite Hsb, Hsp. run_prog.
  destruct notify; run_prog;
    [destruct (spawn w [py "bash"; py "-c"; watcher_script pid] None)|];
    eexists; (split; [reflexivity|]); cbn [trace now];
    rewrite ?stdout_of_app, ?spawned_of_app, ?stderr_of_app; cbn;
    repeat rewrite <- app_assoc; rewrite ?app_nil_r; auto.
Qed.

Lemma background_launch_report_witness :
  exists s',
    run_background (machine true true (all_but (py "bash")))
      [py "claude"; py "-p"; py "hi"] None (py "/tmp/logs") true (start 0)
    = (if true
       then match spawn (machine true true (all_but (py "bash")))
                    [py "bash"; py "-c"; watcher_script 4242] None with
            | SpawnFails => Raise OSError
            | Child _ _ _ _ => Ok 0
            end
       else Ok 0, s')
    /\ stdout_of (trace s')
       = stdout_of (trace (start 0))
         ++ [py "Background process started:" ++ [NL];
             py "  PID:  " ++ decimalZ 4242 ++ [NL];
             py "  Log:  " ++ log_file_path (py "/tmp/logs") sample_time ++ [NL];
             py "  Tail: "
             ++ (py "tail -f " ++ shlex_quote (log_file_path (py "/tmp/logs") sample_time))
             ++ [NL];
             py "  Stop: kill " ++ decimalZ 4242 ++ [NL]]
    /\ spawned_of (trace s')
       = spawned_of (trace (start 0))
         ++ wrap_with_script (Some (py "/usr/bin/script")) [py "claude"; py "-p"; py "hi"]
            :: (if true then [[py "bash"; py "-c"; watcher_script 4242]] else [])
    /\ stderr_of (trace s') = stderr_of (trace (start 0))
    /\ now s' = now (start 0).
Proof.
  apply (background_launch_report (machine true true (all_but (py "bash")))
           [py "claude"; py "-p"; py "hi"] None (py "/tmp/logs") true (start 0)
           (Some (py "/usr/bin/script")) 4242 0 [] []); reflexivity.
Defined.

Example background_watcher_missing :
  fst (run_background (machine true true (all_but (py "bash")))
         [py "claude"; py "-p"; py "hi"] None (py "/tmp/logs") true (start 0))
  = Raise OSError.
Proof. vm_compute. reflexivity. Qed.

(** ** Typing the prompt *)

Lemma subprocess_run_tmux_ok w args stdout s :
  tmux_ok w ->
  exists out err,
    subprocess_run w (tmux_cmd args) None stdout s
    = (Ok (0, out, err), after [ESpawn (tmux_cmd args) None stdout false] s).
Proof.
  intros Hok. destruct (Hok args None) as (pid & out & err & Hsp).
  exists out, err. unfold subprocess_run. run_prog. rewrite Hsp. reflexivity.
Qed.

Lemma check_call_tmux_ok w args s :
  tmux_ok w ->
  check_call w (tmux_cmd args) s
  = (Ok tt, after [ESpawn (tmux_cmd args) None Inherited false] s).
Proof.
  intros Hok. destruct (subprocess_run_tmux_ok w args Inherited s Hok) as (out & err & H).
  unfold check_call. unfold bind at 1. rewrite H. reflexivity.
Qed.

Lemma tmux_ok_usable w : tmux_ok w -> tmux_usable w.
Proof.
  intros Hok args dir H. destruct (Hok args dir) as (pid & out & err & Hsp). congruence.
Qed.




(** X10. With a delay that [time.sleep] does not accept, typing stops at
    the first line: the line and Enter are sent, then the sleep raises and
    no other line is typed.  The exception is [ValueError] for a negative
    delay that the platform's time type can hold, and [OverflowError] for
    one beyond [SLEEP_MAX_MS] milliseconds, whatever its sign. *)
Theorem typing_with_unusable_delay
    (w : World) (target : str) (delay_ms : Z) (line : str) (rest : list str)
    (s : State) :
  tmux_ok w -> delay_ms < 0 \/ SLEEP_MAX_MS < delay_ms ->
  send_prompt_lines w target delay_ms (line :: rest) s
  = (Raise (if (delay_ms <? - SLEEP_MAX_MS) || (SLEEP_MAX_MS <? delay_ms)
            then OverflowError else ValueError),
     after [ESpawn (tmux_cmd [py "send-keys"; py "-t"; target; py "-l"; py "--"; line])
              None Inherited false;
            ESpawn (send_keys target (py "Enter")) None Inherited false] s).
Proof.
  intros Hok Hd. cbn [send_prompt_lines]. unfold bind at 1.
  rewrite (check_call_tmux_ok w _ s Hok).
  unfold bind at 1. rewrite (check_call_tmux_ok w _ _ Hok).
  unfold bind at 1. unfold sleep_arg, sleep.
  destruct ((delay_ms <? - SLEEP_MAX_MS) || (SLEEP_MAX_MS <? delay_ms)) eqn:Hrange.
  - unfold raise, after, send_keys. cbn [now captures trace].
    rewrite <- app_assoc. reflexivity.
  - apply orb_false_iff in Hrange. destruct Hrange as [_ Hhi].
    apply Z.ltb_ge in Hhi.
    destruct (Z.ltb_spec delay_ms 0); [|lia].
    unfold raise, after, send_keys. cbn [now captures trace].
    rewrite <- app_assoc. reflexivity.
Qed.

Lemma typing_with_unusable_delay_witness :
  send_prompt_lines (mac_world 0) sample_target (-1) (py "/clear" :: [py "/help"])
    (start 0)
  = (Raise ValueError,
     after [ESpawn (tmux_cmd [py "send-keys"; py "-t"; sample_target; py "-l"; py "--";
                              py "/clear"]) None Inherited false;
            ESpawn (send_keys sample_target (py "Enter")) None Inherited false]
       (start 0))
  /\ send_prompt_lines (mac_world 0) sample_target (-10000000000000)
       (py "/clear" :: [py "/help"]) (start 0)
     = (Raise OverflowError,
        after [ESpawn (tmux_cmd [py "send-keys"; py "-t"; sample_target; py "-l";
                                 py "--"; py "/clear"]) None Inherited false;
               ESpawn (send_keys sample_target (py "Enter")) None Inherited false]
          (start 0))
  /\ send_prompt_lines (mac_world 0) sample_target 10000000000000
       (py "/clear" :: [py "/help"]) (start 0)
     = (Raise OverflowError,
        after [ESpawn (tmux_cmd [py "send-keys"; py "-t"; sample_target; py "-l";
                                 py "--"; py "/clear"]) None Inherited false;
               ESpawn (send_keys sample_target (py "Enter")) None Inherited false]
          (start 0)).
Proof.
  split; [|split].
  - apply (typing_with_unusable_delay (mac_world 0) sample_target (-1) (py "/clear")
             [py "/help"] (start 0)).
    + intros args dir. exists 4242, [], []. reflexivity.
    + left. lia.
  - apply (typing_with_unusable_delay (mac_world 0) sample_target (-10000000000000)
             (py "/clear") [py "/help"] (start 0)).
    + intros args dir. exists 4242, [], []. reflexivity.
    + left. lia.
  - apply (typing_with_unusable_delay (mac_world 0) sample_target 10000000000000
             (py "/clear") [py "/help"] (start 0)).
    + intros args dir. exists 4242, [], []. reflexivity.
    + right. unfold SLEEP_MAX_MS. lia.
Defined.

Example interactive_negative_delay :
  fst (main (mac_world 0)
         {| arg_prompt := Some (py "/help"); arg_mode := Auto;
            arg_permission_mode := None; arg_allowed_tools := None;
            arg_output_format := None; arg_json_schema := None;
            arg_append_system_prompt := None; arg_system_prompt := None;
            arg_continue_latest := false; arg_resume := None;
            arg_claude_bin := py "/Users/dev/.local/bin/claude";
            arg_cwd := None; arg_notify := false; arg_clipboard := false;
            arg_background := false;
            arg_log_dir := py "/Users/dev/.claude/logs/headless";
            arg_tmux_session := py "claude-code";
            arg_interactive_wait_s := 0; arg_interactive_send_delay_ms := -5;
            arg_extra := [] |} (start 0))
  = Raise ValueError.
Proof. vm_compute. reflexivity. Qed.

(** ** Setting up the session *)

(** X11. Creating the session is fatal, replacing it is not: whatever
    exit status [tmux kill-session] ends with, the controller goes on to
    [tmux new]; when that one exits with a status other than 0 the run ends
    with [CalledProcessError], having started these two processes only and
    typed nothing. *)
Theorem session_creation_failure
    (w : World) (a : Args) (s : State) (tmux_bin : str)
    (pid1 rc1 : Z) (out1 err1 : str) (pid2 rc2 : Z) (out2 err2 : str) :
  which w (py "tmux") = Ok (Some tmux_bin) ->
  spawn w (tmux_cmd [py "kill-session"; py "-t"; arg_tmux_session a]) None
  = Child pid1 rc1 out1 err1 ->
  spawn w (tmux_cmd [py "new"; py "-d"; py "-s"; arg_tmux_session a;
                     py "-n"; py "claude"]) None
  = Child pid2 rc2 out2 err2 ->
  rc2 <> 0 ->
  run_interactive_tmux w a s
  = (Raise CalledProcessError,
     after [ESpawn (tmux_cmd [py "kill-session"; py "-t"; arg_tmux_session a])
              None DevNull false;
            ESpawn (tmux_cmd [py "new"; py "-d"; py "-s"; arg_tmux_session a;
                              py "-n"; py "claude"]) None Inherited false] s).
Proof.
  intros Htb Hkill Hnew Hrc.
  pose proof (which_truthy _ _ _ Htb) as Ht.
  unfold run_interactive_tmux. unfold bind at 1. unfold lift at 1. rewrite Htb.
  destruct tmux_bin as [|c r]; [discriminate|]. cbn [otruthy negb].
  unfold bind at 1. unfold subprocess_run at 1. run_prog. rewrite Hkill. run_prog.
  rewrite Hnew. run_prog.
  destruct (Z.eqb_spec rc2 0); [contradiction|].
  unfold after. cbn [now captures trace]. rewrite <- app_assoc. reflexivity.
Qed.

Lemma session_creation_failure_witness :
  run_interactive_tmux (machine true true new_session_fails)
    (default_args (Some (py "/help"))) (start 0)
  = (Raise CalledProcessError,
     after [ESpawn (tmux_cmd [py "kill-session"; py "-t";
                              arg_tmux_session (default_args (Some (py "/help")))])
              None DevNull false;
            ESpawn (tmux_cmd [py "new"; py "-d"; py "-s";
                              arg_tmux_session (default_args (Some (py "/help")));
                              py "-n"; py "claude"]) None Inherited false] (start 0)).
Proof.
  apply (session_creation_failure (machine true true new_session_fails)
           (default_args (Some (py "/help"))) (start 0)
           (py "/opt/homebrew/bin/tmux") 4242 0 [] [] 4242 1 [] []);
    try reflexivity.
  discriminate.
Defined.

(** ** More on waiting for text *)

(** X12. The wait returns [True] at the first capture that shows the
    pattern, right after that capture and without sleeping again, provided
    the capture begins before the deadline; the captures before it, which
    did not show the pattern or failed with an exit status, were each
    followed by one sleep of the poll interval. *)
Theorem wait_returns_at_first_match
    (w : World) (target pattern : str) (timeout_ms poll_ms : Z) (s : State)
    (k : nat) (buf : str) :
  0 < poll_ms ->
  (forall i, (i < k)%nat ->
     now (polled_n w target poll_ms i s) < now s + timeout_ms
     /\ misses w pattern (polled_n w target poll_ms i s)) ->
  now (polled_n w target poll_ms k s) < now s + timeout_ms ->
  cap_result (pane w (captures s + k)) = Buffer buf ->
  contains buf pattern = true ->
  tmux_wait_for_text w target pattern timeout_ms poll_ms s
  = (Ok true, captured w target (polled_n w target poll_ms k s)).
Proof.
  intros Hp Hmiss Hlt Hbuf Hin.
  destruct (polled_n_facts w target poll_ms k s ltac:(lia)) as [Hc Hn].
  destruct (wait_fuel_covers timeout_ms poll_ms k Hp ltac:(lia)) as (fuel & Hfuel).
  rewrite tmux_wait_unfold, Hfuel.
  rewrite wait_loop_after_misses by (assumption || lia).
  apply (wait_loop_hit w target pattern _ poll_ms fuel _ buf); [exact Hlt | | exact Hin].
  rewrite Hc. exact Hbuf.
Qed.

Lemma wait_returns_at_first_match_witness :
  tmux_wait_for_text
    (with_pane (mac_world 0)
       (fun n => {| cap_ms := 40;
                    cap_result := if (n <? 2)%nat then CaptureExitError
                                  else Buffer (py "Do you trust? Yes, I trust this folder") |}))
    sample_target TRUST_PROMPT 2000 500 (start 0)
  = (Ok true,
     captured
       (with_pane (mac_world 0)
          (fun n => {| cap_ms := 40;
                       cap_result := if (n <? 2)%nat then CaptureExitError
                                     else Buffer (py "Do you trust? Yes, I trust this folder") |}))
       sample_target
       (polled_n
          (with_pane (mac_world 0)
             (fun n => {| cap_ms := 40;
                          cap_result := if (n <? 2)%nat then CaptureExitError
                                        else Buffer (py "Do you trust? Yes, I trust this folder") |}))
          sample_target 500 2 (start 0))).
Proof.
  apply (wait_returns_at_first_match _ sample_target TRUST_PROMPT 2000 500 (start 0) 2
           (py "Do you trust? Yes, I trust this folder")).
  - lia.
  - intros i Hi. destruct i as [|[|i]]; [| |lia]; split; cbn; (lia || exact I).
  - cbn. lia.
  - reflexivity.
  - reflexivity.
Defined.

(** X13. Only a capture that ends with an exit status is retried: when
    tmux cannot be executed at all, the wait ends at once with the OS
    error, without sleeping and without another capture. *)
Theorem wait_stops_when_tmux_cannot_run
    (w : World) (target pattern : str) (timeout_ms poll_ms : Z) (s : State) (k : nat) :
  0 < poll_ms ->
  (forall i, (i < k)%nat ->
     now (polled_n w target poll_ms i s) < now s + timeout_ms
     /\ misses w pattern (polled_n w target poll_ms i s)) ->
  now (polled_n w target poll_ms k s) < now s + timeout_ms ->
  cap_result (pane w (captures s + k)) = CaptureExecError ->
  tmux_wait_for_text w target pattern timeout_ms poll_ms s
  = (Raise OSError, captured w target (polled_n w target poll_ms k s)).
Proof.
  intros Hp Hmiss Hlt Hbuf.
  destruct (polled_n_facts w target poll_ms k s ltac:(lia)) as [Hc Hn].
  destruct (wait_fuel_covers timeout_ms poll_ms k Hp ltac:(lia)) as (fuel & Hfuel).
  rewrite tmux_wait_unfold, Hfuel.
  rewrite wait_loop_after_misses by (assumption || lia).
  apply wait_loop_exec_error; [exact Hlt|]. rewrite Hc. exact Hbuf.
Qed.

Lemma wait_stops_when_tmux_cannot_run_witness :
  tmux_wait_for_text bare_world sample_target TRUST_PROMPT 20000 500 (start 0)
  = (Raise OSError,
     captured bare_world sample_target (polled_n bare_world sample_target 500 0 (start 0))).
Proof.
  apply (wait_stops_when_tmux_cannot_run bare_world sample_target TRUST_PROMPT
           20000 500 (start 0) 0).
  - lia.
  - intros i Hi. lia.
  - cbn. lia.
  - reflexivity.
Defined.

Section WaitBound.
Variable w : World.
Variables target pattern : str.
Variables deadline poll_ms : Z.

Local Abbreviation loop := (wait_loop w target pattern deadline poll_ms).

End WaitBound.


(** ** What each runner may do *)

Lemma emits_only_ret (P : Event -> Prop) {A} (a : A) : emits_only P (ret a).
Proof. intros s. exists []. cbn. rewrite app_nil_r. auto. Qed.

Lemma emits_only_raise (P : Event -> Prop) {A} e : emits_only P (@raise A e).
Proof. intros s. exists []. cbn. rewrite app_nil_r. auto. Qed.

Lemma emits_only_lift (P : Event -> Prop) {A} (r : Result A) : emits_only P (lift r).
Proof. intros s. exists []. cbn. rewrite app_nil_r. auto. Qed.

Lemma emits_only_clock (P : Event -> Prop) : emits_only P clock.
Proof. intros s. exists []. cbn. rewrite app_nil_r. auto. Qed.

Lemma emits_only_emit (P : Event -> Prop) ev : P ev -> emits_only P (emit ev).
Proof. intros H s. exists [ev]. cbn. auto. Qed.

Lemma emits_only_sleep (P : Event -> Prop) ms : P (ESleep ms) -> emits_only P (sleep ms).
Proof.
  intros H s. unfold sleep. destruct (ms <? 0).
  - exists []. cbn. rewrite app_nil_r. auto.
  - exists [ESleep ms]. cbn. auto.
Qed.

Lemma emits_only_sleep_arg (P : Event -> Prop) limit ms :
  P (ESleep ms) -> emits_only P (sleep_arg limit ms).
Proof.
  intros H. unfold sleep_arg.
  destruct ((ms <? - limit) || (limit <? ms));
    [apply emits_only_raise | apply emits_only_sleep; exact H].
Qed.

Lemma emits_only_bind (P : Event -> Prop) {A B} (c : M A) (k : A -> M B) :
  emits_only P c -> (forall a, emits_only P (k a)) -> emits_only P (bind c k).
Proof.
  intros Hc Hk s. unfold bind. destruct (Hc s) as (evs & Ht & Hf).
  destruct (c s) as [[a|e|] s1]; cbn [snd] in *; try (exists evs; auto; fail).
  destruct (Hk a s1) as (evs2 & Ht2 & Hf2).
  exists (evs ++ evs2). rewrite Ht2, Ht, app_assoc. split; [reflexivity|].
  apply Forall_app. auto.
Qed.

Lemma emits_only_try_except (P : Event -> Prop) {A} (c h : M A) e :
  emits_only P c -> emits_only P h -> emits_only P (try_except c e h).
Proof.
  intros Hc Hh s. unfold try_except. destruct (Hc s) as (evs & Ht & Hf).
  destruct (c s) as [[a|e'|] s1]; cbn [snd] in *; try (exists evs; auto; fail).
  destruct (exn_eqb e' e); [|exists evs; auto].
  destruct (Hh s1) as (evs2 & Ht2 & Hf2).
  exists (evs ++ evs2). rewrite Ht2, Ht, app_assoc. split; [reflexivity|].
  apply Forall_app. auto.
Qed.

Lemma emits_only_best_effort (P : Event -> Prop) c :
  emits_only P c -> emits_only P (best_effort c).
Proof.
  intros Hc s. unfold best_effort. destruct (Hc s) as (evs & Ht & Hf).
  destruct (c s) as [[a|e'|] s1]; cbn [snd] in *; exists evs; auto.
Qed.

Lemma emits_only_finally (P : Event -> Prop) {A} (c : M A) f :
  emits_only P c -> emits_only P f -> emits_only P (finally c f).
Proof.
  intros Hc Hf s. unfold finally. destruct (Hc s) as (evs & Ht & Hfa).
  destruct (c s) as [r s1]. cbn [snd] in *.
  destruct (Hf s1) as (evs2 & Ht2 & Hfa2).
  assert (Hall : trace (snd (f s1)) = trace s ++ evs ++ evs2 /\ Forall P (evs ++ evs2)).
  { rewrite Ht2, Ht, app_assoc. split; [reflexivity | apply Forall_app; auto]. }
  destruct (f s1) as [[u|e|] s2]; cbn [snd] in *; exists (evs ++ evs2); exact Hall.
Qed.

Lemma emits_only_capture (P : Event -> Prop) w target lines :
  P (ESpawn (capture_argv target lines) None Piped false) ->
  emits_only P (tmux_capture w target lines).
Proof.
  intros H s. exists [ESpawn (capture_argv target lines) None Piped false].
  unfold tmux_capture. destruct (cap_result (pane w (captures s))); cbn; auto.
Qed.

Ltac step_emits :=
  first
    [ apply emits_only_ret | apply emits_only_raise | apply emits_only_lift
    | apply emits_only_clock
    | apply emits_only_emit; cbn; eauto
    | apply emits_only_sleep; cbn; eauto
    | apply emits_only_sleep_arg; cbn; eauto
    | apply emits_only_capture; cbn; eauto
    | apply emits_only_best_effort | apply emits_only_try_except
    | apply emits_only_finally
    | apply emits_only_bind; [|intro]
    | match goal with
      | |- emits_only _ (if ?b then _ else _) => destruct b
      | |- emits_only _ (match ?x with _ => _ end) => destruct x
      | |- emits_only _ (let '(_, _) := ?x in _) => destruct x
      end ].

Lemma emits_only_wait_loop (P : Event -> Prop) w target pattern deadline poll_ms fuel :
  P (ESpawn (capture_argv target 200) None Piped false) ->
  P (ESleep poll_ms) ->
  emits_only P (wait_loop w target pattern deadline poll_ms fuel).
Proof.
  intros Hc Hs. induction fuel as [|fuel IH]; cbn [wait_loop].
  - apply emits_only_lift.
  - repeat first [exact IH | step_emits].
Qed.

(** X16. While it waits for text the controller does nothing but capture
    the pane of its target and sleep for the poll interval: it sends no
    key, prints nothing and starts no other process. *)
Theorem wait_only_captures_and_sleeps
    (w : World) (target pattern : str) (timeout_ms poll_ms : Z) (s : State) :
  exists evs,
    trace (snd (tmux_wait_for_text w target pattern timeout_ms poll_ms s))
    = trace s ++ evs
    /\ Forall (fun ev => ev = ESpawn (capture_argv target 200) None Piped false
                         \/ ev = ESleep poll_ms) evs.
Proof.
  rewrite tmux_wait_unfold.
  apply (emits_only_wait_loop
           (fun ev => ev = ESpawn (capture_argv target 200) None Piped false
                      \/ ev = ESleep poll_ms)); auto.
Qed.

Lemma emits_only_subprocess_run (P : Event -> Prop) w argv dir stdout :
  P (ESpawn argv dir stdout false) -> emits_only P (subprocess_run w argv dir stdout).
Proof. intros H. unfold subprocess_run. repeat step_emits. Qed.

Lemma emits_only_check_call (P : Event -> Prop) w argv :
  P (ESpawn argv None Inherited false) -> emits_only P (check_call w argv).
Proof.
  intros H. unfold check_call.
  apply emits_only_bind; [apply emits_only_subprocess_run; exact H|].
  intros [[rc out] err]. repeat step_emits.
Qed.

Lemma emits_only_wait (P : Event -> Prop) w target pattern timeout_ms poll_ms :
  P (ESpawn (capture_argv target 200) None Piped false) ->
  P (ESleep poll_ms) ->
  emits_only P (tmux_wait_for_text w target pattern timeout_ms poll_ms).
Proof.
  intros Hc Hs. unfold tmux_wait_for_text.
  apply emits_only_bind; [apply emits_only_clock | intro t0].
  apply emits_only_wait_loop; assumption.
Qed.

Lemma session_event_tmux args dir stdout ns :
  session_event (ESpawn (tmux_cmd args) dir stdout ns).
Proof. split; [exists args; reflexivity | exact I]. Qed.

Lemma session_event_other ev :
  match ev with
  | EPrint _ | EPrintErr _ | ESleep _ | EStdin _ => True
  | _ => False
  end -> session_event ev.
Proof. destruct ev; intros H; try contradiction; split; exact I. Qed.

Ltac session_step :=
  first
    [ apply emits_only_subprocess_run; apply session_event_tmux
    | apply emits_only_check_call; apply session_event_tmux
    | apply emits_only_wait;
        [apply session_event_tmux | apply session_event_other; exact I]
    | apply emits_only_capture; apply session_event_tmux
    | apply emits_only_emit; apply session_event_other; exact I
    | apply emits_only_sleep; apply session_event_other; exact I
    | apply emits_only_sleep_arg; apply session_event_other; exact I
    | apply emits_only_ret | apply emits_only_raise | apply emits_only_lift
    | apply emits_only_clock
    | apply emits_only_best_effort | apply emits_only_try_except
    | apply emits_only_bind; [|intro]
    | match goal with
      | |- emits_only _ (if ?b then _ else _) => destruct b
      | |- emits_only _ (match ?x with _ => _ end) => destruct x
      end ].

Lemma session_handle_trust_prompt w target :
  emits_only session_event (handle_trust_prompt w target).
Proof.
  unfold handle_trust_prompt, send_keys. repeat session_step.
Qed.

Lemma session_send_prompt_lines w target delay lines :
  emits_only session_event (send_prompt_lines w target delay lines).
Proof.
  induction lines as [|line rest IH]; cbn [send_prompt_lines].
  - apply emits_only_ret.
  - repeat first [exact IH | session_step].
Qed.

Lemma interactive_events w a : emits_only session_event (run_interactive_tmux w a).
Proof.
  unfold run_interactive_tmux, print, eprint.
  repeat first [apply session_handle_trust_prompt | apply session_send_prompt_lines
               | session_step].
Qed.

(** X17. The interactive runner starts nothing but tmux commands (the
    target program is only ever started by the keys typed into the pane)
    and it creates, opens and writes no file, however the run ends. *)
Theorem interactive_run_only_drives_tmux (w : World) (a : Args) (s : State) :
  exists evs,
    trace (snd (run_interactive_tmux w a s)) = trace s ++ evs
    /\ Forall (fun ev => starts_only_tmux ev /\ no_file_event ev) evs.
Proof.
  destruct (interactive_events w a s) as (evs & Htrace & Hall).
  exists evs. split; [exact Htrace|].
  eapply Forall_impl; [|exact Hall]. intros ev [Htmux Hfile]. split; assumption.
Qed.

(** ** What [main] does on each route *)

Lemma located_args_none w a :
  located_args w a = None ->
  fs_exists_raises w (arg_claude_bin a) = true
  \/ (fs_exists_raises w (arg_claude_bin a) = false
      /\ fs_exists w (arg_claude_bin a) = false
      /\ which w (py "claude") = Ok None).
Proof.
  unfold located_args. cbn [arg_claude_bin set_extra].
  destruct (fs_exists_raises w (arg_claude_bin a)); [left; reflexivity|].
  intros H. right. split; [reflexivity|]. revert H.
  destruct (fs_exists w (arg_claude_bin a)); [discriminate|].
  destruct (which w (py "claude")) as [[c|]|e|] eqn:Hw.
  - pose proof (which_truthy _ _ _ Hw) as Ht. destruct c; discriminate.
  - auto.
  - destruct (which_returns w (py "claude")) as (r & Hr). congruence.
  - destruct (which_returns w (py "claude")) as (r & Hr). congruence.
Qed.

Ltac quiet_step :=
  first
    [ apply emits_only_subprocess_run; exact I
    | apply emits_only_emit; exact I
    | apply emits_only_ret | apply emits_only_raise | apply emits_only_lift
    | apply emits_only_clock
    | apply emits_only_best_effort
    | apply emits_only_bind; [|intro]
    | match goal with
      | |- emits_only _ (if ?b then _ else _) => destruct b
      | |- emits_only _ (match ?x with _ => _ end) => destruct x
      | |- emits_only _ (let '(_, _) := ?x in _) => destruct x
      end ].

Lemma no_file_notify w title message : emits_only no_file_event (notify_macos w title message).
Proof. unfold notify_macos. repeat quiet_step. Qed.

Lemma no_file_run_with_pty w cmd dir : emits_only no_file_event (run_with_pty w cmd dir).
Proof.
  unfold run_with_pty. apply emits_only_bind; [apply emits_only_lift | intro sb].
  apply emits_only_bind; [apply emits_only_subprocess_run; exact I|].
  intros [[rc out] err]. apply emits_only_ret.
Qed.

Lemma no_file_run_for_clipboard w cmd dir :
  emits_only no_file_event (run_for_clipboard w cmd dir).
Proof.
  unfold run_for_clipboard.
  apply emits_only_bind; [apply emits_only_subprocess_run; exact I|].
  intros [[rc out] err]. unfold print_noend, eprint_noend, copy_to_clipboard.
  repeat quiet_step.
Qed.

Lemma no_file_run_interactive w a : emits_only no_file_event (run_interactive_tmux w a).
Proof.
  intros s. destruct (interactive_events w a s) as (evs & Ht & Hf).
  exists evs. split; [exact Ht|].
  eapply Forall_impl; [|exact Hf]. intros ev [_ H]. exact H.
Qed.

(** X18. Only a background launch touches the file system: when the
    route is the synchronous or the interactive one, [main] creates no
    directory and opens, writes, flushes and closes no file, however the
    run ends. *)
Theorem only_background_touches_files (w : World) (a : Args) (s : State) :
  dispatch (arg_background a) (resolve_mode (arg_mode a) (arg_prompt a)) <> ToBackground ->
  exists evs,
    trace (snd (main w a s)) = trace s ++ evs /\ Forall no_file_event evs.
Proof.
  intros Hroute.
  destruct (located_args w a) as [a'|] eqn:Hloc.
  - destruct (located_args_same w a a' Hloc) as (Hm & Hpr & Hbg & _).
    rewrite <- Hm, <- Hpr, <- Hbg in Hroute.
    rewrite (main_located w a a' s Hloc).
    revert s. change (emits_only no_file_event (dispatch_run w a')).
    unfold dispatch_run.
    destruct (dispatch (arg_background a')
                (resolve_mode (arg_mode a') (arg_prompt a'))); [contradiction| |].
    + repeat first [apply no_file_run_interactive | apply no_file_notify | quiet_step].
    + repeat first [apply no_file_run_for_clipboard | apply no_file_run_with_pty
                   | apply no_file_notify | quiet_step].
  - destruct (located_args_none w a Hloc) as [Hr | (Hr & Hex & Hw)].
    + rewrite (main_unlocatable w a s Hr). exists []. cbn [snd].
      split; [symmetry; apply app_nil_r | constructor].
    + rewrite (main_missing w a s Hr Hex Hw). eexists. split; [reflexivity|].
      repeat constructor.
Qed.

Lemma only_background_touches_files_witness :
  exists evs,
    trace (snd (main (mac_world 0) (default_args (Some (py "/help"))) (start 0)))
    = trace (start 0) ++ evs
    /\ Forall no_file_event evs.
Proof.
  apply (only_background_touches_files (mac_world 0) (default_args (Some (py "/help")))
           (start 0)).
  discriminate.
Defined.

(** ** An interactive run that works *)





















(** The same run with a delay or a final wait beyond what [time.sleep]
    accepts ends with [OverflowError]. *)
Example interactive_overlong_delay :
  fst (main (mac_world 0)
         {| arg_prompt := Some (py "/help"); arg_mode := Auto;
            arg_permission_mode := None; arg_allowed_tools := None;
            arg_output_format := None; arg_json_schema := None;
            arg_append_system_prompt := None; arg_system_prompt := None;
            arg_continue_latest := false; arg_resume := None;
            arg_claude_bin := py "/Users/dev/.local/bin/claude";
            arg_cwd := None; arg_notify := false; arg_clipboard := false;
            arg_background := false;
            arg_log_dir := py "/Users/dev/.claude/logs/headless";
            arg_tmux_session := py "claude-code";
            arg_interactive_wait_s := 0;
            arg_interactive_send_delay_ms := 10000000000000;
            arg_extra := [] |} (start 0))
  = Raise OverflowError.
Proof. vm_compute. reflexivity. Qed.




(** ** Arguments that [main] rewrites or ignores *)

(** X20. The binary that is run is the configured path when it exists,
    and otherwise the one found on the search path; one leading [--] of the
    extra arguments is dropped, and what remains of them ends both the
    headless and the interactive command. *)
Theorem command_after_resolution (w : World) (a a' : Args) (s : State) :
  located_args w a = Some a' ->
  main w a s = dispatch_run w a' s
  /\ (fs_exists w (arg_claude_bin a) = true -> arg_claude_bin a' = arg_claude_bin a)
  /\ (fs_exists w (arg_claude_bin a) = false ->
      which w (py "claude") = Ok (Some (arg_claude_bin a')))
  /\ (exists flags,
        build_headless_cmd a'
        = arg_claude_bin a' :: flags ++ strip_dashdash (arg_extra a))
  /\ (exists flags,
        interactive_parts a'
        = arg_claude_bin a' :: flags ++ strip_dashdash (arg_extra a))
  /\ (forall rest, arg_extra a = py "--" :: rest -> arg_extra a' = rest).
Proof.
  intros Hloc. split; [apply main_located; exact Hloc|].
  assert (Hextra : arg_extra a' = strip_dashdash (arg_extra a)).
  { unfold located_args in Hloc. cbn [arg_claude_bin set_extra] in Hloc.
    destruct (fs_exists_raises w (arg_claude_bin a)); [discriminate|].
    destruct (fs_exists w (arg_claude_bin a)).
    - injection Hloc as <-. reflexivity.
    - destruct (which w (py "claude")) as [[[|c r]|]|e|]; try discriminate.
      injection Hloc as <-. reflexivity. }
  split; [|split; [|split; [|split]]].
  - intros Hex. unfold located_args in Hloc. cbn [arg_claude_bin set_extra] in Hloc.
    destruct (fs_exists_raises w (arg_claude_bin a)); [discriminate|].
    rewrite Hex in Hloc. injection Hloc as <-. reflexivity.
  - intros Hex. unfold located_args in Hloc. cbn [arg_claude_bin set_extra] in Hloc.
    destruct (fs_exists_raises w (arg_claude_bin a)); [discriminate|].
    rewrite Hex in Hloc.
    destruct (which w (py "claude")) as [[[|c r]|]|e|]; try discriminate.
    injection Hloc as <-. reflexivity.
  - unfold build_headless_cmd. rewrite Hextra. eexists. cbn [app].
    repeat rewrite app_assoc. reflexivity.
  - unfold interactive_parts. rewrite Hextra. eexists. cbn [app].
    repeat rewrite app_assoc. reflexivity.
  - intros rest Hrest. rewrite Hextra, Hrest. reflexivity.
Qed.

Lemma command_after_resolution_witness :
  main guarded_world
    (set_extra (default_args (Some (py "hi"))) [py "--"; py "--verbose"]) (start 0)
  = dispatch_run guarded_world
      (set_claude_bin
         (set_extra (default_args (Some (py "hi"))) [py "--verbose"])
         (py "/usr/bin/claude")) (start 0)
  /\ (fs_exists guarded_world
        (arg_claude_bin (set_extra (default_args (Some (py "hi")))
                           [py "--"; py "--verbose"])) = true ->
      arg_claude_bin
        (set_claude_bin (set_extra (default_args (Some (py "hi"))) [py "--verbose"])
           (py "/usr/bin/claude"))
      = arg_claude_bin (set_extra (default_args (Some (py "hi")))
                          [py "--"; py "--verbose"]))
  /\ (fs_exists guarded_world
        (arg_claude_bin (set_extra (default_args (Some (py "hi")))
                           [py "--"; py "--verbose"])) = false ->
      which guarded_world (py "claude")
      = Ok (Some (arg_claude_bin
                    (set_claude_bin
                       (set_extra (default_args (Some (py "hi"))) [py "--verbose"])
                       (py "/usr/bin/claude")))))
  /\ (exists flags,
        build_headless_cmd
          (set_claude_bin (set_extra (default_args (Some (py "hi"))) [py "--verbose"])
             (py "/usr/bin/claude"))
        = arg_claude_bin
            (set_claude_bin (set_extra (default_args (Some (py "hi"))) [py "--verbose"])
               (py "/usr/bin/claude"))
          :: flags
             ++ strip_dashdash
                  (arg_extra (set_extra (default_args (Some (py "hi")))
                                [py "--"; py "--verbose"])))
  /\ (exists flags,
        interactive_parts
          (set_claude_bin (set_extra (default_args (Some (py "hi"))) [py "--verbose"])
             (py "/usr/bin/claude"))
        = arg_claude_bin
            (set_claude_bin (set_extra (default_args (Some (py "hi"))) [py "--verbose"])
               (py "/usr/bin/claude"))
          :: flags
             ++ strip_dashdash
                  (arg_extra (set_extra (default_args (Some (py "hi")))
                                [py "--"; py "--verbose"])))
  /\ (forall rest,
        arg_extra (set_extra (default_args (Some (py "hi"))) [py "--"; py "--verbose"])
        = py "--" :: rest ->
        arg_extra
          (set_claude_bin (set_extra (default_args (Some (py "hi"))) [py "--verbose"])
             (py "/usr/bin/claude"))
        = rest).
Proof.
  apply (command_after_resolution guarded_world
           (set_extra (default_args (Some (py "hi"))) [py "--"; py "--verbose"])
           (set_claude_bin (set_extra (default_args (Some (py "hi"))) [py "--verbose"])
              (py "/usr/bin/claude"))
           (start 0)).
  reflexivity.
Defined.

Example found_binary_is_run :
  spawned_of (trace (snd (main guarded_world
                            (set_extra (default_args (Some (py "hi")))
                               [py "--"; py "--"; py "--verbose"]) (start 0))))
  = [[py "/usr/bin/claude"; py "-p"; py "hi"; py "--"; py "--verbose"]].
Proof. vm_compute. reflexivity. Qed.

(** X21. The background flag changes nothing when the run is interactive
    (asked for, or chosen from the prompt): with or without it [main] does
    the same things and ends the same way, and in particular creates no
    log file. *)
Theorem background_flag_ignored_when_interactive
    (w : World) (a : Args) (s : State) (flag : bool) :
  resolve_mode (arg_mode a) (arg_prompt a) = Interactive ->
  main w (set_background a flag) s = main w a s.
Proof.
  intros Hmode.
  destruct (located_args w a) as [a'|] eqn:Hloc.
  - assert (Hloc' : located_args w (set_background a flag)
                    = Some (set_background a' flag)).
    { unfold located_args in *. cbn [arg_claude_bin arg_extra set_extra set_background] in *.
      destruct (fs_exists_raises w (arg_claude_bin a)); [discriminate|].
      destruct (fs_exists w (arg_claude_bin a)).
      - injection Hloc as <-. reflexivity.
      - destruct (which w (py "claude")) as [[[|c r]|]|e|]; try discriminate.
        injection Hloc as <-. reflexivity. }
    destruct (located_args_same w a a' Hloc) as (Hm & Hpr & _).
    rewrite (main_located _ _ _ s Hloc'), (main_located _ _ _ s Hloc).
    unfold dispatch_run. cbn [arg_mode arg_prompt arg_background set_background].
    rewrite Hm, Hpr, Hmode, !dispatch_interactive. reflexivity.
  - destruct (located_args_none w a Hloc) as [Hr | (Hr & Hex & Hw)].
    + rewrite (main_unlocatable w a s Hr).
      rewrite (main_unlocatable w (set_background a flag) s Hr). reflexivity.
    + rewrite (main_missing w a s Hr Hex Hw).
      rewrite (main_missing w (set_background a flag) s Hr Hex Hw). reflexivity.
Qed.

Lemma background_flag_ignored_when_interactive_witness :
  main (mac_world 0) (set_background (default_args (Some (py "/help"))) true) (start 0)
  = main (mac_world 0) (default_args (Some (py "/help"))) (start 0).
Proof.
  apply (background_flag_ignored_when_interactive (mac_world 0)
           (default_args (Some (py "/help"))) (start 0) true).
  reflexivity.
Defined.

(** X22. A synchronous headless run without [--clipboard] starts one
    process, the command under [script] when [which] finds it and bare
    otherwise, and returns its exit code; when that process cannot be
    started the run ends with the OS error and no notification is sent;
    with [--notify] one notification follows the child, saying
    [completed] exactly when the exit code is 0 and [failed (exit N)]
    otherwise, and whether it can be delivered changes nothing. *)
Theorem synchronous_run_report
    (w : World) (a a' : Args) (s : State) (script_bin : option str) :
  located_args w a = Some a' ->
  dispatch (arg_background a) (resolve_mode (arg_mode a) (arg_prompt a)) = ToHeadless ->
  arg_clipboard a = false ->
  which w (py "script") = Ok script_bin ->
  let argv := wrap_with_script script_bin (build_headless_cmd a') in
  main w a s
  = match spawn w argv (arg_cwd a) with
    | SpawnFails => (Raise OSError, after [ESpawn argv (arg_cwd a) Inherited false] s)
    | Child _ rc _ _ =>
        (Ok rc,
         after (ESpawn argv (arg_cwd a) Inherited false
                :: (if arg_notify a
                    then [ESpawn (notify_argv (py "Claude Code")
                                    (py "Headless task "
                                     ++ (if rc =? 0 then py "completed"
                                         else py "failed (exit " ++ decimalZ rc ++ py ")")))
                            None Piped false]
                    else [])) s)
    end.
Proof.
  intros Hloc Hroute Hclip Hsb argv. subst argv.
  destruct (located_args_same w a a' Hloc) as (Hm & Hpr & Hbg & Hnt & Hcl & Hcwd & _).
  rewrite <- Hm, <- Hpr, <- Hbg in Hroute. rewrite <- Hcl in Hclip.
  rewrite <- Hnt, <- Hcwd.
  rewrite (main_located w a a' s Hloc), (dispatch_run_headless w a' s Hroute), Hclip.
  unfold bind at 1. rewrite (run_with_pty_eq w _ _ s script_bin Hsb).
  destruct (spawn w (wrap_with_script script_bin (build_headless_cmd a')) (arg_cwd a'))
    as [|pid rc out err]; [reflexivity|].
  destruct (arg_notify a').
  - unfold bind at 1. rewrite notify_macos_eq. unfold ret, after, task_status.
    cbn [now captures trace]. rewrite <- app_assoc. reflexivity.
  - reflexivity.
Qed.

Lemma synchronous_run_report_witness :
  main (mac_world 3) (sample_args (Some (py "hi")) Auto false false true) (start 0)
  = match spawn (mac_world 3)
            (wrap_with_script (Some (py "/usr/bin/script"))
               (build_headless_cmd (sample_args (Some (py "hi")) Auto false false true)))
            (arg_cwd (sample_args (Some (py "hi")) Auto false false true)) with
    | SpawnFails =>
        (Raise OSError,
         after [ESpawn (wrap_with_script (Some (py "/usr/bin/script"))
                          (build_headless_cmd
                             (sample_args (Some (py "hi")) Auto false false true)))
                  (arg_cwd (sample_args (Some (py "hi")) Auto false false true))
                  Inherited false] (start 0))
    | Child _ rc _ _ =>
        (Ok rc,
         after (ESpawn (wrap_with_script (Some (py "/usr/bin/script"))
                          (build_headless_cmd
                             (sample_args (Some (py "hi")) Auto false false true)))
                  (arg_cwd (sample_args (Some (py "hi")) Auto false false true))
                  Inherited false
                :: (if arg_notify (sample_args (Some (py "hi")) Auto false false true)
                    then [ESpawn (notify_argv (py "Claude Code")
                                    (py "Headless task "
                                     ++ (if rc =? 0 then py "completed"
                                         else py "failed (exit " ++ decimalZ rc ++ py ")")))
                            None Piped false]
                    else [])) (start 0))
    end.
Proof.
  apply (synchronous_run_report (mac_world 3)
           (sample_args (Some (py "hi")) Auto false false true)
           (sample_args (Some (py "hi")) Auto false false true)
           (start 0) (Some (py "/usr/bin/script"))); reflexivity.
Defined.
